(** * QR gateway: target resolution, landing page and image composition

    A shallow embedding of the Express server of the repository: the
    [/qrcode] image endpoint, the [/] landing page (both the [main.html]
    and the [choose.html] variants of the entry file),
    [generateQrWithLogo], the messenger routes and the analytics client
    [umami.ts].

    - JavaScript strings are byte strings (UTF-8); the primitives used by
      the handlers ([split], [startsWith], [toUpperCase], [replace],
      [encodeURI], [parseInt]) are defined below.
    - [req.query] is a finite map from parameter names to strings: every
      parameter is given at most once. (For a parameter given twice
      Express hands over an array, on which [split] and [startsWith] throw;
      such requests are outside the model.)
    - Numbers that stay integral are in [Z]; the three products with a
      non-integral factor ([* 0.45], [* 0.35], [* logoScale]) follow
      binary64 rounding, written out on dyadic rationals.
    - The handlers run in a small monad that records the calls to the
      directory (JORFSearch) and to the analytics sink, and in which
      [return res...] is an early exit.
    - The libraries [qrcode] and [sharp] are taken at their boundary:
      what they answer is part of [Assets], and a call that throws leads
      to the [catch] clause of [/qrcode] and its HTTP 500 answer. *)

From Stdlib Require Import ZArith Ascii String Lia Bool.
From stdpp Require Import gmap strings list.

Local Open Scope Z_scope.

(** ** JavaScript string primitives *)

Module Js.

(** The double quote character, for the literals of the source that
    contain one. *)
Definition dq : string :=
  String (Ascii false true false false false true false false) EmptyString.

(** Truthiness of a string: [Boolean(s)], [s ? a : b], [!s]. *)
Definition truthy (s : string) : bool :=
  match s with EmptyString => false | String _ _ => true end.

(** Truthiness of a possibly undefined or null string. *)
Definition truthy_opt (o : option string) : bool :=
  match o with Some s => truthy s | None => false end.

(** [s.split(" ")]: the pieces between single space characters; empty
    pieces are kept, so the result has one more element than [s] has
    spaces. *)
Fixpoint split_space (s : string) : list string :=
  match s with
  | EmptyString => [EmptyString]
  | String c s' =>
      if Ascii.eqb c " " then EmptyString :: split_space s'
      else match split_space s' with
           | [] => [String c EmptyString]
           | w :: ws => String c w :: ws
           end
  end.

(** [s.startsWith(p)]. *)
Definition startsWith (s p : string) : bool := String.prefix p s.

(** [s.toUpperCase()] on the ASCII letters; other bytes are kept. This
    is the result of JavaScript for a text without a cased letter outside
    ASCII ([is_ascii] below is enough); a letter such as [é] would be
    mapped by JavaScript and is kept here. *)
Definition upper_ascii (c : ascii) : ascii :=
  let n := nat_of_ascii c in
  if (Nat.leb 97 n && Nat.leb n 122)%bool then ascii_of_nat (n - 32) else c.

Fixpoint toUpperCase (s : string) : string :=
  match s with
  | EmptyString => EmptyString
  | String c s' => String (upper_ascii c) (toUpperCase s')
  end.

(** [n] leading characters removed. *)
Fixpoint drop_string (n : nat) (s : string) : string :=
  match n, s with
  | O, _ => s
  | S n', String _ s' => drop_string n' s'
  | S _, EmptyString => EmptyString
  end.

(** First occurrence of [pat] in [s]: the text before it and the text
    after it. *)
Fixpoint find_first (pat s : string) : option (string * string) :=
  if String.prefix pat s then Some (EmptyString, drop_string (String.length pat) s)
  else match s with
       | EmptyString => None
       | String c s' =>
           match find_first pat s' with
           | Some (pre, post) => Some (String c pre, post)
           | None => None
           end
       end.

(** The replacement text of [String.prototype.replace] with a string
    pattern: [$$], [$&], [$`] and [$'] are expanded, every other
    character stands for itself. *)
Fixpoint expand_replacement (matched pre post rep : string) : string :=
  match rep with
  | EmptyString => EmptyString
  | String "$" (String "$" r) => String "$" (expand_replacement matched pre post r)
  | String "$" (String "&" r) => matched +:+ expand_replacement matched pre post r
  | String "$" (String "`" r) => pre +:+ expand_replacement matched pre post r
  | String "$" (String "'" r) => post +:+ expand_replacement matched pre post r
  | String c r => String c (expand_replacement matched pre post r)
  end.

(** [s.replace(pat, rep)] with a string pattern: only the first
    occurrence is replaced. *)
Definition replace (s pat rep : string) : string :=
  match find_first pat s with
  | Some (pre, post) => pre +:+ expand_replacement pat pre post rep +:+ post
  | None => s
  end.

(** [encodeURI]: the characters [A-Z a-z 0-9 ; , / ? : @ & = + $ - _ . ! ~ * ' ( ) #]
    are kept, every other byte becomes [%XX]. *)
Definition uri_kept (c : ascii) : bool :=
  let n := nat_of_ascii c in
  ((Nat.leb 65 n && Nat.leb n 90) || (Nat.leb 97 n && Nat.leb n 122)
   || (Nat.leb 48 n && Nat.leb n 57)
   || existsb (Ascii.eqb c)
        [";"; ","; "/"; "?"; ":"; "@"; "&"; "="; "+"; "$"; "-"; "_"; "."; "!";
         "~"; "*"; "'"; "("; ")"; "#"]%char)%bool.

Definition hex_digit (n : nat) : ascii :=
  if Nat.ltb n 10 then ascii_of_nat (48 + n) else ascii_of_nat (55 + n).

Fixpoint encodeURI (s : string) : string :=
  match s with
  | EmptyString => EmptyString
  | String c s' =>
      if uri_kept c then String c (encodeURI s')
      else
        let n := nat_of_ascii c in
        String "%" (String (hex_digit (n / 16)) (String (hex_digit (n mod 16)) (encodeURI s')))
  end.

(** A text made of ASCII characters only. *)
Fixpoint is_ascii (s : string) : bool :=
  match s with
  | EmptyString => true
  | String c s' => Nat.ltb (nat_of_ascii c) 128 && is_ascii s'
  end.

(** Case-insensitive search of a keyword, for the user-agent test. *)
Fixpoint contains (pat s : string) : bool :=
  (String.prefix pat s
   || match s with
      | EmptyString => false
      | String _ s' => contains pat s'
      end)%bool.

Definition contains_ci (pat s : string) : bool :=
  contains (toUpperCase pat) (toUpperCase s).

(** *** [parseInt] and [String] on integers *)

Definition is_space (c : ascii) : bool :=
  let n := nat_of_ascii c in
  ((Nat.leb 9 n && Nat.leb n 13) || Nat.eqb n 32)%bool.

Fixpoint skip_spaces (s : string) : string :=
  match s with
  | String c s' => if is_space c then skip_spaces s' else s
  | EmptyString => EmptyString
  end.

Definition digit_value (radix : Z) (c : ascii) : option Z :=
  let n := Z.of_nat (nat_of_ascii c) in
  let v := if (48 <=? n) && (n <=? 57) then n - 48
           else if (97 <=? n) && (n <=? 122) then n - 87
           else if (65 <=? n) && (n <=? 90) then n - 55
           else 99 in
  if v <? radix then Some v else None.

(** The longest prefix of digits, read in [radix]; [None] when the text
    does not start with a digit. *)
Fixpoint read_digits (radix : Z) (acc : option Z) (s : string) : option Z :=
  match s with
  | EmptyString => acc
  | String c s' =>
      match digit_value radix c with
      | Some v => read_digits radix (Some (default 0 acc * radix + v)) s'
      | None => acc
      end
  end.

(** [parseInt(s)]; [None] is [NaN]. The result is the exact integer
    read, which is the JavaScript number as long as it is below [2 ^ 53];
    a longer run of digits is rounded by JavaScript to the nearest
    binary64 number. *)
Definition parseInt (s : string) : option Z :=
  let s1 := skip_spaces s in
  let '(neg, s2) :=
    match s1 with
    | String "-" r => (true, r)
    | String "+" r => (false, r)
    | _ => (false, s1)
    end in
  let '(radix, s3) :=
    match s2 with
    | String "0" (String "x" r) => (16, r)
    | String "0" (String "X" r) => (16, r)
    | _ => (10, s2)
    end in
  match read_digits radix None s3 with
  | Some v => Some (if neg then - v else v)
  | None => None
  end.

(** Decimal digits of a natural number, most significant first. *)
Fixpoint digits_fuel (fuel : nat) (n : Z) (acc : string) : string :=
  match fuel with
  | O => acc
  | S f =>
      let acc' := String (ascii_of_nat (48 + Z.to_nat (n mod 10))) acc in
      if n <? 10 then acc' else digits_fuel f (n / 10) acc'
  end.

(** [String(n)] for an integer, and for [NaN]: the decimal digits, which
    is what JavaScript prints for an integer below [10 ^ 21] that is a
    binary64 number (every integer below [2 ^ 53] is one). *)
Definition String_of_int (n : Z) : string :=
  if n <? 0 then String "-" (digits_fuel (S (Z.to_nat (Z.log2 (- n)))) (- n) EmptyString)
  else digits_fuel (S (Z.to_nat (Z.log2 n))) n EmptyString.

Definition String_of_number (n : option Z) : string :=
  match n with Some z => String_of_int z | None => "NaN" end.

End Js.


(** ** Numbers

    A finite JavaScript number is a dyadic rational [dnum * 2 ^ dexp].
    A product is rounded to the nearest number with a 53-bit significand,
    ties to even; [Math.floor] and [Math.round] are exact. The values
    that occur are far from the overflow and subnormal ranges. *)

Module Num.

Record dyadic : Type := Dy { dnum : Z; dexp : Z }.

Definition of_Z (n : Z) : dyadic := Dy n 0.

Definition mul (a b : dyadic) : dyadic :=
  Dy (dnum a * dnum b) (dexp a + dexp b).

(** A non-negative integer [n] rounded to 53 significant bits: the
    result [(q, s)] stands for [q * 2 ^ s]. *)
Definition round53 (n : Z) : Z * Z :=
  let s := Z.log2 n + 1 - 53 in
  if s <=? 0 then (n, 0)
  else
    let q := n / 2 ^ s in
    let r := n mod 2 ^ s in
    let half := 2 ^ (s - 1) in
    if (half <? r) || ((r =? half) && Z.odd q) then (q + 1, s) else (q, s).

(** Rounding of an exact value to binary64. *)
Definition fl (x : dyadic) : dyadic :=
  let '(q, s) := round53 (Z.abs (dnum x)) in
  Dy (Z.sgn (dnum x) * q) (dexp x + s).

(** [a * b] on numbers. *)
Definition js_mul (a b : dyadic) : dyadic := fl (mul a b).

(** [Math.floor]. *)
Definition floor (x : dyadic) : Z :=
  if 0 <=? dexp x then dnum x * 2 ^ dexp x else dnum x / 2 ^ (- dexp x).

(** [Math.round]: the nearest integer, a tie going up. *)
Definition round (x : dyadic) : Z :=
  if 0 <=? dexp x then dnum x * 2 ^ dexp x
  else (dnum x + 2 ^ (- dexp x - 1)) / 2 ^ (- dexp x).

(** [x <= y]. *)
Definition leb (x y : dyadic) : bool :=
  let e := Z.min (dexp x) (dexp y) in
  dnum x * 2 ^ (dexp x - e) <=? dnum y * 2 ^ (dexp y - e).

(** [n / 2] for an integer [n] (exact in binary64). *)
Definition half (n : Z) : dyadic := Dy n (-1).

(** The literals [0.45] and [0.35]: [0x1.ccccccccccccdp-2] and
    [0x1.6666666666666p-2]. *)
Definition c0_45 : dyadic := Dy 8106479329266893 (-54).
Definition c0_35 : dyadic := Dy 6305039478318694 (-54).

End Num.

(** ** Data model *)

(** [type FollowType]. *)
Inductive FollowType : Type := people | function_tag | organisation.

(** Records returned by the directory. Only the fields the server reads
    are kept. *)
Record PersonItem : Type := { prenom : string; nom : string }.
Record OrganisationItem : Type := { org_id : string; org_name : string }.

(** The directory client ([JORFSearch.utils.ts]) is an external service:
    its three lookups are taken as functions from the query to the list
    of matches. A lookup that rejects (the service cannot be reached, its
    answer is not of the expected shape) is outside this model: the
    handlers are described for lookups that answer. *)
Record Directory : Type := {
  callJORFSearchPeople : string → list PersonItem;
  callJORFSearchOrganisationByWikidataId : string → list OrganisationItem;
  callJORFSearchTag : string → list string;
}.

(** [process.env]. *)
Record Env : Type := {
  PORT : option string;
  NODE_ENV : option string;
  TELEGRAM_BOT_NAME : option string;
  WHATSAPP_BOT__PHONE_NUMBER : option string;
  MATRIX_BOT_USERNAME : option string;
  TCHAP_BOT_USERNAME : option string;
  UMAMI_HOST : option string;
  UMAMI_ID : option string;
}.

(** Files read from the server's directory: the page templates, the
    messenger blocks spliced into them (HTML literals of the source, whose
    text no handler inspects), the frame's metadata as [sharp] reports it,
    the font and the pixel size of the image found at a logo path.

    With them, what the image libraries answer:
    - [qr_image_width text width margin] is the pixel width of the square
      bitmap that [QRCode.toBuffer(text, { errorCorrectionLevel: "H",
      width, margin })] draws, and [None] when the call throws, as it does
      for a text too long for a symbol at that level. The library reaches
      the requested width when the symbol with its margins is not wider,
      and draws four pixels per module otherwise.
    - [svg_text_loads text] tells whether [sharp] reads the SVG text layer
      whose [<text>] element holds [text]. The handler writes the text
      into the element as it is, so that a text with [<] or a bare [&] is
      not read. *)
Record Assets : Type := {
  INDEX_PAGE_CONTENT : string;
  CHOOSE_PAGE_CONTENT : string;
  WHATSAPP_BLOCK : string;
  TELEGRAM_BLOCK : string;
  MATRIX_BLOCK : string;
  TCHAP_BLOCK : string;
  frame_metadata : option Z * option Z;
  FONT_BASE64 : string;
  logo_metadata : string → Z * Z;
  qr_image_width : string → Z → Z → option Z;
  svg_text_loads : string → bool;
}.

(** An incoming request: the parsed query string and the user agent.
    Every query parameter is a single text, as Express delivers it when
    the parameter occurs once in the URL. *)
Record Request : Type := {
  query : gmap string string;
  user_agent : option string;
}.

(** *** Images

    An image is described by how it was produced; [Composite base layers]
    is [sharp(base).composite(layers)], each layer with its left and top
    offset, later layers painted over earlier ones. *)
Inductive Raster : Type :=
  | QrPng (text errorCorrectionLevel : string) (width margin : Z) (dark light : string)
  | ResizedPng (path : string) (width height : Z)
  | FramePng (path : string)
  | TextSvg (width height font_size : Z) (fill : string) (hidden : bool) (text : string)
  | Composite (base : Raster) (layers : list Layer)
with Layer : Type :=
  | Overlay (input : Raster) (left top : Z).

(** Pixel width asked for a QR bitmap, with or without its logo: the
    [width] option given to [QRCode.toBuffer]. The bitmap drawn has that
    width when the symbol with its margins is not wider, which is so for
    every symbol at the width 600 that the server asks for (the largest
    symbol, with a margin of one module, is 179 modules wide);
    [qr_image_width] has the width drawn. *)
Definition qr_width (r : Raster) : option Z :=
  match r with
  | QrPng _ _ w _ _ _ => Some w
  | Composite (QrPng _ _ w _ _ _) _ => Some w
  | _ => None
  end.

(** *** Pages

    A rendered page is the template together with the calls
    [content.replace(placeholder, value)] applied to it, in order. The
    values the handler computed on the way are kept beside them. *)
Record Page : Type := {
  page_template : string;
  page_replacements : list (string * string);
  page_followType : FollowType;
  page_followArg : string;
  page_followLabel : string;
  page_startCommand : string;
  page_smoothFlowCommand : string;
}.

(** The HTML text of a page. *)
Definition page_content (p : Page) : string :=
  fold_left (λ content kv, Js.replace content (fst kv) (snd kv))
    (page_replacements p) (page_template p).

(** *** Responses and effects *)

Inductive Response : Type :=
  | Json (status : Z) (error : string)
  | Redirect (url : string)
  | Png (image : Raster)
  | Html (page : Page).

Inductive Event : Type :=
  | SearchPeople (q : string)
  | SearchOrganisation (q : string)
  | SearchTag (q : string)
  | Umami (event : string).

(** A handler step: it reads the events so far and either answers
    (the handler returns at once) or yields a value. *)
Definition M (A : Type) : Type := list Event → (Response + A) * list Event.

Definition ret {A} (a : A) : M A := λ t, (inr a, t).

Definition bind {A B} (m : M A) (k : A → M B) : M B :=
  λ t, match m t with
       | (inl r, t') => (inl r, t')
       | (inr a, t') => k a t'
       end.

Notation "'let*' x ':=' m 'in' k" := (bind m (λ x, k))
  (at level 10, x name, m at level 100, k at level 200).
Notation "'let*' ' p ':=' m 'in' k" := (bind m (λ x, let 'p := x in k))
  (at level 10, p pattern, m at level 100, k at level 200).
Notation "'do' m 'in' k" := (bind m (λ _, k))
  (at level 10, m at level 100, k at level 200).

(** [return res...]: the handler answers and stops. *)
Definition exit {A} (r : Response) : M A := λ t, (inl r, t).

Definition emit (e : Event) : M unit := λ t, (inr tt, t ++ [e]).

(** The response of a handler and the events of the request. *)
Definition run (m : M Response) : Response * list Event :=
  match m [] with
  | (inl r, t) => (r, t)
  | (inr r, t) => (r, t)
  end.

(** ** Constants of the server *)

Definition HOME_WEBSITE_URL : string := "joel-officiel.fr".
Definition PAGE_TITLE_DEFAULT : string := "JOEL - Journal Electronique".
Definition PAGE_TITLE_WITH_NAME : string := "Suivre {NAME} sur JOEL - Journal Electronique".
Definition DEFAULT_QRCODE_SIZE : Z := 500.
Definition FONT_SIZE : Z := 40.
Definition TEXT_COLOR : string := "#62676c".
Definition FRAME_PATH : string := "frame.png".

(** The error bodies. *)
Definition ERR_SIZE_FRAME : string := "Cannot use fixed size and frame at the same tile.".
Definition ERR_NAME : string :=
  "Name parameter must be composed two words minimum: firstname lastname.".
Definition ERR_EXCLUSIVE : string :=
  "Parameters people, function_tag and organisations are exclusive.".
Definition ERR_VERIFICATION : string :=
  "Verification is mandatory when fetching organisation with WikidataId.".
Definition ERR_TOO_MANY : string := "Too many results found on JORFSearch.".
Definition ERR_NO_RESULT : string := "No result found on JORFSearch.".
Definition ERR_NO_PERSON (name : string) : string :=
  "No result found on JORFSearch for person " +:+ Js.dq +:+ name +:+ Js.dq +:+ ".".
Definition ERR_NO_ORGANISATION (id : string) : string :=
  "No result found on JORFSearch for organisation " +:+ Js.dq +:+ id +:+ Js.dq +:+ ".".
Definition ERR_QR_URL : string := "qr_url not initialized".
Definition ERR_LABEL : string := "Follow label not found.".

(** The validation errors under the names of the error taxonomy. *)
Definition AmbiguousTarget : Response := Json 400 ERR_EXCLUSIVE.
Definition InvalidPersonName : Response := Json 400 ERR_NAME.
Definition VerificationRequired : Response := Json 400 ERR_VERIFICATION.
Definition AmbiguousDirectoryMatch : Response := Json 400 ERR_TOO_MANY.
Definition SizeFrameConflict : Response := Json 400 ERR_SIZE_FRAME.
Definition TargetNotFound (r : Response) : Prop :=
  r = Json 400 ERR_NO_RESULT
  ∨ (∃ s, r = Json 400 (ERR_NO_PERSON s))
  ∨ (∃ s, r = Json 400 (ERR_NO_ORGANISATION s)).

(** [/Android|webOS|iPhone|iPad|iPod|BlackBerry|IEMobile|Opera Mini/i.test(ua)]. *)
Definition mobile_user_agent (ua : string) : bool :=
  existsb (λ k, Js.contains_ci k ua)
    ["Android"; "webOS"; "iPhone"; "iPad"; "iPod"; "BlackBerry"; "IEMobile"; "Opera Mini"]%string.

(** [x != undefined] for a query parameter. *)
Definition defined {A} (o : option A) : bool :=
  match o with Some _ => true | None => false end.

(** ** [sharp] and [qrcode] at their boundary *)

(** [sharp(path).resize({ width, fit: "inside" })] followed by
    [metadata()]: the width is the requested one and the height follows
    the aspect ratio of the source image, rounded, at least one pixel.
    [sharp] rejects a width that is not a positive integer. *)
Definition sharp_resize_inside (source : Z * Z) (width : Z) : option (Z * Z) :=
  let '(w, h) := source in
  if (width <=? 0) || (w <=? 0) || (h <=? 0) then None
  else Some (width, Z.max 1 ((2 * h * width + w) / (2 * w))).

(** The options of [generateQrWithLogo]. *)
Record QrOptions : Type := {
  qrSize : Z;
  margin : Z;
  dark : string;
  light : string;
  logoPath : string;
  logoScale : Num.dyadic;
}.

Definition default_options : QrOptions :=
  {| qrSize := 600; margin := 1; dark := "#000000"; light := "#ffffff";
     logoPath := "logo_round.png"; logoScale := Num.c0_45 |}.

Section Server.

Context (env : Env) (assets : Assets) (dir : Directory).

(** *** Values computed at startup *)

Definition isDev : bool :=
  match NODE_ENV env with Some s => String.eqb s "development" | None => false end.

Definition APP_DOMAIN : string :=
  if isDev then "localhost" else "links.joel-officiel.fr".

(** [PORT ? parseInt(PORT) : null], then [appPort ??= 3000]. *)
Definition appPort : option Z :=
  match PORT env with
  | Some p => if Js.truthy p then Js.parseInt p else Some 3000
  | None => Some 3000
  end.

Definition whatsappLinkBase : option string :=
  match WHATSAPP_BOT__PHONE_NUMBER env with
  | Some n => if Js.truthy n then Some ("https://wa.me/" +:+ n +:+ "?text=Bonjour JOEL!") else None
  | None => None
  end.
Definition hasWhatsapp : bool := defined (WHATSAPP_BOT__PHONE_NUMBER env).

Definition telegramLinkBase : option string :=
  match TELEGRAM_BOT_NAME env with
  | Some n => if Js.truthy n then Some ("https://t.me/" +:+ n +:+ "?text=Bonjour JOEL!") else None
  | None => None
  end.
Definition hasTelegram : bool := defined (TELEGRAM_BOT_NAME env).

Definition matrixLinkBase : option string :=
  match MATRIX_BOT_USERNAME env with
  | Some n => if Js.truthy n then Some ("https://matrix.to/#/@" +:+ n) else None
  | None => None
  end.
Definition hasMatrix : bool := defined (MATRIX_BOT_USERNAME env).

Definition tchapLinkBase : option string :=
  match TCHAP_BOT_USERNAME env with
  | Some n => if Js.truthy n then Some ("https://www.tchap.gouv.fr/#/@" +:+ n) else None
  | None => None
  end.
Definition hasTchap : bool := defined (TCHAP_BOT_USERNAME env).

Definition hasSignal : bool := false.

(** The two checks that throw while the module loads. *)
Definition startup_ok : bool :=
  (hasTelegram || hasWhatsapp || hasMatrix || hasTchap || hasSignal)
  && (isDev || (defined (UMAMI_HOST env) && defined (UMAMI_ID env))).

Definition APP_URL : string :=
  "http" +:+ (if isDev then "" else "s") +:+ "://" +:+ APP_DOMAIN.
Definition APP_URL_WITH_PORT : string :=
  APP_URL +:+ ":" +:+ Js.String_of_number appPort.
Definition APP_URL_WITH_PORT_QR : string := APP_URL_WITH_PORT +:+ "/qrcode".

(** *** Calls to the directory and to the analytics sink *)

Definition searchPeople (s : string) : M (list PersonItem) :=
  do emit (SearchPeople s) in ret (callJORFSearchPeople dir s).

Definition searchOrganisation (s : string) : M (list OrganisationItem) :=
  do emit (SearchOrganisation s) in ret (callJORFSearchOrganisationByWikidataId dir s).

Definition searchTag (s : string) : M (list string) :=
  do emit (SearchTag s) in ret (callJORFSearchTag dir s).

Definition umami_log (event : string) : M unit := emit (Umami event).

(** *** Pixel sizes and [composite] *)

(** The pixel size of an image; [None] when the library that makes or
    reads it throws. *)
Fixpoint pixel_size (r : Raster) : option (Z * Z) :=
  match r with
  | QrPng text _ width margin _ _ =>
      match qr_image_width assets text width margin with
      | Some b => Some (b, b)
      | None => None
      end
  | ResizedPng _ width height => Some (width, height)
  | FramePng _ =>
      match frame_metadata assets with
      | (Some w, Some h) => Some (w, h)
      | _ => None
      end
  | TextSvg width height _ _ _ text =>
      if svg_text_loads assets text then Some (width, height) else None
  | Composite base _ => pixel_size base
  end.

(** A layer that [sharp] accepts over a base of [W x H] pixels: it can
    be read and is neither wider nor taller than the base. *)
Definition layer_fits (W H : Z) (l : Layer) : bool :=
  let 'Overlay input _ _ := l in
  match pixel_size input with
  | Some (w, h) => (w <=? W) && (h <=? H)
  | None => false
  end.

(** [sharp(base).composite(layers).png().toBuffer()]. [sharp] throws
    when the base or a layer cannot be read and when a layer is larger
    than the base; the offsets are free, and what sticks out of the base
    is cut. *)
Definition sharp_composite (base : Raster) (layers : list Layer) : option Raster :=
  match pixel_size base with
  | Some (W, H) =>
      if forallb (layer_fits W H) layers then Some (Composite base layers) else None
  | None => None
  end.

(** *** [generateQrWithLogo]

    [None] stands for a call that throws: [QRCode.toBuffer] on a text
    that does not fit, [sharp] on a logo width that is not positive or
    on a resized logo larger than the QR bitmap. *)
Definition generateQrWithLogo (qr_url : string) (o : QrOptions) : option Raster :=
  (* 1) QR buffer *)
  let qrBuffer :=
    QrPng (Js.encodeURI qr_url) "H" (qrSize o) (margin o) (dark o) (light o) in
  (* 2) Transparent logo buffer at target size *)
  let targetLogoWidth := Num.floor (Num.js_mul (Num.of_Z (qrSize o)) (logoScale o)) in
  match sharp_resize_inside (logo_metadata assets (logoPath o)) targetLogoWidth with
  | None => None
  | Some (logoWidth, logoHeight) =>
      (* 3) Center the logo directly onto the QR *)
      let left := Num.floor (Num.half (qrSize o - logoWidth)) in
      let top := Num.floor (Num.half (qrSize o - logoHeight)) in
      sharp_composite qrBuffer
        [Overlay (ResizedPng (logoPath o) logoWidth logoHeight) left top]
  end.

(** *** [app.get("/qrcode")]

    The body of the handler is in a [try] block whose [catch] clause
    answers HTTP 500: that is the answer when [generateQrWithLogo] or the
    composition over the frame throws. *)

Definition handle_qrcode (req : Request) : M Response :=
  let q := query req in
  (* Output size *)
  let qr_code_size := default DEFAULT_QRCODE_SIZE (q !! "size" ≫= Js.parseInt) in
  let frameEnabled :=
    match q !! "frame" with Some f => negb (String.eqb f "false") | None => true end in
  if defined (q !! "size") && frameEnabled then exit (Json 400 ERR_SIZE_FRAME) else
  (* Verify on JORFSearch before generation *)
  let verifyOnJORFSearch :=
    match q !! "verify" with Some v => Js.truthy v | None => true end in
  (* name for people *)
  let name := default "" (q !! "name") in
  let* followType :=
    (if Js.truthy name then
       if Nat.ltb (length (Js.split_space name)) 2 then exit (Json 400 ERR_NAME)
       else ret (Some people)
     else ret None) : M (option FollowType) in
  (* organisation *)
  let organisation_id := default "" (q !! "organisation_id") in
  let* '(followType, verifyOnJORFSearch) :=
    (if Js.truthy organisation_id then
       if defined followType then exit (Json 400 ERR_EXCLUSIVE)
       else ret (Some organisation, true) (* must verify to get the name from JORF *)
     else ret (followType, verifyOnJORFSearch)) : M (option FollowType * bool) in
  (* function_tag *)
  let function_tag_ := default "" (q !! "function_tag") in
  let* followType :=
    (if Js.truthy function_tag_ then
       if defined followType then exit (Json 400 ERR_EXCLUSIVE)
       else ret (Some function_tag)
     else ret followType) : M (option FollowType) in
  let* '(followLabel, qr_url) :=
    (match followType with
    | Some people =>
        let* prenomNom :=
          (if verifyOnJORFSearch then
             let* JORFResult := searchPeople name in
             match JORFResult with
             | [] => exit (Json 400 (ERR_NO_PERSON name))
             | first :: _ => ret (prenom first +:+ " " +:+ nom first)
             end
           else ret name) : M string in
        ret (Some prenomNom, Some (APP_URL_WITH_PORT +:+ "?name=" +:+ prenomNom))
    | Some organisation =>
        if negb verifyOnJORFSearch && negb (Js.startsWith organisation_id "Q")
        then exit (Json 400 ERR_VERIFICATION)
        else if verifyOnJORFSearch then
          let* JORFResult := searchOrganisation organisation_id in
          match JORFResult with
          | [] => exit (Json 400 (ERR_NO_ORGANISATION organisation_id))
          | [first] =>
              ret (Some (org_name first),
                    Some (APP_URL_WITH_PORT +:+ "?&organisation=" +:+ organisation_id))
          | _ :: _ :: _ => exit (Json 400 ERR_TOO_MANY)
          end
        else ret (None, None)
    | Some function_tag =>
        do (if verifyOnJORFSearch then
           let* JORFResult := searchTag function_tag_ in
           match JORFResult with
           | [] => exit (Json 400 ERR_NO_RESULT)
           | _ :: _ => ret tt
           end
         else ret tt) : M unit in
        ret (Some function_tag_,
              Some (APP_URL_WITH_PORT +:+ "?&function_tag=" +:+ function_tag_))
    | None => ret (None, None)
    end) : M (option string * option string) in
  if negb (Js.truthy_opt qr_url) then exit (Json 400 ERR_QR_URL) else
  match generateQrWithLogo (Js.encodeURI (default "" qr_url)) default_options with
  | None => exit (Json 500 "QR code generation failed.")
  | Some qrBuffer =>
      if negb frameEnabled then ret (Png qrBuffer)
      else
        (* 2) metadata of the template *)
        let frame := FramePng FRAME_PATH in
        let frameW := default 0 (fst (frame_metadata assets)) in
        let frameH := default 0 (snd (frame_metadata assets)) in
        (* 3) coordinates of the QR *)
        let left := Num.round (Num.half (frameW - qr_code_size)) in
        let top := Num.round (Num.js_mul (Num.of_Z frameH) Num.c0_45) in
        (* 4) SVG overlay for the dynamic text *)
        let textBuffer :=
          TextSvg frameW (FONT_SIZE * 3) FONT_SIZE TEXT_COLOR
            (negb (Js.truthy_opt followLabel)) (default "" followLabel) in
        (* 5) final composition *)
        match sharp_composite frame
                [Overlay qrBuffer left top;
                 Overlay textBuffer 0 (Num.round (Num.js_mul (Num.of_Z frameH) Num.c0_35))]
        with
        | None => exit (Json 500 "QR code generation failed.")
        | Some outputBuffer =>
            do (match followType with
             | Some people => umami_log "/qr-people"
             | Some organisation => umami_log "/qr-organisation"
             | Some function_tag => umami_log "/qr-tag"
             | None => ret tt
             end) : M unit in
            ret (Png outputBuffer)
        end
  end.

(** *** [app.get("/")], entry file with [main.html]

    The body of this handler too is in a [try] block, whose [catch]
    clause answers HTTP 500 with [Page generation failed.]. With query
    parameters that are texts and directory lookups that answer, nothing
    in the block throws, and the clause is not reached. *)

(** The block that shows the QR code. *)
Definition QRCODE_BLOCK (qr_url : string) : string :=
  "
          <div
              class=" +:+ Js.dq +:+ "max-w-md mx-auto mt-5 sm:flex sm:justify-center md:mt-8" +:+ Js.dq +:+ "
          >
          <img id=" +:+ Js.dq +:+ "qrcode" +:+ Js.dq +:+ " class=" +:+ Js.dq +:+ "qrcode" +:+ Js.dq
  +:+ " alt=" +:+ Js.dq +:+ "QR code" +:+ Js.dq +:+ " src=" +:+ Js.encodeURI (qr_url +:+ "&frame=false") +:+ " />
              </div>".

(** The replacements of the messenger blocks and links, the same in both
    entry files. *)
Definition messenger_replacements (smoothFlowCommand : string) : list (string * string) :=
  [("{WHATSAPP_BLOCK}", if hasWhatsapp then WHATSAPP_BLOCK assets else "");
   ("{TELEGRAM_BLOCK}", if hasTelegram then TELEGRAM_BLOCK assets else "");
   ("{MATRIX_BLOCK}", if hasMatrix then MATRIX_BLOCK assets else "");
   ("{TCHAP_BLOCK}", if hasTchap then TCHAP_BLOCK assets else "")]
  ++ match whatsappLinkBase with
     | Some base => [("{WHATSAPP_LINK}", Js.encodeURI (base +:+ " " +:+ smoothFlowCommand))]
     | None => []
     end
  ++ match telegramLinkBase with
     | Some base => [("{TELEGRAM_LINK}", Js.encodeURI (base +:+ " " +:+ smoothFlowCommand))]
     | None => []
     end
  ++ match matrixLinkBase with
     | Some base => [("{MATRIX_LINK}", base)]
     | None => []
     end
  ++ match tchapLinkBase with
     | Some base => [("{TCHAP_LINK}", base)]
     | None => []
     end.

(** The [switch (followType)] that builds the start command; its default
    case redirects to the home website. *)
Definition start_command (followType : option FollowType) (followArg : string)
  : M (FollowType * string) :=
  match followType with
  | Some people =>
      do umami_log "/link-people" in ret (people, "Rechercher " +:+ followArg)
  | Some organisation =>
      do umami_log "/link-organisation" in ret (organisation, "SuivreO " +:+ followArg)
  | Some function_tag =>
      do umami_log "/link-tag" in ret (function_tag, "SuivreF " +:+ followArg)
  | None =>
      do umami_log "/link-default" in
      exit (Redirect (Js.encodeURI ("https://" +:+ HOME_WEBSITE_URL)))
  end.

Definition handle_index (req : Request) : M Response :=
  let q := query req in
  let content := INDEX_PAGE_CONTENT assets in
  let verifyOnJORFSearch :=
    match q !! "verify" with Some v => Js.truthy v | None => true end in
  let* '(followType, followArg, followLabel, qr_url) :=
    (match q !! "name" with
     | Some name =>
         let followArg := name in
         if Nat.ltb (length (Js.split_space followArg)) 2 then exit (Json 400 ERR_NAME)
         else
           let* '(followArg, qr_url) :=
             (if verifyOnJORFSearch then
                let* JORFResult := searchPeople followArg in
                match JORFResult with
                | [] => exit (Json 400 (ERR_NO_PERSON followArg))
                | first :: _ =>
                    let followArg := prenom first +:+ " " +:+ nom first in
                    ret (followArg, Some (APP_URL_WITH_PORT_QR +:+ "?name=" +:+ followArg))
                end
              else ret (followArg, None)) : M (string * option string) in
           ret (Some people, Some followArg, Some followArg, qr_url)
     | None => ret (None, None, None, None)
     end) : M (option FollowType * option string * option string * option string) in
  let* '(followType, followArg, followLabel, qr_url) :=
    (match q !! "organisation_id" with
     | Some organisation_id =>
         let followArg := Js.toUpperCase organisation_id in
         if defined followType then exit (Json 400 ERR_EXCLUSIVE)
         else if negb verifyOnJORFSearch && Js.startsWith followArg "Q"
         then exit (Json 400 ERR_VERIFICATION)
         else
           let* '(followArg, followLabel) :=
             (if verifyOnJORFSearch then
                let* JORFResult := searchOrganisation followArg in
                match JORFResult with
                | [] => exit (Json 400 (ERR_NO_ORGANISATION followArg))
                | [first] => ret (org_id first, Some (org_name first))
                | _ :: _ :: _ => exit (Json 400 ERR_TOO_MANY)
                end
              else ret (followArg, followLabel)) : M (string * option string) in
           ret (Some organisation, Some followArg, followLabel,
                Some (APP_URL_WITH_PORT_QR +:+ "?organisation=" +:+ followArg))
     | None => ret (followType, followArg, followLabel, qr_url)
     end) : M (option FollowType * option string * option string * option string) in
  let* '(followType, followArg, qr_url) :=
    (match q !! "function_tag" with
     | Some tag =>
         let followArg := tag in
         if defined followType then exit (Json 400 ERR_EXCLUSIVE)
         else
           do (if verifyOnJORFSearch then
                 let* JORFResult := searchTag followArg in
                 match JORFResult with
                 | [] => exit (Json 400 ERR_NO_RESULT)
                 | _ :: _ => ret tt
                 end
               else ret tt) : M unit in
           ret (Some function_tag, Some followArg,
                Some (APP_URL_WITH_PORT_QR +:+ "?function_tag=" +:+ followArg))
     | None => ret (followType, followArg, qr_url)
     end) : M (option FollowType * option string * option string) in
  (* Hide the QR code if already on mobile *)
  let isMobile := mobile_user_agent (default "" (user_agent req)) in
  let* '(isMobile, followLabel) :=
    (if negb (Js.truthy_opt qr_url) then
       if isDev then ret (true, Some "Sample label")
       else exit (Redirect (Js.encodeURI APP_URL))
     else ret (isMobile, followLabel)) : M (bool * option string) in
  let qrcode_block :=
    ("{QRCODE_BLOCK}",
     if isMobile && Js.truthy_opt qr_url then QRCODE_BLOCK (default "" qr_url) else "") in
  match followLabel with
  | None => exit (Json 400 ERR_LABEL)
  | Some followLabel =>
      let page_title :=
        ("{PAGE_TITLE}",
         if Js.truthy_opt followArg
         then Js.replace PAGE_TITLE_WITH_NAME "{NAME}" (default "" followArg)
         else PAGE_TITLE_DEFAULT) in
      let followArg := default "" followArg in
      let* '(kind, startCommand) := start_command followType followArg in
      (* flow is prettier with "Rechercher" *)
      let smoothFlowCommand := Js.replace startCommand "Suivre" "Rechercher" in
      ret (Html
             {| page_template := content;
                page_replacements :=
                  [qrcode_block; ("{FOLLOW_LABEL}", followLabel);
                   ("{BASE_URL}", APP_URL_WITH_PORT); page_title]
                  ++ messenger_replacements smoothFlowCommand;
                page_followType := kind;
                page_followArg := followArg;
                page_followLabel := followLabel;
                page_startCommand := startCommand;
                page_smoothFlowCommand := smoothFlowCommand |})
  end.

(** *** [app.get("/")], entry file with [choose.html]

    The list [paramsWithValues] that this variant builds is not read
    again and is left out. As in the other entry file, the [catch] clause
    of the handler is not reached with query parameters that are texts
    and lookups that answer. *)

Definition choose_follow_label (followArg : option string) : string :=
  if Js.truthy_opt followArg
  then "Suivez <b>" +:+ default "" followArg +:+ "</b> sur votre messagerie pr√©f√©r√©e:"
  else "Ouvrez 
                <span class=" +:+ Js.dq +:+ "text-blue-500 font-['Rampart_One']" +:+ Js.dq
       +:+ ">JO</span><span class=" +:+ Js.dq +:+ "text-red-500 font-['Rampart_One']" +:+ Js.dq
       +:+ ">√âL</span>
               sur votre messagerie pr√©f√©r√©e:".

Definition handle_choose (req : Request) : M Response :=
  let q := query req in
  let content := CHOOSE_PAGE_CONTENT assets in
  let verifyOnJORFSearch :=
    match q !! "verify" with Some v => Js.truthy v | None => true end in
  let* '(followType, followArg, qr_url) :=
    (match q !! "name" with
     | Some name =>
         let followArg := name in
         if Nat.ltb (length (Js.split_space followArg)) 2 then exit (Json 400 ERR_NAME)
         else
           let* '(followArg, qr_url) :=
             (if verifyOnJORFSearch then
                let* JORFResult := searchPeople followArg in
                match JORFResult with
                | [] => exit (Json 400 (ERR_NO_PERSON followArg))
                | first :: _ =>
                    let followArg := prenom first +:+ " " +:+ nom first in
                    ret (followArg, Some (APP_URL_WITH_PORT_QR +:+ "?name=" +:+ followArg))
                end
              else ret (followArg, None)) : M (string * option string) in
           ret (Some people, Some followArg, qr_url)
     | None => ret (None, None, None)
     end) : M (option FollowType * option string * option string) in
  let* '(followType, followArg, qr_url) :=
    (match q !! "organisation_id" with
     | Some organisation_id =>
         let followArg := Js.toUpperCase organisation_id in
         if defined followType then exit (Json 400 ERR_EXCLUSIVE)
         else if negb verifyOnJORFSearch && Js.startsWith followArg "Q"
         then exit (Json 400 ERR_VERIFICATION)
         else
           let* followArg :=
             (if verifyOnJORFSearch then
                let* JORFResult := searchOrganisation followArg in
                match JORFResult with
                | [] => exit (Json 400 (ERR_NO_ORGANISATION followArg))
                | [first] => ret (org_id first)
                | _ :: _ :: _ => exit (Json 400 ERR_TOO_MANY)
                end
              else ret followArg) : M string in
           ret (Some organisation, Some followArg,
                Some (APP_URL_WITH_PORT_QR +:+ "?organisation=" +:+ followArg))
     | None => ret (followType, followArg, qr_url)
     end) : M (option FollowType * option string * option string) in
  let* '(followType, followArg, qr_url) :=
    (match q !! "function_tag" with
     | Some tag =>
         let followArg := tag in
         if defined followType then exit (Json 400 ERR_EXCLUSIVE)
         else
           ret (Some function_tag, Some followArg,
                Some (APP_URL_WITH_PORT_QR +:+ "?function_tag=" +:+ followArg))
     | None => ret (followType, followArg, qr_url)
     end) : M (option FollowType * option string * option string) in
  if negb (Js.truthy_opt qr_url) then exit (Json 400 ERR_QR_URL) else
  let qr_url_ := ("{QR_URL}", Js.encodeURI (default "" qr_url +:+ "&frame=false")) in
  (* Hide the QR code if already on mobile *)
  let isMobile := mobile_user_agent (default "" (user_agent req)) in
  let hidden_qr := ("{HIDDEN_QR}", if isMobile then "hidden" else "") in
  (* Show the display name *)
  let followLabel := choose_follow_label followArg in
  let page_title :=
    ("{PAGE_TITLE}",
     if Js.truthy_opt followArg
     then Js.replace PAGE_TITLE_WITH_NAME "{NAME}" (default "" followArg)
     else PAGE_TITLE_DEFAULT) in
  let followArg := default "" followArg in
  let* '(kind, startCommand) := start_command followType followArg in
  (* flow is prettier with "Rechercher" *)
  let smoothFlowCommand := Js.replace startCommand "Suivre" "Rechercher" in
  ret (Html
         {| page_template := content;
            page_replacements :=
              [qr_url_; hidden_qr; ("{FOLLOW_LABEL}", followLabel);
               ("{BASE_URL}", APP_URL_WITH_PORT); page_title]
              ++ messenger_replacements smoothFlowCommand;
            page_followType := kind;
            page_followArg := followArg;
            page_followLabel := followLabel;
            page_startCommand := startCommand;
            page_smoothFlowCommand := smoothFlowCommand |}).

End Server.

(** ** The messenger routes

    [app.get("/whatsapp")] and its siblings answer with
    [res.redirect(url)]; [Redirect] holds the argument of the call. The
    route [/status], which answers a fixed text, is left out. *)

Section Routes.

Context (env : Env).

(** [const signalLinkBase = null]. *)
Definition signalLinkBase : option string := None.

Definition handle_whatsapp : Response :=
  match whatsappLinkBase env with
  | None => Redirect HOME_WEBSITE_URL
  | Some base => Redirect (Js.encodeURI base)
  end.

Definition handle_matrix : Response :=
  match matrixLinkBase env with
  | None => Redirect HOME_WEBSITE_URL
  | Some base => Redirect (Js.encodeURI base)
  end.

Definition handle_tchap : Response :=
  match tchapLinkBase env with
  | None => Redirect HOME_WEBSITE_URL
  | Some base => Redirect (Js.encodeURI base)
  end.

Definition handle_telegram : Response :=
  match telegramLinkBase env with
  | None => Redirect HOME_WEBSITE_URL
  | Some base => Redirect (Js.encodeURI base)
  end.

Definition handle_signal : Response :=
  match signalLinkBase with
  | None => Redirect HOME_WEBSITE_URL
  | Some base => Redirect (Js.encodeURI base)
  end.

End Routes.

(** ** The analytics client ([umami.ts]) *)

Module Umami.

(** The request that [axios.post(endpoint, payload, options)] sends. *)
Record Post : Type := {
  endpoint : string;
  hostname : option string;
  website : option string;
  name : string;
  data : gmap string string;
  type : string;
  header_User_Agent : string;
}.

(** [String(x)] for an environment variable, which may be undefined. *)
Definition String_of_variable (x : option string) : string :=
  default "undefined" x.

(** [log(args)]: in development ([process.env.NODE_ENV === "development"],
    the test of [isDev]) the event is printed and nothing is sent.
    Otherwise the event is posted; [None] for [args.data] is a call
    without [data]. A failure of the call is caught inside [log]. *)
Definition log (env : Env) (event : string) (args_data : option (gmap string string))
  : option Post :=
  if isDev env then None
  else
    Some {| endpoint := "https://" +:+ String_of_variable (UMAMI_HOST env) +:+ "/api/send";
            hostname := UMAMI_HOST env;
            website := UMAMI_ID env;
            name := event;
            data := <["messageApp" := "qr-gateway"%string]> (default ∅ args_data);
            type := "event";
            header_User_Agent :=
              "Mozilla/5.0 (X11; Linux x86_64; rv:109.0) Gecko/20100101 Firefox/115.0" |}.

(** The requests sent for the analytics events of a run, in order; the
    handlers call [log] without [data]. *)
Definition posts (env : Env) (t : list Event) : list Post :=
  omap (λ e, match e with Umami event => log env event None | _ => None end) t.

End Umami.

(** ** Vocabulary of the specification *)

(** A kind-specific parameter counts as present when it is not empty. *)
Definition param (req : Request) (key : string) : string :=
  default "" (query req !! key).

Definition present (req : Request) (key : string) : bool :=
  Js.truthy (param req key).

Definition present_count (req : Request) : nat :=
  (Nat.b2n (present req "name") + Nat.b2n (present req "organisation_id")
   + Nat.b2n (present req "function_tag"))%nat.

(** The tokens of a text separated by whitespace: the maximal runs of
    characters that are not whitespace. *)
Fixpoint whitespace_tokens_from (current : string) (s : string) : list string :=
  match s with
  | EmptyString => if Js.truthy current then [current] else []
  | String c s' =>
      if Js.is_space c
      then (if Js.truthy current then [current] else []) ++ whitespace_tokens_from "" s'
      else whitespace_tokens_from (current +:+ String c EmptyString) s'
  end.

Definition whitespace_tokens (s : string) : list string :=
  whitespace_tokens_from "" s.

(** The verb of the start command for each kind of target. *)
Definition Verb (kind : FollowType) : string :=
  match kind with
  | people => "Rechercher"
  | organisation => "SuivreO"
  | function_tag => "SuivreF"
  end.

(** The marketing website. *)
Definition MARKETING_URL : string := "https://" +:+ HOME_WEBSITE_URL.

(** Whether the handlers verify the target on the directory, as they
    read the [verify] parameter: [Boolean(req.query.verify)], and [true]
    when the parameter is missing. *)
Definition verification_requested (req : Request) : bool :=
  match query req !! "verify" with Some v => Js.truthy v | None => true end.

(** Frame mode: on unless [frame=false]. *)
Definition frame_enabled (req : Request) : bool :=
  match query req !! "frame" with Some f => negb (String.eqb f "false") | None => true end.

(** [size] given while the frame is enabled. *)
Definition size_frame_conflict (req : Request) : bool :=
  defined (query req !! "size") && frame_enabled req.

(** The value the image endpoint parses from [size]. *)
Definition requested_size (req : Request) : Z :=
  default DEFAULT_QRCODE_SIZE (query req !! "size" ≫= Js.parseInt).

(** The QR bitmap inside an image response: the image itself without a
    frame, the first layer over the frame otherwise. *)
Definition qr_bitmap (img : Raster) : option Raster :=
  match img with
  | Composite (FramePng _) (Overlay qr _ _ :: _) => Some qr
  | Composite (QrPng _ _ _ _ _ _) _ => Some img
  | _ => None
  end.

(** The text a QR bitmap encodes. *)
Definition encoded_text (img : Raster) : option string :=
  match qr_bitmap img with
  | Some (Composite (QrPng text _ _ _ _ _) _) => Some text
  | _ => None
  end.

(** The label drawn over the frame, and whether it is hidden. *)
Definition label_layer (img : Raster) : option (bool * string) :=
  match img with
  | Composite (FramePng _) [_; Overlay (TextSvg _ _ _ _ hidden text) _ _] =>
      Some (hidden, text)
  | _ => None
  end.

(** Number of space characters of a text. *)
Fixpoint count_spaces (s : string) : nat :=
  match s with
  | EmptyString => O
  | String c s' => ((if Ascii.eqb c " " then 1 else 0) + count_spaces s')%nat
  end.

(** What a rendered page holds: the start command is the verb of the
    kind followed by the argument, the command of the links is the start
    command after [replace("Suivre", "Rechercher")], and the WhatsApp and
    Telegram links end with that command, URI-encoded. *)
Definition page_commands_ok (env : Env) (p : Page) : Prop :=
  page_startCommand p = Verb (page_followType p) +:+ " " +:+ page_followArg p
  ∧ page_smoothFlowCommand p = Js.replace (page_startCommand p) "Suivre" "Rechercher"
  ∧ (page_followType p = organisation →
     page_smoothFlowCommand p = "RechercherO " +:+ page_followArg p)
  ∧ (page_followType p = function_tag →
     page_smoothFlowCommand p = "RechercherF " +:+ page_followArg p)
  ∧ (∀ base, whatsappLinkBase env = Some base →
       In ("{WHATSAPP_LINK}"%string,
           Js.encodeURI (base +:+ " " +:+ page_smoothFlowCommand p))
         (page_replacements p))
  ∧ (∀ base, telegramLinkBase env = Some base →
       In ("{TELEGRAM_LINK}"%string,
           Js.encodeURI (base +:+ " " +:+ page_smoothFlowCommand p))
         (page_replacements p)).

(** ** Events of a run *)

Definition is_directory_call (e : Event) : bool :=
  match e with Umami _ => false | _ => true end.

(** The calls to the directory among the events of a run. *)
Definition directory_calls (t : list Event) : list Event :=
  List.filter is_directory_call t.

(** The analytics events of a run. *)
Definition analytics_events (t : list Event) : list string :=
  omap (λ e, match e with Umami event => Some event | _ => None end) t.

(** The event logged with a page, and with a framed image. *)
Definition link_event (kind : FollowType) : string :=
  match kind with
  | people => "/link-people"
  | organisation => "/link-organisation"
  | function_tag => "/link-tag"
  end.

Definition qr_event (kind : FollowType) : string :=
  match kind with
  | people => "/qr-people"
  | organisation => "/qr-organisation"
  | function_tag => "/qr-tag"
  end.

(** The query parameter that carries a target of each kind. *)
Definition target_parameter (kind : FollowType) : string :=
  match kind with
  | people => "name"
  | organisation => "organisation_id"
  | function_tag => "function_tag"
  end.

(** The characters of a text. *)
Definition characters (s : string) : list ascii := list_ascii_of_string s.

(** Whether a text is free of the character [$], which [replace] expands
    in a replacement text. *)
Fixpoint no_dollar (s : string) : bool :=
  match s with
  | EmptyString => true
  | String c s' => negb (Ascii.eqb c "$") && no_dollar s'
  end.


(** The query that the landing page gives to the QR image of a target. *)
Definition qr_image_query (kind : FollowType) : string :=
  match kind with
  | people => "?name="
  | organisation => "?organisation="
  | function_tag => "?function_tag="
  end.

(** The query that the image endpoint gives to the landing page of a
    target, in the URL it draws. *)
Definition landing_query (kind : FollowType) : string :=
  match kind with
  | people => "?name="
  | organisation => "?&organisation="
  | function_tag => "?&function_tag="
  end.

(** *** What the image libraries accept *)

(** [qrcode] draws the destination [url], which reaches it encoded
    twice, at the 600 pixels asked for. *)
Definition qr_drawn (assets : Assets) (url : string) : Prop :=
  qr_image_width assets (Js.encodeURI (Js.encodeURI url)) 600 1 = Some 600.

(** The logo of the default options can be resized to its 270 pixels
    and is then no larger than the QR bitmap of 600 pixels. *)
Definition logo_fits (assets : Assets) : bool :=
  match sharp_resize_inside (logo_metadata assets "logo_round.png") 270 with
  | Some (w, h) => (w <=? 600) && (h <=? 600)
  | None => false
  end.

(** The frame is read, it is at least as large as the QR bitmap of 600
    pixels, and the text layer with [label] is read. *)
Definition frame_holds (assets : Assets) (label : string) : bool :=
  match frame_metadata assets with
  | (Some W, Some H) => (600 <=? W) && (600 <=? H) && svg_text_loads assets label
  | _ => false
  end.

(** The WhatsApp and Telegram links of a page, when the messenger is
    configured, are the link base followed by a space and [command],
    URI-encoded. *)
Definition links_carry (env : Env) (p : Page) (command : string) : Prop :=
  (∀ base, whatsappLinkBase env = Some base →
     In ("{WHATSAPP_LINK}"%string, Js.encodeURI (base +:+ " " +:+ command))
       (page_replacements p))
  ∧ (∀ base, telegramLinkBase env = Some base →
       In ("{TELEGRAM_LINK}"%string, Js.encodeURI (base +:+ " " +:+ command))
         (page_replacements p)).

(** The four messengers that can be configured, with the environment
    variable, the link, the placeholders and the route of each. *)
Inductive Messenger : Type := WhatsApp | Telegram | Matrix | Tchap.

Definition messenger_variable (env : Env) (m : Messenger) : option string :=
  match m with
  | WhatsApp => WHATSAPP_BOT__PHONE_NUMBER env
  | Telegram => TELEGRAM_BOT_NAME env
  | Matrix => MATRIX_BOT_USERNAME env
  | Tchap => TCHAP_BOT_USERNAME env
  end.

Definition messenger_linkBase (env : Env) (m : Messenger) : option string :=
  match m with
  | WhatsApp => whatsappLinkBase env
  | Telegram => telegramLinkBase env
  | Matrix => matrixLinkBase env
  | Tchap => tchapLinkBase env
  end.

Definition messenger_block (assets : Assets) (m : Messenger) : string :=
  match m with
  | WhatsApp => WHATSAPP_BLOCK assets
  | Telegram => TELEGRAM_BLOCK assets
  | Matrix => MATRIX_BLOCK assets
  | Tchap => TCHAP_BLOCK assets
  end.

Definition block_placeholder (m : Messenger) : string :=
  match m with
  | WhatsApp => "{WHATSAPP_BLOCK}"
  | Telegram => "{TELEGRAM_BLOCK}"
  | Matrix => "{MATRIX_BLOCK}"
  | Tchap => "{TCHAP_BLOCK}"
  end.

Definition link_placeholder (m : Messenger) : string :=
  match m with
  | WhatsApp => "{WHATSAPP_LINK}"
  | Telegram => "{TELEGRAM_LINK}"
  | Matrix => "{MATRIX_LINK}"
  | Tchap => "{TCHAP_LINK}"
  end.

Definition messenger_route (env : Env) (m : Messenger) : Response :=
  match m with
  | WhatsApp => handle_whatsapp env
  | Telegram => handle_telegram env
  | Matrix => handle_matrix env
  | Tchap => handle_tchap env
  end.

(** The link of a messenger on a page: WhatsApp and Telegram carry the
    command, Matrix and Tchap do not. *)
Definition messenger_link (m : Messenger) (base command : string) : string :=
  match m with
  | WhatsApp | Telegram => Js.encodeURI (base +:+ " " +:+ command)
  | Matrix | Tchap => base
  end.

(** A request with one more query parameter, or with another value for
    it. *)
Definition with_parameter (req : Request) (key value : string) : Request :=
  {| query := <[key := value]> (query req); user_agent := user_agent req |}.

(** ** Sample deployments, directories and requests *)

Module Sample.

Definition production : Env :=
  {| PORT := None; NODE_ENV := Some "production";
     TELEGRAM_BOT_NAME := Some "joel_bot";
     WHATSAPP_BOT__PHONE_NUMBER := Some "33600000000";
     MATRIX_BOT_USERNAME := None; TCHAP_BOT_USERNAME := None;
     UMAMI_HOST := Some "stats.example.org"; UMAMI_ID := Some "joel" |}.

Definition development : Env :=
  {| PORT := Some "8080"; NODE_ENV := Some "development";
     TELEGRAM_BOT_NAME := Some "joel_bot";
     WHATSAPP_BOT__PHONE_NUMBER := None;
     MATRIX_BOT_USERNAME := None; TCHAP_BOT_USERNAME := None;
     UMAMI_HOST := None; UMAMI_ID := None |}.

(** Stand-ins for the image libraries. The text is taken to be encoded
    in byte mode: the symbol has the smallest version (1 to 40) that
    holds the bytes of the text at level H, and [17 + 4 * version]
    modules a side; a text of more than 1273 bytes does not fit. The
    bitmap has the requested width when the symbol with its margins is
    not wider, and four pixels per module otherwise. *)
Definition byte_capacity_H : list Z :=
  [7; 14; 24; 34; 44; 58; 64; 84; 98; 119; 137; 155; 177; 194; 220; 250; 280; 310;
   338; 382; 403; 439; 461; 511; 535; 593; 625; 658; 698; 742; 790; 842; 898; 958;
   983; 1051; 1093; 1139; 1219; 1273].

Fixpoint symbol_version (bytes : Z) (version : Z) (capacities : list Z) : option Z :=
  match capacities with
  | [] => None
  | c :: rest => if bytes <=? c then Some version else symbol_version bytes (version + 1) rest
  end.

Definition qrcode_toBuffer (text : string) (width margin : Z) : option Z :=
  match symbol_version (Z.of_nat (String.length text)) 1 byte_capacity_H with
  | Some version =>
      let symbol := 17 + 4 * version + 2 * margin in
      Some (if symbol <=? width then width else symbol * 4)
  | None => None
  end.

(** A text layer is read when its text is made of printable ASCII
    characters other than [<], [>] and [&]. *)
Definition plain_text (text : string) : bool :=
  forallb (λ c, let n := nat_of_ascii c in
                Nat.leb 32 n && Nat.leb n 126
                && negb (Nat.eqb n 60) && negb (Nat.eqb n 62) && negb (Nat.eqb n 38))
    (list_ascii_of_string text).

(** A frame of 1000 x 1400 pixels and a square logo. *)
Definition files : Assets :=
  {| INDEX_PAGE_CONTENT := "<title>{PAGE_TITLE}</title><h1>{FOLLOW_LABEL}</h1>{WHATSAPP_BLOCK}{TELEGRAM_BLOCK}";
     CHOOSE_PAGE_CONTENT := "<title>{PAGE_TITLE}</title><p>{FOLLOW_LABEL}</p>{WHATSAPP_BLOCK}{TELEGRAM_BLOCK}";
     WHATSAPP_BLOCK := "<a id=wa-link href={WHATSAPP_LINK}></a>";
     TELEGRAM_BLOCK := "<a id=tg-link href={TELEGRAM_LINK}></a>";
     MATRIX_BLOCK := "<a id=mx-link href={MATRIX_LINK}></a>";
     TCHAP_BLOCK := "<a id=tc-link href={TCHAP_LINK}></a>";
     frame_metadata := (Some 1000, Some 1400);
     FONT_BASE64 := "AAEAAAA=";
     logo_metadata := λ _, (512, 512);
     qr_image_width := qrcode_toBuffer;
     svg_text_loads := plain_text |}.



(** A directory without any record. *)
Definition empty_directory : Directory :=
  {| callJORFSearchPeople := λ _, [];
     callJORFSearchOrganisationByWikidataId := λ _, [];
     callJORFSearchTag := λ _, [] |}.

(** A directory that knows one person, one organisation and one tag,
    whatever the query. *)
Definition directory : Directory :=
  {| callJORFSearchPeople := λ _, [ {| prenom := "Jean"; nom := "DUPONT" |} ];
     callJORFSearchOrganisationByWikidataId :=
       λ _, [ {| org_id := "Q12345"; org_name := "Acme Org" |} ];
     callJORFSearchTag := λ _, ["ministre"%string] |}.

Definition get (params : list (string * string)) : Request :=
  {| query := list_to_map params; user_agent := None |}.

End Sample.

(** ** Evaluating a handler along its paths *)

Ltac unfold_handler :=
  unfold run, handle_index, handle_choose, handle_qrcode, start_command,
    searchPeople, searchOrganisation, searchTag, umami_log, bind, ret, exit, emit.

Tactic Notation "js_red" :=
  cbn [from_option id defined negb andb orb fst snd Js.truthy_opt Js.truthy app Nat.b2n].
Tactic Notation "js_red" "in" "*" :=
  cbn [from_option id defined negb andb orb fst snd Js.truthy_opt Js.truthy app Nat.b2n] in *.

(** The value on which the evaluation of a term is waiting: the
    innermost scrutinee in head position, through [negb], [&&] and [||]. *)
Ltac waiting_on t :=
  lazymatch t with
  | match ?s with _ => _ end => scrutinee s
  | ?f _ => waiting_on f
  end
with scrutinee s :=
  lazymatch s with
  | match _ with _ => _ end => waiting_on s
  | negb ?x => scrutinee x
  | andb ?x _ => scrutinee x
  | orb ?x _ => scrutinee x
  | ?f _ =>
      lazymatch f with
      | match _ with _ => _ end => waiting_on f
      | _ => s
      end
  | _ => s
  end.

(** Rewrite the goal with the equations at hand. *)
Ltac use_equations :=
  repeat match goal with
         | E : ?x = ?v |- context [?x] =>
             tryif constr_eq x v then fail else rewrite E
         end;
  js_red.

(** One step of a run: case analysis on the value it is waiting on,
    unless a hypothesis already tells it. A destination URL starts with
    [http] and is never empty. *)
Ltac step :=
  lazymatch goal with
  | |- ?lhs = _ -> _ =>
      let s := waiting_on lhs in
      lazymatch s with
      | Js.truthy (APP_URL_WITH_PORT _ +:+ _) => change s with true
      | Js.truthy (APP_URL_WITH_PORT_QR _ +:+ _) => change s with true
      | _ => let E := fresh "E" in destruct s eqn:E
      end;
      js_red; use_equations
  end.

(** All the runs of handler [h] on [req] that agree with the
    hypotheses, each with the tests made on the way. *)
Ltac paths h req :=
  let r := fresh "r" in
  let t := fresh "t" in
  let E := fresh "E" in
  destruct (run (h req)) as [r t] eqn:E; revert E;
  unfold_handler; js_red in *; use_equations; repeat step;
  intros ?; simplify_eq; use_equations; try discriminate; try congruence.

(** Rewrite the recorded lookups into [H]. *)
Ltac use_lookups H :=
  revert H;
  repeat match goal with [ E : _ !! _ = _ |- _ ] => rewrite E; clear E end;
  js_red; intros H.

Ltac split_truthy H :=
  repeat match type of H with
         | context [Js.truthy ?x] => destruct (Js.truthy x) eqn:?
         end.


(** * Properties *)

(** ** The JavaScript primitives on examples *)

Example split_two : Js.split_space "Jean Dupont" = ["Jean"; "Dupont"]%string.
Proof. reflexivity. Qed.

Example split_trailing : Js.split_space "Jean " = ["Jean"; ""]%string.
Proof. reflexivity. Qed.

Example split_empty : Js.split_space "" = [""]%string.
Proof. reflexivity. Qed.

Example upper_q : Js.toUpperCase "q12345" = "Q12345"%string.
Proof. reflexivity. Qed.

Example replace_first :
  Js.replace "SuivreO Q1 Suivre" "Suivre" "Rechercher" = "RechercherO Q1 Suivre"%string.
Proof. reflexivity. Qed.

Example replace_dollar : Js.replace "a{X}b" "{X}" "[$&$$]" = "a[{X}$]b"%string.
Proof. reflexivity. Qed.

Example encodeURI_space :
  Js.encodeURI "Bonjour JOEL! Rechercher Jean Dupont"
  = "Bonjour%20JOEL!%20Rechercher%20Jean%20Dupont"%string.
Proof. reflexivity. Qed.

Example parseInt_px : Js.parseInt " 300px" = Some 300.
Proof. reflexivity. Qed.

Example parseInt_nan : Js.parseInt "large" = None.
Proof. reflexivity. Qed.

Example String_3000 : Js.String_of_int 3000 = "3000"%string.
Proof. reflexivity. Qed.

Example round_90_035 : Num.round (Num.js_mul (Num.of_Z 90) Num.c0_35) = 31.
Proof. reflexivity. Qed.
Example round_1400_045 : Num.round (Num.js_mul (Num.of_Z 1400) Num.c0_45) = 630.
Proof. reflexivity. Qed.
Example floor_600_045 : Num.floor (Num.js_mul (Num.of_Z 600) Num.c0_45) = 270.
Proof. reflexivity. Qed.
Example round_half_neg : Num.round (Num.half (-5)) = -2.
Proof. reflexivity. Qed.

(** ** String facts *)

Lemma split_space_length (s : string) :
  length (Js.split_space s) = S (count_spaces s).
Proof.
  induction s as [|c s IH]; [reflexivity|].
  cbn [Js.split_space count_spaces].
  destruct (Ascii.eqb c " "); cbn [length]; [lia|].
  destruct (Js.split_space s); cbn [length] in *; lia.
Qed.

Lemma split_space_lt_2 (s : string) :
  (length (Js.split_space s) < 2)%nat ↔ count_spaces s = O.
Proof. rewrite split_space_length. lia. Qed.

Lemma replace_SuivreO (arg : string) :
  Js.replace ("SuivreO " +:+ arg) "Suivre" "Rechercher" = "RechercherO " +:+ arg.
Proof. reflexivity. Qed.

Lemma replace_SuivreF (arg : string) :
  Js.replace ("SuivreF " +:+ arg) "Suivre" "Rechercher" = "RechercherF " +:+ arg.
Proof. reflexivity. Qed.

(** ** C1: two or more kind-specific parameters *)

(** C1, counterexample. [/qrcode?name=Jean&organisation_id=Q12345&frame=false]
    carries two of the three parameters and is answered with the
    person-name error, not with the exclusivity error; on the landing page
    [/?name=Jean Dupont&organisation_id=Q12345] against an empty directory
    is answered with the not-found error of the person lookup. *)
Lemma C1_counterexample :
  let req := Sample.get [("name", "Jean"); ("organisation_id", "Q12345"); ("frame", "false")]%string in
  let req' := Sample.get [("name", "Jean Dupont"); ("organisation_id", "Q12345")]%string in
  present_count req = 2%nat
  ∧ run (handle_qrcode Sample.production Sample.files Sample.directory req)
    = (InvalidPersonName, [])
  ∧ InvalidPersonName ≠ AmbiguousTarget
  ∧ present_count req' = 2%nat
  ∧ run (handle_index Sample.production Sample.files Sample.empty_directory req')
    = (Json 400 (ERR_NO_PERSON "Jean Dupont"), [SearchPeople "Jean Dupont"])
  ∧ Json 400 (ERR_NO_PERSON "Jean Dupont") ≠ AmbiguousTarget.
Proof. intros req req'. repeat apply conj; try reflexivity; discriminate. Qed.

(** C1, as amended. Take a request in which each of [name],
    [organisation_id], [function_tag] is given at most once, so that it is
    a single text, and a directory whose lookups answer. When two or
    more of the three are not empty, the request is answered with an HTTP
    400 validation error and nothing is rendered. On [/qrcode] no
    directory call is made and the error is the exclusivity error
    (AmbiguousTarget) unless the size/frame conflict or the person-name
    check fails first. On [/] (both entry files) the checks of the
    earlier parameter come first; the error is AmbiguousTarget when the
    name is present, has two pieces and, when verified, is found. (A
    parameter given twice reaches the handlers as an array and is answered
    with HTTP 500 by their [catch] clause; [Request] leaves such queries
    out.) *)
Theorem C1_two_parameters_rejected
    (env : Env) (assets : Assets) (dir : Directory) (req : Request) :
  (2 ≤ present_count req)%nat →
  (∃ e, run (handle_qrcode env assets dir req) = (Json 400 e, [])
        ∧ (e = ERR_SIZE_FRAME ∨ e = ERR_NAME ∨ e = ERR_EXCLUSIVE))
  ∧ (size_frame_conflict req = false →
     (param req "name" = ""%string
      ∨ (2 ≤ length (Js.split_space (param req "name")))%nat) →
     run (handle_qrcode env assets dir req) = (AmbiguousTarget, []))
  ∧ (∃ e t, run (handle_index env assets dir req) = (Json 400 e, t))
  ∧ (∃ e t, run (handle_choose env assets dir req) = (Json 400 e, t))
  ∧ (∀ n, query req !! "name" = Some n →
       (2 ≤ length (Js.split_space n))%nat →
       (verification_requested req = true → callJORFSearchPeople dir n ≠ []) →
       (run (handle_index env assets dir req)).1 = AmbiguousTarget
       ∧ (run (handle_choose env assets dir req)).1 = AmbiguousTarget).
Proof.
  unfold present_count, present, verification_requested, size_frame_conflict,
    frame_enabled, param.
  intros H. repeat apply conj.
  - paths (handle_qrcode env assets dir) req.
    all: try (eexists; split; [reflexivity | tauto]).
    all: exfalso; use_lookups H; split_truthy H; simplify_eq; simpl in H; lia.
  - intros Hc Hn. paths (handle_qrcode env assets dir) req.
    all: try reflexivity.
    all: try (simpl in Hc; congruence).
    all: try (exfalso; use_lookups H; split_truthy H; simplify_eq; simpl in H; lia).
    all: exfalso; use_lookups Hn; destruct Hn as [Hn|Hn];
      [ rewrite Hn in *; discriminate
      | match goal with
        | Hl : Nat.ltb _ 2 = true |- _ => apply Nat.ltb_lt in Hl; lia
        end ].
  - paths (handle_index env assets dir) req.
    all: try (do 2 eexists; reflexivity).
    all: exfalso; use_lookups H; split_truthy H; simpl in H; lia.
  - paths (handle_choose env assets dir) req.
    all: try (do 2 eexists; reflexivity).
    all: exfalso; use_lookups H; split_truthy H; simpl in H; lia.
  - intros n Hn Hl Hv. apply Nat.ltb_ge in Hl. split.
    + paths (handle_index env assets dir) req.
      all: try reflexivity.
      all: try congruence.
      all: try (exfalso; apply Hv; [reflexivity | congruence]).
      all: exfalso; use_lookups H; split_truthy H; simpl in H; lia.
    + paths (handle_choose env assets dir) req.
      all: try reflexivity.
      all: try congruence.
      all: try (exfalso; apply Hv; [reflexivity | congruence]).
      all: exfalso; use_lookups H; split_truthy H; simpl in H; lia.
Qed.

(** C1, witness: [/qrcode?name=Jean Dupont&function_tag=ministre&frame=false]
    and the same parameters on [/]. *)
Lemma C1_witness :
  let req := Sample.get [("name", "Jean Dupont"); ("function_tag", "ministre"); ("frame", "false")]%string in
  run (handle_qrcode Sample.production Sample.files Sample.directory req) = (AmbiguousTarget, [])
  ∧ (run (handle_index Sample.production Sample.files Sample.directory req)).1 = AmbiguousTarget.
Proof.
  intros req.
  pose proof (C1_two_parameters_rejected Sample.production Sample.files Sample.directory req
                ltac:(vm_compute; lia)) as (_ & Hq & _ & _ & Hi).
  split.
  - apply Hq; [reflexivity | right; vm_compute; lia].
  - apply (Hi "Jean Dupont"%string); [reflexivity | vm_compute; lia | discriminate].
Defined.

(** ** C2: the person-name check *)

(** C2, counterexample. [/qrcode?name=Jean&size=300] has a name of one
    token and is answered with the size/frame conflict, which is tested
    first. On the landing page the name ["Jean "] holds a single
    whitespace-separated token, yet [split(" ")] yields two pieces: the
    check passes and the directory is searched. *)
Lemma C2_counterexample :
  let req := Sample.get [("name", "Jean"); ("size", "300")]%string in
  let req' := Sample.get [("name", "Jean ")]%string in
  whitespace_tokens "Jean" = ["Jean"%string]
  ∧ run (handle_qrcode Sample.production Sample.files Sample.directory req)
    = (SizeFrameConflict, [])
  ∧ SizeFrameConflict ≠ InvalidPersonName
  ∧ whitespace_tokens "Jean " = ["Jean"%string]
  ∧ (run (handle_index Sample.production Sample.files Sample.directory req')).1
    ≠ InvalidPersonName
  ∧ (run (handle_index Sample.production Sample.files Sample.directory req')).2
    = [SearchPeople "Jean "; Umami "/link-people"].
Proof.
  intros req req'.
  repeat apply conj; try (vm_compute; reflexivity); vm_compute; discriminate.
Qed.

(** C2, as amended. When the [name] parameter has fewer than two pieces
    between single space characters, that is, when it holds no space,
    the landing page (both entry files) fails with InvalidPersonName and
    no directory call has been made. The image endpoint does the same
    provided the name is not empty (an empty name counts as absent there)
    and no size/frame conflict is reported first. *)
Theorem C2_name_without_space_rejected
    (env : Env) (assets : Assets) (dir : Directory) (req : Request) (n : string) :
  query req !! "name" = Some n →
  (length (Js.split_space n) < 2)%nat →
  run (handle_index env assets dir req) = (InvalidPersonName, [])
  ∧ run (handle_choose env assets dir req) = (InvalidPersonName, [])
  ∧ (n ≠ ""%string → size_frame_conflict req = false →
     run (handle_qrcode env assets dir req) = (InvalidPersonName, [])).
Proof.
  intros Hn Hs0.
  assert (Hs : Nat.ltb (length (Js.split_space n)) 2 = true)
    by (apply Nat.ltb_lt; exact Hs0).
  repeat apply conj.
  - unfold_handler. rewrite Hn, Hs. reflexivity.
  - unfold_handler. rewrite Hn, Hs. reflexivity.
  - intros Hne Hc. unfold size_frame_conflict, frame_enabled in Hc.
    unfold_handler. rewrite Hc, Hn. js_red.
    destruct n as [|c n']; [congruence|]. js_red. rewrite Hs. reflexivity.
Qed.

(** C2, witness: [name=Jean]. *)
Lemma C2_witness :
  let req := Sample.get [("name", "Jean")]%string in
  run (handle_index Sample.production Sample.files Sample.directory req) = (InvalidPersonName, [])
  ∧ run (handle_qrcode Sample.production Sample.files Sample.directory req) = (InvalidPersonName, []).
Proof.
  intros req.
  destruct (C2_name_without_space_rejected Sample.production Sample.files Sample.directory
              req "Jean" ltac:(reflexivity) ltac:(vm_compute; lia)) as (Hi & _ & Hq).
  split; [exact Hi | apply Hq; [discriminate | reflexivity]].
Defined.

(** ** C3: [name=Jean Dupont] with [verify=false] *)

(** A verified person request on the landing page starts with the
    directory lookup of the name as submitted. *)
Lemma index_person_lookup_first
    (env : Env) (assets : Assets) (dir : Directory) (req : Request) (n : string) :
  query req !! "name" = Some n →
  (2 ≤ length (Js.split_space n))%nat →
  verification_requested req = true →
  ∃ t, (run (handle_index env assets dir req)).2 = SearchPeople n :: t.
Proof.
  unfold verification_requested. intros Hn Hl Hv. apply Nat.ltb_ge in Hl.
  paths (handle_index env assets dir) req.
  all: simplify_eq.
  all: try (eexists; reflexivity).
  all: congruence.
Qed.

(** C3. The handlers read the parameter with [Boolean(req.query.verify)],
    and the text ["false"] is truthy: the request
    [/?name=Jean Dupont&verify=false] is verified all the same. Whatever
    the deployment and the directory, the person lookup is the first
    event of the run; an empty directory turns the request into a
    not-found error, and a directory that knows the person replaces the
    label by the directory's spelling. Only an empty [verify=] skips the
    lookup, and then [qr_url] stays unset: outside development the
    handler redirects to its own base URL without rendering a page. *)
Theorem C3_verify_false_still_verifies :
  let req := Sample.get [("name", "Jean Dupont"); ("verify", "false")]%string in
  let req_empty := Sample.get [("name", "Jean Dupont"); ("verify", "")]%string in
  (∀ env assets dir,
     ∃ t, (run (handle_index env assets dir req)).2 = SearchPeople "Jean Dupont" :: t)
  ∧ run (handle_index Sample.production Sample.files Sample.empty_directory req)
    = (Json 400 (ERR_NO_PERSON "Jean Dupont"), [SearchPeople "Jean Dupont"])
  ∧ (∃ p, (run (handle_index Sample.production Sample.files Sample.directory req)).1 = Html p
          ∧ page_followLabel p = "Jean DUPONT"%string
          ∧ page_startCommand p = "Rechercher Jean DUPONT"%string)
  ∧ run (handle_index Sample.production Sample.files Sample.directory req_empty)
    = (Redirect "https://links.joel-officiel.fr", []).
Proof.
  intros req req_empty. repeat apply conj.
  - intros env assets dir.
    apply index_person_lookup_first; [reflexivity | vm_compute; lia | reflexivity].
  - reflexivity.
  - eexists. split; [reflexivity|]. split; reflexivity.
  - reflexivity.
Qed.

(** ** C4: organisation identifiers and skipped verification *)

(** C4. On the landing page the guard of the skipped verification
    tests [followArg.startsWith("Q")] where the image endpoint tests
    [!organisation_id.startsWith("Q")]. With [verify=] the identifier
    [abc], which has no leading [Q], is therefore not answered with
    VerificationRequired but with the missing-label error, and in the
    [choose.html] entry file it is accepted and a page is rendered;
    [q42], which has the shape once in upper case, is the one answered
    with VerificationRequired. On the image endpoint the identifier
    [q12345] reaches the directory in lower case. *)
Theorem C4_guard_polarity :
  let req := Sample.get [("organisation_id", "abc"); ("verify", "")]%string in
  let req_q := Sample.get [("organisation_id", "q42"); ("verify", "")]%string in
  let req_img := Sample.get [("organisation_id", "q12345")]%string in
  Js.startsWith (Js.toUpperCase "abc") "Q" = false
  ∧ run (handle_index Sample.production Sample.files Sample.directory req)
    = (Json 400 ERR_LABEL, [])
  ∧ Json 400 ERR_LABEL ≠ VerificationRequired
  ∧ (∃ p, (run (handle_choose Sample.production Sample.files Sample.directory req)).1 = Html p
          ∧ page_startCommand p = "SuivreO ABC"%string)
  ∧ Js.startsWith (Js.toUpperCase "q42") "Q" = true
  ∧ run (handle_index Sample.production Sample.files Sample.directory req_q)
    = (VerificationRequired, [])
  ∧ (run (handle_qrcode Sample.production Sample.files Sample.directory req_img)).2
    = [SearchOrganisation "q12345"; Umami "/qr-organisation"].
Proof.
  intros req req_q req_img.
  repeat apply conj; try reflexivity; try discriminate.
  eexists. split; reflexivity.
Qed.

(** What the handlers do with an organisation identifier, for every
    request: the landing page searches the directory with the upper-case
    identifier; with verification skipped it makes no directory call and
    answers an HTTP 400 error, VerificationRequired exactly when the
    upper-case identifier starts with [Q]; the image endpoint always
    searches the directory, with the identifier as submitted. *)
Lemma organisation_identifier_handling
    (env : Env) (assets : Assets) (dir : Directory) (req : Request) (o : string) :
  query req !! "organisation_id" = Some o →
  (verification_requested req = false →
     (∃ e, run (handle_index env assets dir req) = (Json 400 e, []))
     ∧ (query req !! "name" = None → query req !! "function_tag" = None →
        run (handle_index env assets dir req)
        = (if Js.startsWith (Js.toUpperCase o) "Q"
           then VerificationRequired else Json 400 ERR_LABEL, [])))
  ∧ (verification_requested req = true → query req !! "name" = None →
     ∃ t, (run (handle_index env assets dir req)).2
          = SearchOrganisation (Js.toUpperCase o) :: t)
  ∧ (o ≠ ""%string → param req "name" = ""%string →
     param req "function_tag" = ""%string → size_frame_conflict req = false →
     ∃ t, (run (handle_qrcode env assets dir req)).2 = SearchOrganisation o :: t).
Proof.
  unfold verification_requested, size_frame_conflict, frame_enabled, param.
  intros Ho. repeat apply conj.
  - intros Hv. split.
    + paths (handle_index env assets dir) req.
      all: try (eexists; reflexivity).
    + intros Hn Ht. paths (handle_index env assets dir) req.
      all: reflexivity.
  - intros Hv Hn. paths (handle_index env assets dir) req.
    all: eexists; reflexivity.
  - intros Hne Hn Ht Hc. paths (handle_qrcode env assets dir) req.
    all: try (eexists; reflexivity).
    all: destruct o; simplify_eq/=.
Qed.


(** ** C5: the verified organisation lookup *)

(** What [composite] returns is the base with its layers. *)
Lemma sharp_composite_Some
    (assets : Assets) (base : Raster) (layers : list Layer) (r : Raster) :
  sharp_composite assets base layers = Some r → r = Composite base layers.
Proof.
  unfold sharp_composite. intros H.
  destruct (pixel_size assets base) as [[W H']|]; [|discriminate].
  destruct (forallb _ _); [|discriminate]. congruence.
Qed.

(** A resized image has the width asked for. *)
Lemma sharp_resize_inside_width (source : Z * Z) (width w h : Z) :
  sharp_resize_inside source width = Some (w, h) → w = width.
Proof.
  unfold sharp_resize_inside. destruct source as [sw sh].
  destruct (_ || _); [discriminate|]. congruence.
Qed.

(** With the default options the logo is 270 pixels wide and the QR
    bitmap 600: when [qrcode] draws the text and the logo fits, the
    result is the bitmap with the logo over it. *)
Lemma generateQrWithLogo_default (assets : Assets) (url : string) :
  qr_image_width assets (Js.encodeURI url) 600 1 = Some 600 →
  logo_fits assets = true →
  ∃ logoHeight,
    generateQrWithLogo assets url default_options
    = Some (Composite (QrPng (Js.encodeURI url) "H" 600 1 "#000000" "#ffffff")
              [Overlay (ResizedPng "logo_round.png" 270 logoHeight)
                 165 ((600 - logoHeight) / 2)]).
Proof.
  intros Hq Hl. unfold logo_fits in Hl. unfold generateQrWithLogo, default_options.
  cbn [qrSize margin dark light logoPath logoScale].
  change (Num.floor (Num.js_mul (Num.of_Z 600) Num.c0_45)) with 270.
  destruct (sharp_resize_inside _ 270) as [[lw lh]|] eqn:Hr; [|discriminate].
  apply sharp_resize_inside_width in Hr as ->.
  exists lh. unfold sharp_composite. cbn [pixel_size]. rewrite Hq.
  cbn [forallb layer_fits pixel_size]. rewrite Hl. reflexivity.
Qed.

(** The bitmap of [generateQrWithLogo] has the size of the QR code that
    [qrcode] drew. *)
Lemma generateQrWithLogo_pixel_size
    (assets : Assets) (url : string) (o : QrOptions) (r : Raster) :
  generateQrWithLogo assets url o = Some r →
  ∃ b, qr_image_width assets (Js.encodeURI url) (qrSize o) (margin o) = Some b
       ∧ pixel_size assets r = Some (b, b).
Proof.
  unfold generateQrWithLogo, sharp_composite. intros H.
  destruct (sharp_resize_inside _ _) as [[lw lh]|]; [|discriminate].
  cbn [pixel_size] in H.
  destruct (qr_image_width assets _ _ _) as [b|] eqn:Hb; [|discriminate].
  destruct (forallb _ _); [|discriminate]. injection H as <-.
  exists b. split; [reflexivity|]. cbn [pixel_size]. rewrite Hb. reflexivity.
Qed.

(** Over a frame that holds it, the QR bitmap of 600 pixels and the text
    layer are composed. *)
Lemma frame_composite
    (assets : Assets) (qr : Raster) (left top text_top : Z) (hidden : bool) (label : string) :
  pixel_size assets qr = Some (600, 600) →
  frame_holds assets label = true →
  sharp_composite assets (FramePng FRAME_PATH)
    [Overlay qr left top;
     Overlay (TextSvg (default 0 (frame_metadata assets).1) (FONT_SIZE * 3) FONT_SIZE
                TEXT_COLOR hidden label) 0 text_top]
  = Some (Composite (FramePng FRAME_PATH)
            [Overlay qr left top;
             Overlay (TextSvg (default 0 (frame_metadata assets).1) (FONT_SIZE * 3) FONT_SIZE
                        TEXT_COLOR hidden label) 0 text_top]).
Proof.
  unfold frame_holds, sharp_composite. intros Hq Hf. cbn [pixel_size].
  destruct (frame_metadata assets) as [[W|] [H|]]; try discriminate.
  apply andb_true_iff in Hf as [Hf Hs]. apply andb_true_iff in Hf as [HW HH].
  cbn [forallb layer_fits pixel_size fst from_option id]. rewrite Hq, Hs, HW, HH.
  apply Z.leb_le in HH.
  rewrite Z.leb_refl. unfold FONT_SIZE.
  destruct (Z.leb_spec (40 * 3) H); [reflexivity | lia].
Qed.

(** The image endpoint on a single target whose label and destination
    are known: the image libraries accepting their inputs, the answer is
    an image that encodes the destination, encoded twice, and, with the
    frame, shows the label. *)
Ltac image_answer Hq Hl Hf :=
  let lh := fresh "lh" in
  let Hg := fresh "Hg" in
  destruct (generateQrWithLogo_default _ _ Hq Hl) as [lh Hg];
  repeat match goal with
         | E : generateQrWithLogo _ _ _ = Some ?r |- _ =>
             is_var r; rewrite Hg in E; simplify_eq
         | E : generateQrWithLogo _ _ _ = None |- _ =>
             rewrite Hg in E; discriminate E
         end;
  repeat match goal with
         | E : sharp_composite _ _ _ = _ |- _ =>
             rewrite frame_composite in E;
             [ simplify_eq
             | cbn [pixel_size]; rewrite Hq; reflexivity
             | first [ exact Hf | apply Hf; reflexivity ] ]
         end.

(** The not-found answers of the three lookups are TargetNotFound. *)
Lemma not_found_is_TargetNotFound (s : string) :
  TargetNotFound (Json 400 ERR_NO_RESULT)
  ∧ TargetNotFound (Json 400 (ERR_NO_PERSON s))
  ∧ TargetNotFound (Json 400 (ERR_NO_ORGANISATION s)).
Proof. unfold TargetNotFound. repeat split; eauto. Qed.

(** The verified organisation lookup of the landing page. *)
Lemma index_verified_organisation
    (env : Env) (assets : Assets) (dir : Directory) (req : Request) (o : string) :
  query req !! "organisation_id" = Some o →
  query req !! "name" = None →
  verification_requested req = true →
  (callJORFSearchOrganisationByWikidataId dir (Js.toUpperCase o) = [] →
   run (handle_index env assets dir req)
   = (Json 400 (ERR_NO_ORGANISATION (Js.toUpperCase o)),
      [SearchOrganisation (Js.toUpperCase o)]))
  ∧ (∀ m1 m2 l,
       callJORFSearchOrganisationByWikidataId dir (Js.toUpperCase o) = m1 :: m2 :: l →
       run (handle_index env assets dir req)
       = (AmbiguousDirectoryMatch, [SearchOrganisation (Js.toUpperCase o)]))
  ∧ (∀ m, callJORFSearchOrganisationByWikidataId dir (Js.toUpperCase o) = [m] →
       query req !! "function_tag" = None →
       ∃ p, (run (handle_index env assets dir req)).1 = Html p
            ∧ page_followType p = organisation
            ∧ page_followArg p = org_id m
            ∧ page_followLabel p = org_name m
            ∧ page_startCommand p = "SuivreO " +:+ org_id m).
Proof.
  unfold verification_requested. intros Ho Hn Hv. repeat apply conj.
  - intros Hd. paths (handle_index env assets dir) req. all: reflexivity.
  - intros m1 m2 l Hd. paths (handle_index env assets dir) req. all: reflexivity.
  - intros m Hd Ht. paths (handle_index env assets dir) req.
    all: eexists; repeat split; try reflexivity; cbn; congruence.
Qed.

(** C5, the failing input. [/qrcode?organisation_id=q12345] against a
    directory whose single match has the identifier [Q12345]: the label
    comes from the match, but the URL encoded in the QR code keeps the
    identifier as submitted, where the landing page takes the identifier
    of the match. *)
Lemma C5_failing_input :
  let req := Sample.get [("organisation_id", "q12345")]%string in
  let img := (Composite (FramePng "frame.png")
                [Overlay
                   (Composite
                      (QrPng "https://links.joel-officiel.fr:3000?&organisation=q12345"
                         "H" 600 1 "#000000" "#ffffff")
                      [Overlay (ResizedPng "logo_round.png" 270 270) 165 165])
                   250 630;
                 Overlay (TextSvg 1000 120 40 "#62676c" false "Acme Org") 0 490]) in
  callJORFSearchOrganisationByWikidataId Sample.directory "q12345"
  = [ {| org_id := "Q12345"; org_name := "Acme Org" |} ]
  ∧ run (handle_qrcode Sample.production Sample.files Sample.directory req)
    = (Png img, [SearchOrganisation "q12345"; Umami "/qr-organisation"])
  ∧ encoded_text img = Some "https://links.joel-officiel.fr:3000?&organisation=q12345"%string
  ∧ encoded_text img ≠ Some "https://links.joel-officiel.fr:3000?&organisation=Q12345"%string.
Proof. intros req img. repeat apply conj; try reflexivity; discriminate. Qed.

(** C5. For every verified organisation lookup, zero matches fail with
    TargetNotFound and more than one match fails with
    AmbiguousDirectoryMatch, on both endpoints. With exactly one match the
    landing page takes the identifier and the label of the target from
    that match. The image endpoint takes the label from the match, but it
    keeps the submitted identifier in the URL that it encodes, and it
    searches the directory with the identifier as submitted where the
    landing page searches with the identifier in upper case. The image
    is answered when the image libraries accept their inputs: [qrcode]
    draws the URL, the logo fits the bitmap and, with the frame, the frame
    holds the bitmap and the text layer with the label is read. The
    identifier is taken to be ASCII, where [toUpperCase] is the one of
    JavaScript. *)
Theorem C5_organisation_lookup
    (env : Env) (assets : Assets) (dir : Directory) (req : Request) (o : string) :
  query req !! "organisation_id" = Some o →
  Js.is_ascii o = true →
  (query req !! "name" = None → verification_requested req = true →
     (callJORFSearchOrganisationByWikidataId dir (Js.toUpperCase o) = [] →
      run (handle_index env assets dir req)
      = (Json 400 (ERR_NO_ORGANISATION (Js.toUpperCase o)),
         [SearchOrganisation (Js.toUpperCase o)]))
     ∧ (∀ m1 m2 l,
          callJORFSearchOrganisationByWikidataId dir (Js.toUpperCase o) = m1 :: m2 :: l →
          run (handle_index env assets dir req)
          = (AmbiguousDirectoryMatch, [SearchOrganisation (Js.toUpperCase o)]))
     ∧ (∀ m, callJORFSearchOrganisationByWikidataId dir (Js.toUpperCase o) = [m] →
          query req !! "function_tag" = None →
          ∃ p, (run (handle_index env assets dir req)).1 = Html p
               ∧ page_followType p = organisation
               ∧ page_followArg p = org_id m
               ∧ page_followLabel p = org_name m))
  ∧ (o ≠ ""%string → param req "name" = ""%string → param req "function_tag" = ""%string →
     size_frame_conflict req = false →
     (callJORFSearchOrganisationByWikidataId dir o = [] →
      run (handle_qrcode env assets dir req)
      = (Json 400 (ERR_NO_ORGANISATION o), [SearchOrganisation o]))
     ∧ (∀ m1 m2 l,
          callJORFSearchOrganisationByWikidataId dir o = m1 :: m2 :: l →
          run (handle_qrcode env assets dir req)
          = (AmbiguousDirectoryMatch, [SearchOrganisation o]))
     ∧ (∀ m, callJORFSearchOrganisationByWikidataId dir o = [m] →
          qr_drawn assets (APP_URL_WITH_PORT env +:+ "?&organisation=" +:+ o) →
          logo_fits assets = true →
          (frame_enabled req = true → frame_holds assets (org_name m) = true) →
          ∃ img, (run (handle_qrcode env assets dir req)).1 = Png img
                 ∧ (run (handle_qrcode env assets dir req)).2
                   = SearchOrganisation o
                     :: (if frame_enabled req then [Umami "/qr-organisation"] else [])
                 ∧ encoded_text img
                   = Some (Js.encodeURI (Js.encodeURI
                             (APP_URL_WITH_PORT env +:+ "?&organisation=" +:+ o)))
                 ∧ (frame_enabled req = true →
                    label_layer img = Some (negb (Js.truthy (org_name m)), org_name m)))).
Proof.
  intros Ho _. split.
  - intros Hn Hv.
    destruct (index_verified_organisation env assets dir req o Ho Hn Hv) as (H0 & H2 & H1).
    repeat apply conj; [exact H0 | exact H2 |].
    intros m Hm Ht. destruct (H1 m Hm Ht) as (p & ? & ? & ? & ? & ?). eauto.
  - unfold size_frame_conflict, frame_enabled, param, qr_drawn.
    intros Hne Hn Ht Hc. repeat apply conj.
    + intros Hd. paths (handle_qrcode env assets dir) req.
      all: try reflexivity.
      all: destruct o; simplify_eq/=.
    + intros m1 m2 l Hd. paths (handle_qrcode env assets dir) req.
      all: try reflexivity.
      all: destruct o; simplify_eq/=.
    + intros m Hd Hq Hl Hf.
      paths (handle_qrcode env assets dir) req.
      all: try (destruct o; simplify_eq/=; fail).
      all: image_answer Hq Hl Hf.
      all: eexists; split; [reflexivity|]; split; [reflexivity|]; split; [reflexivity|];
        intros ?; try discriminate; reflexivity.
Qed.

(** C5, witness: [organisation_id=q12345] against an empty directory, on
    both endpoints, and against the sample directory, whose single match
    has the identifier [Q12345]. *)
Lemma C5_witness :
  let req := Sample.get [("organisation_id", "q12345")]%string in
  run (handle_index Sample.production Sample.files Sample.empty_directory req)
  = (Json 400 (ERR_NO_ORGANISATION "Q12345"), [SearchOrganisation "Q12345"])
  ∧ run (handle_qrcode Sample.production Sample.files Sample.empty_directory req)
    = (Json 400 (ERR_NO_ORGANISATION "q12345"), [SearchOrganisation "q12345"])
  ∧ (∃ p, (run (handle_index Sample.production Sample.files Sample.directory req)).1 = Html p
          ∧ page_followType p = organisation
          ∧ page_followArg p = "Q12345"%string
          ∧ page_followLabel p = "Acme Org"%string)
  ∧ (∃ img, (run (handle_qrcode Sample.production Sample.files Sample.directory req)).1 = Png img
            ∧ (run (handle_qrcode Sample.production Sample.files Sample.directory req)).2
              = [SearchOrganisation "q12345"; Umami "/qr-organisation"]
            ∧ encoded_text img
              = Some "https://links.joel-officiel.fr:3000?&organisation=q12345"%string
            ∧ label_layer img = Some (false, "Acme Org"%string)).
Proof.
  intros req.
  destruct (C5_organisation_lookup Sample.production Sample.files Sample.empty_directory
              req "q12345" ltac:(reflexivity) ltac:(reflexivity)) as (He & Hq).
  destruct (He ltac:(reflexivity) ltac:(reflexivity)) as (He0 & _).
  destruct (Hq ltac:(discriminate) ltac:(reflexivity) ltac:(reflexivity) ltac:(reflexivity))
    as (Hq0 & _).
  destruct (C5_organisation_lookup Sample.production Sample.files Sample.directory
              req "q12345" ltac:(reflexivity) ltac:(reflexivity)) as (Hd & Hi).
  destruct (Hd ltac:(reflexivity) ltac:(reflexivity)) as (_ & _ & Hd1).
  destruct (Hi ltac:(discriminate) ltac:(reflexivity) ltac:(reflexivity) ltac:(reflexivity))
    as (_ & _ & Hi1).
  split; [exact (He0 ltac:(reflexivity))|].
  split; [exact (Hq0 ltac:(reflexivity))|].
  split.
  - exact (Hd1 {| org_id := "Q12345"; org_name := "Acme Org" |}
             ltac:(reflexivity) ltac:(reflexivity)).
  - destruct (Hi1 {| org_id := "Q12345"; org_name := "Acme Org" |}
                ltac:(reflexivity) ltac:(reflexivity) ltac:(reflexivity)
                ltac:(intros _; reflexivity)) as (img & Himg & Hev & Htext & Hlabel).
    exists img. split; [exact Himg|]. split; [exact Hev|]. split; [exact Htext|].
    exact (Hlabel ltac:(reflexivity)).
Defined.

(** ** C6: no target at all *)

(** C6, the failing inputs. Outside development the landing page
    answers a request without any target with a redirect to its own base
    URL, which is not the marketing website; the [choose.html] entry file
    answers with an error body; and an empty [name=], which the image
    endpoint counts as absent, is answered with the person-name error. *)
Lemma C6_failing_inputs :
  let req := Sample.get [] in
  run (handle_index Sample.production Sample.files Sample.directory req)
  = (Redirect "https://links.joel-officiel.fr", [])
  ∧ Redirect "https://links.joel-officiel.fr" ≠ Redirect MARKETING_URL
  ∧ run (handle_choose Sample.production Sample.files Sample.directory req)
    = (Json 400 ERR_QR_URL, [])
  ∧ run (handle_index Sample.production Sample.files Sample.directory
           (Sample.get [("name", "")]%string))
    = (InvalidPersonName, []).
Proof. intros req. repeat apply conj; try reflexivity; discriminate. Qed.

(** C6. When none of [name], [organisation_id], [function_tag] is in
    the query, the landing page of the [main.html] entry file redirects
    and neither renders the template nor returns an error body. The
    redirect to the marketing website is the default case of the
    handler's own [switch (followType)], after the [/link-default] event;
    it is reached in development only. Outside development the test
    [if (!qr_url)], which comes first, redirects to the application's own
    base URL: the request is sent to the page that it asked for, and the
    marketing website is never reached. The [choose.html] entry file
    answers the same request with the 400 error
    [qr_url not initialized]. *)
Theorem C6_no_target_redirects
    (env : Env) (assets : Assets) (dir : Directory) (req : Request) :
  query req !! "name" = None →
  query req !! "organisation_id" = None →
  query req !! "function_tag" = None →
  run (handle_index env assets dir req)
  = (if isDev env
     then (Redirect MARKETING_URL, [Umami "/link-default"])
     else (Redirect "https://links.joel-officiel.fr", []))
  ∧ run (handle_choose env assets dir req) = (Json 400 ERR_QR_URL, []).
Proof.
  intros H1 H2 H3. split.
  - unfold_handler. rewrite H1, H2, H3. js_red.
    unfold APP_URL, APP_DOMAIN. destruct (isDev env); reflexivity.
  - unfold_handler. rewrite H1, H2, H3. reflexivity.
Qed.

(** C6, witness: the empty query in production and in development. *)
Lemma C6_witness :
  run (handle_index Sample.production Sample.files Sample.directory (Sample.get []))
  = (Redirect "https://links.joel-officiel.fr", [])
  ∧ run (handle_index Sample.development Sample.files Sample.directory (Sample.get []))
    = (Redirect "https://joel-officiel.fr", [Umami "/link-default"]).
Proof.
  split.
  - exact (proj1 (C6_no_target_redirects Sample.production Sample.files Sample.directory
                    (Sample.get []) ltac:(reflexivity) ltac:(reflexivity) ltac:(reflexivity))).
  - exact (proj1 (C6_no_target_redirects Sample.development Sample.files Sample.directory
                    (Sample.get []) ltac:(reflexivity) ltac:(reflexivity) ltac:(reflexivity))).
Defined.

(** ** C7: the start command *)

Lemma messenger_replacements_whatsapp
    (env : Env) (assets : Assets) (command base : string) :
  whatsappLinkBase env = Some base →
  In ("{WHATSAPP_LINK}"%string, Js.encodeURI (base +:+ " " +:+ command))
    (messenger_replacements env assets command).
Proof.
  intros H. unfold messenger_replacements. rewrite H.
  apply in_or_app. right. apply in_or_app. left. left. reflexivity.
Qed.

Lemma messenger_replacements_telegram
    (env : Env) (assets : Assets) (command base : string) :
  telegramLinkBase env = Some base →
  In ("{TELEGRAM_LINK}"%string, Js.encodeURI (base +:+ " " +:+ command))
    (messenger_replacements env assets command).
Proof.
  intros H. unfold messenger_replacements. rewrite H.
  apply in_or_app. right. apply in_or_app. right. apply in_or_app. left. left. reflexivity.
Qed.

Ltac page_commands :=
  unfold page_commands_ok; cbn [page_startCommand page_smoothFlowCommand page_followType
    page_followArg page_replacements Verb];
  repeat apply conj;
  [ reflexivity | reflexivity
  | intros; first [discriminate | reflexivity]
  | intros; first [discriminate | reflexivity]
  | intros base Hb; do 4 right; apply (messenger_replacements_whatsapp _ _ _ _ Hb)
  | intros base Hb; do 4 right; apply (messenger_replacements_telegram _ _ _ _ Hb) ].

Lemma index_page_commands
    (env : Env) (assets : Assets) (dir : Directory) (req : Request) (p : Page) :
  (run (handle_index env assets dir req)).1 = Html p → page_commands_ok env p.
Proof.
  revert p. paths (handle_index env assets dir) req.
  all: intros page Hpage; cbn [fst] in Hpage; simplify_eq.
  all: page_commands.
Qed.

Lemma choose_page_commands
    (env : Env) (assets : Assets) (dir : Directory) (req : Request) (p : Page) :
  (run (handle_choose env assets dir req)).1 = Html p → page_commands_ok env p.
Proof.
  revert p. paths (handle_choose env assets dir) req.
  all: intros page Hpage; cbn [fst] in Hpage; simplify_eq.
  all: unfold page_commands_ok; cbn [page_startCommand page_smoothFlowCommand page_followType
    page_followArg page_replacements Verb];
    repeat apply conj;
    [ reflexivity | reflexivity
    | intros; first [discriminate | reflexivity]
    | intros; first [discriminate | reflexivity]
    | intros base Hb; do 5 right; apply (messenger_replacements_whatsapp _ _ _ _ Hb)
    | intros base Hb; do 5 right; apply (messenger_replacements_telegram _ _ _ _ Hb) ].
Qed.

(** A text in which the pattern does not occur is left as it is by
    [replace]. *)
Lemma find_first_none (pat s : string) :
  Js.contains pat s = false → Js.find_first pat s = None.
Proof.
  induction s as [|c s IH]; cbn [Js.contains Js.find_first]; intros H;
    apply orb_false_iff in H as [Hp Hc]; rewrite Hp; [reflexivity|].
  rewrite (IH Hc). reflexivity.
Qed.

Lemma find_first_cons_none (pat : string) (c : ascii) (s : string) :
  String.prefix pat (String c s) = false →
  Js.find_first pat s = None →
  Js.find_first pat (String c s) = None.
Proof. intros Hp Hs. cbn [Js.find_first]. rewrite Hp, Hs. reflexivity. Qed.

Lemma replace_Rechercher (arg : string) :
  Js.contains "Suivre" arg = false →
  Js.replace ("Rechercher " +:+ arg) "Suivre" "Rechercher" = "Rechercher " +:+ arg.
Proof.
  intros H. unfold Js.replace.
  assert (Js.find_first "Suivre" ("Rechercher " +:+ arg) = None) as ->; [|reflexivity].
  cbn [String.append].
  repeat (apply find_first_cons_none; [reflexivity|]).
  apply find_first_none, H.
Qed.

(** The links of a page whose replacements end with those of the
    messengers. *)
Lemma links_carry_replacements
    (env : Env) (assets : Assets) (p : Page) (first : list (string * string))
    (command : string) :
  page_replacements p = first ++ messenger_replacements env assets command →
  links_carry env p command.
Proof.
  intros H. unfold links_carry. rewrite H.
  split; intros base Hb; apply in_or_app; right.
  - exact (messenger_replacements_whatsapp env assets command base Hb).
  - exact (messenger_replacements_telegram env assets command base Hb).
Qed.

Ltac split_all := repeat match goal with |- _ ∧ _ => split end.

Ltac page_links :=
  lazymatch goal with
  | |- links_carry _ {| page_replacements := ?a :: ?b :: ?c :: ?d :: ?e :: messenger_replacements _ ?assets _ |} _ =>
      apply (links_carry_replacements _ assets _ [a; b; c; d; e]); reflexivity
  | |- links_carry _ {| page_replacements := ?a :: ?b :: ?c :: ?d :: messenger_replacements _ ?assets _ |} _ =>
      apply (links_carry_replacements _ assets _ [a; b; c; d]); reflexivity
  end.

(** A verified person on the landing page, in either entry file. *)
Lemma page_of_person
    (env : Env) (assets : Assets) (dir : Directory) (req : Request)
    (n : string) (m : PersonItem) (rest : list PersonItem) :
  query req !! "name" = Some n →
  (2 ≤ length (Js.split_space n))%nat →
  query req !! "organisation_id" = None →
  query req !! "function_tag" = None →
  verification_requested req = true →
  callJORFSearchPeople dir n = m :: rest →
  let arg := prenom m +:+ " " +:+ nom m in
  ∃ p p', run (handle_index env assets dir req)
          = (Html p, [SearchPeople n; Umami "/link-people"])
          ∧ run (handle_choose env assets dir req)
            = (Html p', [SearchPeople n; Umami "/link-people"])
          ∧ page_followLabel p = arg
          ∧ page_startCommand p = "Rechercher " +:+ arg
          ∧ page_startCommand p' = "Rechercher " +:+ arg
          ∧ links_carry env p (Js.replace ("Rechercher " +:+ arg) "Suivre" "Rechercher")
          ∧ links_carry env p' (Js.replace ("Rechercher " +:+ arg) "Suivre" "Rechercher").
Proof.
  intros Hn Hl Ho Ht Hv Hd arg. unfold verification_requested in Hv. subst arg.
  apply Nat.ltb_ge in Hl.
  paths (handle_index env assets dir) req.
  all: paths (handle_choose env assets dir) req.
  all: do 2 eexists; split_all; try reflexivity; page_links.
Qed.

(** A verified organisation with a single match. *)
Lemma page_of_organisation
    (env : Env) (assets : Assets) (dir : Directory) (req : Request)
    (o : string) (m : OrganisationItem) :
  query req !! "organisation_id" = Some o →
  query req !! "name" = None →
  query req !! "function_tag" = None →
  verification_requested req = true →
  callJORFSearchOrganisationByWikidataId dir (Js.toUpperCase o) = [m] →
  ∃ p p', run (handle_index env assets dir req)
          = (Html p, [SearchOrganisation (Js.toUpperCase o); Umami "/link-organisation"])
          ∧ run (handle_choose env assets dir req)
            = (Html p', [SearchOrganisation (Js.toUpperCase o); Umami "/link-organisation"])
          ∧ page_followLabel p = org_name m
          ∧ page_startCommand p = "SuivreO " +:+ org_id m
          ∧ page_startCommand p' = "SuivreO " +:+ org_id m
          ∧ links_carry env p ("RechercherO " +:+ org_id m)
          ∧ links_carry env p' ("RechercherO " +:+ org_id m).
Proof.
  unfold verification_requested. intros Ho Hn Ht Hv Hd.
  paths (handle_index env assets dir) req.
  all: paths (handle_choose env assets dir) req.
  all: do 2 eexists; split_all; try reflexivity; page_links.
Qed.

(** A tag: the [choose.html] entry file renders it; the [main.html]
    entry file resolves it and then stops, since it has no label for a
    tag. *)
Lemma page_of_tag
    (env : Env) (assets : Assets) (dir : Directory) (req : Request) (tag : string) :
  query req !! "function_tag" = Some tag →
  query req !! "name" = None →
  query req !! "organisation_id" = None →
  (∃ p', run (handle_choose env assets dir req) = (Html p', [Umami "/link-tag"])
         ∧ page_startCommand p' = "SuivreF " +:+ tag
         ∧ links_carry env p' ("RechercherF " +:+ tag))
  ∧ ((verification_requested req = true → callJORFSearchTag dir tag ≠ []) →
     (run (handle_index env assets dir req)).1 = Json 400 ERR_LABEL
     ∧ analytics_events (run (handle_index env assets dir req)).2 = []).
Proof.
  unfold verification_requested. intros Ht Hn Ho. split.
  - paths (handle_choose env assets dir) req.
    all: eexists; split_all; try reflexivity; page_links.
  - intros Hd. paths (handle_index env assets dir) req.
    all: try (split; reflexivity).
    all: exfalso; apply Hd; [reflexivity | congruence].
Qed.

(** C7. The start command that the landing page builds for a resolved
    target is the verb of the target's kind followed by the argument, and
    the WhatsApp and Telegram links of the page carry that command after
    [replace("Suivre", "Rechercher")], URI-encoded.
    - A person ([name], verified, first match [m]): both entry files
      render a page; the command is [Rechercher prenom nom], and the links
      carry it (unchanged when [Suivre] does not occur in the name).
    - An organisation ([organisation_id], verified, single match [m]):
      both entry files render a page; on [main.html] the label is the name
      of the match; the command is [SuivreO id] with the identifier of the
      match, and the links carry [RechercherO id].
    - A tag ([function_tag]): the [choose.html] entry file renders a
      page with the command [SuivreF tag], and the links carry
      [RechercherF tag]. The [main.html] entry file renders no page for a
      tag: it resolves the tag and then has no label for it, and answers
      the 400 error [Follow label not found.] without a start command.
    The identifier of an organisation is taken to be ASCII, where
    [toUpperCase] is the one of JavaScript. *)
Theorem C7_start_command
    (env : Env) (assets : Assets) (dir : Directory) (req : Request) :
  (∀ n m rest,
     query req !! "name" = Some n →
     (2 ≤ length (Js.split_space n))%nat →
     query req !! "organisation_id" = None →
     query req !! "function_tag" = None →
     verification_requested req = true →
     callJORFSearchPeople dir n = m :: rest →
     let arg := prenom m +:+ " " +:+ nom m in
     ∃ p p', (run (handle_index env assets dir req)).1 = Html p
             ∧ (run (handle_choose env assets dir req)).1 = Html p'
             ∧ page_followLabel p = arg
             ∧ page_startCommand p = Verb people +:+ " " +:+ arg
             ∧ page_startCommand p' = Verb people +:+ " " +:+ arg
             ∧ links_carry env p (Js.replace ("Rechercher " +:+ arg) "Suivre" "Rechercher")
             ∧ links_carry env p' (Js.replace ("Rechercher " +:+ arg) "Suivre" "Rechercher")
             ∧ (Js.contains "Suivre" arg = false →
                Js.replace ("Rechercher " +:+ arg) "Suivre" "Rechercher"
                = "Rechercher " +:+ arg))
  ∧ (∀ o m,
       query req !! "organisation_id" = Some o →
       Js.is_ascii o = true →
       query req !! "name" = None →
       query req !! "function_tag" = None →
       verification_requested req = true →
       callJORFSearchOrganisationByWikidataId dir (Js.toUpperCase o) = [m] →
       ∃ p p', (run (handle_index env assets dir req)).1 = Html p
               ∧ (run (handle_choose env assets dir req)).1 = Html p'
               ∧ page_followLabel p = org_name m
               ∧ page_startCommand p = Verb organisation +:+ " " +:+ org_id m
               ∧ page_startCommand p' = Verb organisation +:+ " " +:+ org_id m
               ∧ links_carry env p ("RechercherO " +:+ org_id m)
               ∧ links_carry env p' ("RechercherO " +:+ org_id m))
  ∧ (∀ tag,
       query req !! "function_tag" = Some tag →
       query req !! "name" = None →
       query req !! "organisation_id" = None →
       (∃ p', (run (handle_choose env assets dir req)).1 = Html p'
              ∧ page_startCommand p' = Verb function_tag +:+ " " +:+ tag
              ∧ links_carry env p' ("RechercherF " +:+ tag))
       ∧ ((verification_requested req = true → callJORFSearchTag dir tag ≠ []) →
          (run (handle_index env assets dir req)).1 = Json 400 ERR_LABEL)).
Proof.
  repeat apply conj.
  - intros n m rest Hn Hl Ho Ht Hv Hd arg.
    destruct (page_of_person env assets dir req n m rest Hn Hl Ho Ht Hv Hd)
      as (p & p' & Hp & Hp' & Hlabel & Hc & Hc' & Hk & Hk').
    exists p, p'. rewrite Hp, Hp'.
    split_all; try assumption; try reflexivity.
    apply replace_Rechercher.
  - intros o m Ho _ Hn Ht Hv Hd.
    destruct (page_of_organisation env assets dir req o m Ho Hn Ht Hv Hd)
      as (p & p' & Hp & Hp' & Hlabel & Hc & Hc' & Hk & Hk').
    exists p, p'. rewrite Hp, Hp'.
    split_all; try assumption; reflexivity.
  - intros tag Ht Hn Ho.
    destruct (page_of_tag env assets dir req tag Ht Hn Ho) as ((p' & Hp' & Hc' & Hk') & Hi).
    split.
    + exists p'. rewrite Hp'. split_all; try assumption; reflexivity.
    + intros Hd. exact (proj1 (Hi Hd)).
Qed.

(** C7, witness: the scenario [organisation_id=q12345] against a
    directory whose single match is [{id: "Q12345", name: "Acme Org"}],
    with the WhatsApp link of the page, and the tag [ministre] on both
    entry files. *)
Lemma C7_witness :
  let req := Sample.get [("organisation_id", "q12345")]%string in
  let req_tag := Sample.get [("function_tag", "ministre")]%string in
  (∃ p, (run (handle_index Sample.production Sample.files Sample.directory req)).1 = Html p
        ∧ page_followLabel p = "Acme Org"%string
        ∧ page_startCommand p = "SuivreO Q12345"%string
        ∧ In ("{WHATSAPP_LINK}"%string,
              "https://wa.me/33600000000?text=Bonjour%20JOEL!%20RechercherO%20Q12345"%string)
            (page_replacements p))
  ∧ (∃ p', (run (handle_choose Sample.production Sample.files Sample.directory req_tag)).1
           = Html p'
           ∧ page_startCommand p' = "SuivreF ministre"%string)
  ∧ (run (handle_index Sample.production Sample.files Sample.directory req_tag)).1
    = Json 400 ERR_LABEL.
Proof.
  intros req req_tag.
  destruct (C7_start_command Sample.production Sample.files Sample.directory req)
    as (_ & Horg & _).
  destruct (Horg "q12345"%string {| org_id := "Q12345"; org_name := "Acme Org" |}
              ltac:(reflexivity) ltac:(reflexivity) ltac:(reflexivity) ltac:(reflexivity)
              ltac:(reflexivity) ltac:(reflexivity))
    as (p & _ & Hp & _ & Hlabel & Hc & _ & (Hw & _) & _).
  destruct (C7_start_command Sample.production Sample.files Sample.directory req_tag)
    as (_ & _ & Htag).
  destruct (Htag "ministre"%string ltac:(reflexivity) ltac:(reflexivity) ltac:(reflexivity))
    as ((p' & Hp' & Hc' & _) & Hi).
  repeat apply conj.
  - exists p. split_all; [exact Hp | exact Hlabel | exact Hc |].
    exact (Hw _ eq_refl).
  - exists p'. split; [exact Hp' | exact Hc'].
  - apply Hi. intros _. discriminate.
Defined.

(** ** C8 and C10: the frame and the size of the QR bitmap *)

(** The bitmap that [generateQrWithLogo] returns is a QR code of width
    [qrSize] with one layer over it. *)
Lemma generateQrWithLogo_shape (assets : Assets) (url : string) (o : QrOptions) (r : Raster) :
  generateQrWithLogo assets url o = Some r →
  ∃ layer, r = Composite (QrPng (Js.encodeURI url) "H" (qrSize o) (margin o) (dark o) (light o))
                 [layer].
Proof.
  unfold generateQrWithLogo. intros H.
  destruct (sharp_resize_inside _ _) as [[lw lh]|]; [|discriminate].
  apply sharp_composite_Some in H as ->. eexists. reflexivity.
Qed.

(** The image answered by [/qrcode]: the bare QR bitmap without the
    frame, and otherwise the frame with the QR bitmap and then the text
    layer over it. In frame mode no [size] was given, and the left offset
    of the QR bitmap is computed from the default size. *)
Lemma qrcode_image_shape
    (env : Env) (assets : Assets) (dir : Directory) (req : Request) (img : Raster) :
  (run (handle_qrcode env assets dir req)).1 = Png img →
  let frameW := default 0 (frame_metadata assets).1 in
  let frameH := default 0 (frame_metadata assets).2 in
  ∃ qr, qr_bitmap img = Some qr ∧ qr_width qr = Some 600
        ∧ (frame_enabled req = false → img = qr)
        ∧ (frame_enabled req = true →
           query req !! "size" = None
           ∧ ∃ label,
               img = Composite (FramePng FRAME_PATH)
                       [Overlay qr
                          (Num.round (Num.half (frameW - DEFAULT_QRCODE_SIZE)))
                          (Num.round (Num.js_mul (Num.of_Z frameH) Num.c0_45));
                        Overlay
                          (TextSvg frameW (FONT_SIZE * 3) FONT_SIZE TEXT_COLOR
                             (negb (Js.truthy_opt label)) (default "" label))
                          0
                          (Num.round (Num.js_mul (Num.of_Z frameH) Num.c0_35))]).
Proof.
  unfold frame_enabled. revert img. paths (handle_qrcode env assets dir) req.
  all: intros img Himg; cbn [fst] in Himg; simplify_eq.
  all: repeat match goal with
         | E : sharp_composite _ _ _ = Some _ |- _ =>
             apply sharp_composite_Some in E; subst
         end.
  all: match goal with
       | E : generateQrWithLogo _ _ _ = Some ?r |- _ =>
           destruct (generateQrWithLogo_shape _ _ _ _ E) as [layer ->]; clear E
       end.
  all: eexists; split; [reflexivity|]; split; [reflexivity|].
  all: use_equations.
  all: split; intros Hf; try discriminate; try reflexivity.
  all: repeat match goal with
         | E : defined ?x = false |- _ => destruct x; [discriminate E|]; clear E
         end.
  all: split; [reflexivity|].
  all: match goal with
       | |- ∃ _, Composite _ [_; Overlay (TextSvg _ _ _ _ _ ?text) _ _] = _ =>
           exists (Some text);
           cbn [mbind option_bind from_option id Js.truthy_opt]; use_equations;
           reflexivity
       end.
Qed.

(** C8. [/qrcode?name=Jean Dupont] with a frame of 1000 x 1400 pixels.
    The layers are in the stated order, the QR layer is at the top
    [round(1400 * 0.45) = 630], the text layer is 1000 x 120 at left 0
    and top [round(1400 * 0.35) = 490]. But the QR bitmap is 600 pixels
    wide and its left offset is 250: it is [round((1000 - 500) / 2)],
    computed from the default of the [size] parameter, where the bitmap's
    own size gives [round((1000 - 600) / 2) = 200]. Whatever the width of
    the frame, the offset computed from 500 is 50 pixels to the right of
    the one that centres a bitmap of 600 pixels. *)
Theorem C8_frame_offset_uses_default_size :
  let req := Sample.get [("name", "Jean Dupont")]%string in
  let qr := Composite
              (QrPng "https://links.joel-officiel.fr:3000?name=Jean%2520DUPONT"
                 "H" 600 1 "#000000" "#ffffff")
              [Overlay (ResizedPng "logo_round.png" 270 270) 165 165] in
  run (handle_qrcode Sample.production Sample.files Sample.directory req)
  = (Png (Composite (FramePng "frame.png")
            [Overlay qr 250 630;
             Overlay (TextSvg 1000 120 40 "#62676c" false "Jean DUPONT") 0 490]),
     [SearchPeople "Jean Dupont"; Umami "/qr-people"])
  ∧ qr_width qr = Some 600
  ∧ Num.round (Num.half (1000 - 600)) = 200
  ∧ Num.round (Num.half (1000 - DEFAULT_QRCODE_SIZE)) = 250
  ∧ Num.round (Num.js_mul (Num.of_Z 1400) Num.c0_45) = 630
  ∧ Num.round (Num.js_mul (Num.of_Z 1400) Num.c0_35) = 490
  ∧ (∀ frameW : Z,
       Num.round (Num.half (frameW - DEFAULT_QRCODE_SIZE))
       = Num.round (Num.half (frameW - 600)) + 50).
Proof.
  intros req qr. repeat apply conj; try reflexivity.
  intros frameW. unfold Num.round, Num.half, DEFAULT_QRCODE_SIZE. cbn.
  Z.div_mod_to_equations. lia.
Qed.

(** C10. Whatever the request, the QR bitmap of an image answered by
    [/qrcode] is 600 pixels wide: [generateQrWithLogo] is called with
    its default options and the parsed [size] is not passed to it.
    Without the frame the bitmap is the whole answer. With the frame, no
    [size] parameter was given, the parsed size is therefore its default
    500, and the left offset of the bitmap over the frame is
    [round((frameW - 500) / 2)], computed from that value and not from
    the 600 pixels of the bitmap. *)
Theorem C10_qr_bitmap_is_600
    (env : Env) (assets : Assets) (dir : Directory) (req : Request) (img : Raster) :
  (run (handle_qrcode env assets dir req)).1 = Png img →
  ∃ qr, qr_bitmap img = Some qr
        ∧ qr_width qr = Some 600
        ∧ (frame_enabled req = false → img = qr)
        ∧ (frame_enabled req = true →
           query req !! "size" = None
           ∧ requested_size req = 500
           ∧ ∃ top text,
               img = Composite (FramePng FRAME_PATH)
                       [Overlay qr
                          (Num.round
                             (Num.half (default 0 (frame_metadata assets).1
                                        - requested_size req)))
                          top;
                        text]).
Proof.
  intros H. destruct (qrcode_image_shape env assets dir req img H) as (qr & Hb & Hw & Hoff & Hon).
  exists qr. repeat apply conj; [exact Hb | exact Hw | exact Hoff |].
  intros Hf. destruct (Hon Hf) as (Hs & label & ->).
  assert (Hr : requested_size req = 500) by (unfold requested_size; rewrite Hs; reflexivity).
  rewrite Hr. repeat apply conj; [exact Hs | reflexivity |].
  do 2 eexists. reflexivity.
Qed.

(** C10, witness: [size=300&frame=false] still yields a bitmap of 600
    pixels. *)
Lemma C10_witness :
  let req := Sample.get [("name", "Jean Dupont"); ("size", "300"); ("frame", "false")]%string in
  let img := Composite
               (QrPng "https://links.joel-officiel.fr:3000?name=Jean%2520DUPONT"
                  "H" 600 1 "#000000" "#ffffff")
               [Overlay (ResizedPng "logo_round.png" 270 270) 165 165] in
  requested_size req = 300
  ∧ ∃ qr, qr_bitmap img = Some qr ∧ qr_width qr = Some 600.
Proof.
  intros req img. split; [reflexivity|].
  destruct (C10_qr_bitmap_is_600 Sample.production Sample.files Sample.directory req img
              ltac:(reflexivity)) as (qr & Hb & Hw & _).
  exists qr. split; [exact Hb | exact Hw].
Defined.


(** ** Rounding to binary64

    A product that does not exceed [S * 2 ^ k], for an integer [S] below
    [2 ^ 53], is not rounded above it. *)



(** ** C9: the logo overlay *)





(** * Further properties of the server *)

(** ** Facts on [encodeURI], [replace], [toUpperCase] and numbers as text *)

(** Concatenation of texts is associative. *)
Lemma append_assoc (a b c : string) : (a +:+ b) +:+ c = a +:+ (b +:+ c).
Proof.
  induction a as [|x a IH]; [reflexivity|].
  change (String x ((a +:+ b) +:+ c) = String x (a +:+ (b +:+ c))). rewrite IH. reflexivity.
Qed.

(** [encodeURI] works character by character (byte by byte). *)
Lemma encodeURI_app (a b : string) :
  Js.encodeURI (a +:+ b) = Js.encodeURI a +:+ Js.encodeURI b.
Proof.
  induction a as [|c a IH]; [reflexivity|].
  simpl. rewrite IH. destruct (Js.uri_kept c); reflexivity.
Qed.

(** A space is encoded as [%20], and as [%2520] when the text is encoded
    a second time. *)
Lemma encodeURI_twice_space (a b : string) :
  Js.encodeURI (Js.encodeURI (a +:+ " " +:+ b))
  = Js.encodeURI (Js.encodeURI a) +:+ "%2520" +:+ Js.encodeURI (Js.encodeURI b).
Proof. rewrite !encodeURI_app. reflexivity. Qed.

(** The hexadecimal digits of an escape are URI characters. *)
Lemma hex_digit_kept (n : nat) : (n < 16)%nat → Js.uri_kept (Js.hex_digit n) = true.
Proof.
  intros H. do 16 (destruct n as [|n]; [reflexivity|]). lia.
Qed.

(** The result of [encodeURI] holds URI characters and the [%] of its
    escapes only. *)
Lemma encodeURI_characters (s : string) :
  Forall (λ c, Js.uri_kept c = true ∨ c = "%"%char) (characters (Js.encodeURI s)).
Proof.
  unfold characters.
  induction s as [|c s IH]; [constructor|].
  cbn [Js.encodeURI]. destruct (Js.uri_kept c) eqn:Hc.
  - cbn [list_ascii_of_string]. constructor; [left; exact Hc | exact IH].
  - cbn [list_ascii_of_string]. constructor; [right; reflexivity|].
    constructor; [left; apply hex_digit_kept|].
    + apply Nat.Div0.div_lt_upper_bound.
      pose proof (nat_ascii_bounded c). lia.
    + constructor; [left; apply hex_digit_kept; apply Nat.mod_upper_bound; lia | exact IH].
Qed.

(** A text of URI characters is left as it is. *)
Lemma encodeURI_kept (s : string) :
  Forall (λ c, Js.uri_kept c = true) (characters s) → Js.encodeURI s = s.
Proof.
  unfold characters. induction s as [|c s IH]; [reflexivity|].
  cbn [list_ascii_of_string Js.encodeURI]. intros H.
  apply Forall_cons in H as [Hc Hs]. rewrite Hc, (IH Hs). reflexivity.
Qed.

(** [encodeURI] never shortens a text, and keeps its length only when
    nothing was escaped. *)
Lemma encodeURI_length (s : string) :
  (String.length s ≤ String.length (Js.encodeURI s))%nat
  ∧ (String.length (Js.encodeURI s) = String.length s →
     Forall (λ c, Js.uri_kept c = true) (characters s)).
Proof.
  unfold characters. induction s as [|c s [IHle IHeq]]; [split; [reflexivity | constructor]|].
  cbn [Js.encodeURI]. destruct (Js.uri_kept c) eqn:Hc; cbn [String.length list_ascii_of_string].
  - split; [lia|]. intros H. constructor; [exact Hc | apply IHeq; lia].
  - split; [lia|]. intros H. lia.
Qed.

(** A replacement text without [$] stands for itself. *)
Lemma expand_replacement_plain (matched pre post rep : string) :
  no_dollar rep = true → Js.expand_replacement matched pre post rep = rep.
Proof.
  induction rep as [|c rep IH]; [reflexivity|].
  cbn [no_dollar]. intros H. apply andb_true_iff in H as [Hc Hr].
  specialize (IH Hr).
  destruct (Ascii.eqb_spec c "$") as [->|Hne]; [discriminate|].
  cbn [Js.expand_replacement].
  destruct c as [[] [] [] [] [] [] [] []]; try (rewrite IH; reflexivity); try congruence.
  all: destruct rep as [|d rep]; try (rewrite IH; reflexivity).
Qed.

(** Upper case of upper case. *)
Lemma toUpperCase_idempotent (s : string) :
  Js.toUpperCase (Js.toUpperCase s) = Js.toUpperCase s.
Proof.
  induction s as [|c s IH]; [reflexivity|].
  cbn [Js.toUpperCase]. rewrite IH. f_equal.
  destruct c as [[] [] [] [] [] [] [] []]; reflexivity.
Qed.

(** A first name, a space and a last name never make an empty text. *)
Lemma truthy_full_name (a b : string) : Js.truthy (a +:+ " " +:+ b) = true.
Proof. destruct a; reflexivity. Qed.

(** A text with two pieces is not empty. *)
Lemma two_pieces_not_empty (n : string) :
  (2 ≤ length (Js.split_space n))%nat → Js.truthy n = true.
Proof. destruct n; [cbn; lia | reflexivity]. Qed.

(** The ten decimal digits. *)
Lemma digit_cases (d : Z) :
  0 ≤ d < 10 →
  d = 0 ∨ d = 1 ∨ d = 2 ∨ d = 3 ∨ d = 4 ∨ d = 5 ∨ d = 6 ∨ d = 7 ∨ d = 8 ∨ d = 9.
Proof. lia. Qed.

(** The value of a decimal digit character. *)
Lemma digit_value_digit (d : Z) :
  0 ≤ d < 10 → Js.digit_value 10 (ascii_of_nat (48 + Z.to_nat d)) = Some d.
Proof.
  intros H. destruct (digit_cases d H) as [->|[->|[->|[->|[->|[->|[->|[->|[->| ->]]]]]]]]];
    reflexivity.
Qed.

(** Reading one more decimal digit. *)
Lemma read_digits_step (a d : Z) (s : string) :
  0 ≤ d < 10 →
  Js.read_digits 10 (Some a) (String (ascii_of_nat (48 + Z.to_nat d)) s)
  = Js.read_digits 10 (Some (a * 10 + d)) s.
Proof.
  intros H. cbn [Js.read_digits]. rewrite (digit_value_digit d H). reflexivity.
Qed.

(** Reading back the digits that [digits_fuel] writes. *)
Lemma read_digits_fuel (f : nat) :
  ∀ n acc, 0 ≤ n < 10 ^ Z.of_nat f →
    ∃ k, 0 ≤ k
         ∧ ∀ a, Js.read_digits 10 (Some a) (Js.digits_fuel f n acc)
                = Js.read_digits 10 (Some (a * 10 ^ k + n)) acc.
Proof.
  induction f as [|f IH]; intros n acc Hn.
  - exists 0. split; [lia|]. intros a. cbn [Js.digits_fuel].
    replace n with 0 by (cbn in Hn; lia). do 2 f_equal. lia.
  - cbn [Js.digits_fuel].
    pose proof (Z.mod_pos_bound n 10 ltac:(lia)) as Hd.
    destruct (Z.ltb_spec n 10) as [Hlt|Hge].
    + exists 1. split; [lia|]. intros a. rewrite (read_digits_step _ _ _ Hd).
      rewrite Z.mod_small by lia. do 2 f_equal.
    + destruct (IH (n / 10) (String (ascii_of_nat (48 + Z.to_nat (n mod 10))) acc))
        as (k & Hk & Hread).
      { split; [apply Z.div_pos; lia|].
        apply Z.div_lt_upper_bound; [lia|].
        rewrite Nat2Z.inj_succ, Z.pow_succ_r in Hn by lia. lia. }
      exists (k + 1). split; [lia|]. intros a. rewrite Hread.
      rewrite (read_digits_step _ _ _ Hd). do 2 f_equal.
      rewrite Z.pow_add_r by lia. pose proof (Z.div_mod n 10 ltac:(lia)). lia.
Qed.

(** The text of a number holds decimal digits only. *)
Lemma digits_fuel_digits (f : nat) :
  ∀ n acc, 0 ≤ n →
    Forall (λ c, is_Some (Js.digit_value 10 c)) (characters acc) →
    Forall (λ c, is_Some (Js.digit_value 10 c)) (characters (Js.digits_fuel f n acc)).
Proof.
  induction f as [|f IH]; intros n acc Hn Hacc; [exact Hacc|].
  cbn [Js.digits_fuel].
  pose proof (Z.mod_pos_bound n 10 ltac:(lia)) as Hd.
  assert (Hacc' : Forall (λ c, is_Some (Js.digit_value 10 c))
                    (characters (String (ascii_of_nat (48 + Z.to_nat (n mod 10))) acc))).
  { constructor; [rewrite (digit_value_digit _ Hd); eauto | exact Hacc]. }
  destruct (n <? 10); [exact Hacc'|].
  apply IH; [apply Z.div_pos; lia | exact Hacc'].
Qed.

(** The text of a number is not empty. *)
Lemma digits_fuel_not_empty (f : nat) :
  ∀ n acc, (0 < f)%nat ∨ acc ≠ ""%string → Js.digits_fuel f n acc ≠ ""%string.
Proof.
  induction f as [|f IH]; intros n acc H.
  - destruct H as [H|H]; [lia | exact H].
  - cbn [Js.digits_fuel]. destruct (n <? 10); [discriminate|].
    apply IH. right. discriminate.
Qed.

(** In a text of decimal digits [parseInt] finds no space, sign or
    radix prefix. *)
Lemma parseInt_digits (s : string) :
  s ≠ ""%string →
  Forall (λ c, is_Some (Js.digit_value 10 c)) (characters s) →
  Js.parseInt s = Js.read_digits 10 (Some 0) s.
Proof.
  destruct s as [|c rest]; [congruence|]. intros _ H.
  apply Forall_cons in H as [[d Hc] Hrest].
  assert (Hread : Js.read_digits 10 None (String c rest)
                  = Js.read_digits 10 (Some 0) (String c rest)).
  { cbn [Js.read_digits]. rewrite Hc. reflexivity. }
  assert (Hvalue : ∀ s', match Js.read_digits 10 (Some 0) s' with
                         | Some v => Some v | None => None end
                         = Js.read_digits 10 (Some 0) s').
  { intros s'. destruct (Js.read_digits 10 (Some 0) s'); reflexivity. }
  rewrite <- Hvalue, <- Hread.
  destruct c as [[] [] [] [] [] [] [] []]; try discriminate Hc; try reflexivity.
  destruct rest as [|c' rest']; [reflexivity|].
  apply Forall_cons in Hrest as [[d' Hc'] _].
  destruct c' as [[] [] [] [] [] [] [] []]; try discriminate Hc'; reflexivity.
Qed.

(** [parseInt(String(n))] is [n] for a natural number [n]. *)
Lemma parseInt_String_of_int (n : Z) :
  0 ≤ n → Js.parseInt (Js.String_of_int n) = Some n.
Proof.
  intros Hn. unfold Js.String_of_int.
  destruct (Z.ltb_spec n 0); [lia|].
  set (f := S (Z.to_nat (Z.log2 n))).
  rewrite parseInt_digits.
  - destruct (read_digits_fuel f n "") as (k & Hk & Hread).
    { split; [lia|]. unfold f.
      rewrite Nat2Z.inj_succ, Z2Nat.id by apply Z.log2_nonneg.
      destruct (Z.eq_dec n 0) as [->|Hne]; [cbn; lia|].
      pose proof (Z.log2_spec n ltac:(lia)) as [_ Hhi].
      assert (2 ^ Z.succ (Z.log2 n) ≤ 10 ^ Z.succ (Z.log2 n)); [|lia].
      apply Z.pow_le_mono_l. pose proof (Z.log2_nonneg n). lia. }
    rewrite Hread. cbn [Js.read_digits]. f_equal; lia.
  - apply digits_fuel_not_empty. left. unfold f. lia.
  - apply digits_fuel_digits; [lia | constructor].
Qed.

(** ** Sample runs *)

(** The page that a run on sample data renders, handed to [k]. *)
Ltac sample_page run_term k :=
  let r := eval vm_compute in run_term in
  lazymatch r with
  | (Html ?p, _) => k p
  end.

(** ** The image endpoint: targets and parameters *)

(** X1. The image endpoint answers with the 400 error
    [qr_url not initialized] exactly when there is no size/frame conflict
    and none of [name], [organisation_id], [function_tag] holds a
    non-empty value, whatever else the query holds (an [organisation=...]
    parameter, for one); no directory call is made on that answer. *)
Theorem qrcode_without_target
    (env : Env) (assets : Assets) (dir : Directory) (req : Request) :
  (size_frame_conflict req = false ∧ present_count req = 0%nat →
   run (handle_qrcode env assets dir req) = (Json 400 ERR_QR_URL, []))
  ∧ ((run (handle_qrcode env assets dir req)).1 = Json 400 ERR_QR_URL →
     size_frame_conflict req = false ∧ present_count req = 0%nat).
Proof.
  unfold present_count, present, size_frame_conflict, frame_enabled, param.
  split.
  - intros [Hc H]. paths (handle_qrcode env assets dir) req.
    all: try reflexivity.
    all: try (exfalso; use_lookups H; split_truthy H; simplify_eq; simpl in H; lia).
  - paths (handle_qrcode env assets dir) req.
    all: intros Hr; cbn [fst] in Hr; try discriminate Hr.
    all: try (split; [reflexivity|]; use_equations; reflexivity).
Qed.

(** X1, witness: [/qrcode?organisation=Q12345&frame=false], the query that
    the landing page writes for the image of an organisation. *)
Lemma qrcode_without_target_witness :
  let req := Sample.get [("organisation", "Q12345"); ("frame", "false")]%string in
  run (handle_qrcode Sample.production Sample.files Sample.directory req)
  = (Json 400 ERR_QR_URL, []).
Proof.
  intros req.
  assert (Hc : size_frame_conflict req = false) by reflexivity.
  assert (Hn : present_count req = 0%nat) by reflexivity.
  exact (proj1 (qrcode_without_target Sample.production Sample.files Sample.directory req)
           (conj Hc Hn)).
Defined.

(** X2. A [size] given while the frame is enabled is answered with the
    size/frame conflict before anything else, without any directory call.
    With [frame=false], the only mode in which [size] is accepted, its
    value changes nothing in the answer nor in the events of the
    request: adding or replacing [size] gives the same run. *)
Theorem size_has_no_effect
    (env : Env) (assets : Assets) (dir : Directory) (req : Request) (size : string) :
  (size_frame_conflict req = true →
   run (handle_qrcode env assets dir req) = (SizeFrameConflict, []))
  ∧ (query req !! "frame" = Some "false"%string →
     run (handle_qrcode env assets dir (with_parameter req "size" size))
     = run (handle_qrcode env assets dir req)).
Proof.
  split.
  - unfold size_frame_conflict, frame_enabled. intros H.
    unfold run, handle_qrcode. rewrite H. reflexivity.
  - intros Hf. unfold handle_qrcode, with_parameter. cbn [query user_agent].
    rewrite lookup_insert_eq, !lookup_insert_ne by discriminate.
    rewrite Hf. cbn [String.eqb Ascii.eqb Bool.eqb negb andb].
    destruct (query req !! "size"); reflexivity.
Qed.

(** X2, witness: [size=300] with and without [frame=false]. *)
Lemma size_has_no_effect_witness :
  let req := Sample.get [("name", "Jean Dupont"); ("frame", "false")]%string in
  run (handle_qrcode Sample.production Sample.files Sample.directory
         (with_parameter req "size" "300"))
  = run (handle_qrcode Sample.production Sample.files Sample.directory req)
  ∧ run (handle_qrcode Sample.production Sample.files Sample.directory
           (Sample.get [("name", "Jean Dupont"); ("size", "300")]%string))
    = (SizeFrameConflict, []).
Proof.
  intros req.
  assert (Hf : query req !! "frame" = Some "false"%string) by reflexivity.
  split.
  - exact (proj2 (size_has_no_effect Sample.production Sample.files Sample.directory
                    req "300") Hf).
  - pose (req' := Sample.get [("name", "Jean Dupont"); ("size", "300")]%string).
    assert (Hc : size_frame_conflict req' = true) by reflexivity.
    exact (proj1 (size_has_no_effect Sample.production Sample.files Sample.directory
                    req' "") Hc).
Defined.

(** X3. A verified person on the image endpoint. The directory is
    searched with the name as submitted; no match is answered with the
    not-found error of the person; and when there are matches, however
    many, the first one is taken without any ambiguity error. The label
    is its first name, a space and its last name, and the QR code encodes
    the landing-page URL [APP_URL_WITH_PORT?name=...] with that name,
    URI-encoded twice, so that the space of the name reads [%2520]. The
    image is answered when the image libraries accept their inputs:
    [qrcode] draws the URL at its 600 pixels, the logo fits the bitmap
    and, in frame mode, the frame holds the bitmap and the text layer
    with the label is read. The [/qr-people] event is logged in frame
    mode only. *)
Theorem qrcode_person_first_match
    (env : Env) (assets : Assets) (dir : Directory) (req : Request) (n : string) :
  query req !! "name" = Some n →
  (2 ≤ length (Js.split_space n))%nat →
  param req "organisation_id" = ""%string → param req "function_tag" = ""%string →
  size_frame_conflict req = false →
  verification_requested req = true →
  (callJORFSearchPeople dir n = [] →
   run (handle_qrcode env assets dir req) = (Json 400 (ERR_NO_PERSON n), [SearchPeople n]))
  ∧ (∀ m rest, callJORFSearchPeople dir n = m :: rest →
       qr_drawn assets (APP_URL_WITH_PORT env +:+ "?name=" +:+ prenom m +:+ " " +:+ nom m) →
       logo_fits assets = true →
       (frame_enabled req = true → frame_holds assets (prenom m +:+ " " +:+ nom m) = true) →
       ∃ img,
         run (handle_qrcode env assets dir req)
         = (Png img,
            SearchPeople n :: (if frame_enabled req then [Umami "/qr-people"] else []))
         ∧ encoded_text img
           = Some (Js.encodeURI (Js.encodeURI (APP_URL_WITH_PORT env +:+ "?name=" +:+ prenom m))
                   +:+ "%2520" +:+ Js.encodeURI (Js.encodeURI (nom m)))
         ∧ (frame_enabled req = true →
            label_layer img = Some (false, prenom m +:+ " " +:+ nom m))).
Proof.
  unfold verification_requested, size_frame_conflict, frame_enabled, param, qr_drawn.
  intros Hn Hl Ho Ht Hc Hv.
  pose proof (two_pieces_not_empty n Hl) as Hne. apply Nat.ltb_ge in Hl.
  split.
  - intros Hd. paths (handle_qrcode env assets dir) req.
    all: reflexivity.
  - intros m rest Hd Hq Hlogo Hf. paths (handle_qrcode env assets dir) req.
    all: image_answer Hq Hlogo Hf.
    all: eexists; split; [reflexivity|]; split;
      [ cbn [encoded_text qr_bitmap]; f_equal;
        rewrite !encodeURI_app, !append_assoc; reflexivity
      | intros Hf'; try discriminate Hf'; cbn [label_layer];
        rewrite ?truthy_full_name; reflexivity ].
Qed.

(** X3, witness: [/qrcode?name=Jean Dupont&frame=false]. *)
Lemma qrcode_person_first_match_witness :
  let req := Sample.get [("name", "Jean Dupont"); ("frame", "false")]%string in
  ∃ img,
    run (handle_qrcode Sample.production Sample.files Sample.directory req)
    = (Png img, [SearchPeople "Jean Dupont"])
    ∧ encoded_text img
      = Some "https://links.joel-officiel.fr:3000?name=Jean%2520DUPONT"%string.
Proof.
  intros req.
  assert (Hn : query req !! "name" = Some "Jean Dupont"%string) by reflexivity.
  destruct (qrcode_person_first_match Sample.production Sample.files Sample.directory
              req "Jean Dupont" Hn ltac:(vm_compute; lia)
              ltac:(reflexivity) ltac:(reflexivity) ltac:(reflexivity) ltac:(reflexivity))
    as [_ H].
  destruct (H {| prenom := "Jean"; nom := "DUPONT" |} [] ltac:(reflexivity)
              ltac:(reflexivity) ltac:(reflexivity)
              ltac:(intros Hf; vm_compute in Hf; discriminate Hf))
    as (img & Hrun & Htext & _).
  exists img. split; [exact Hrun | exact Htext].
Defined.

(** X4. A person on the image endpoint with the verification skipped
    (an empty [verify=]): no directory call is made, and the label and the
    encoded URL carry the name as submitted. The image is answered when
    [qrcode] draws the URL, the logo fits the bitmap and, in frame mode,
    the frame holds the bitmap and the text layer with the name is read
    (the name is written into the SVG as it is). *)
Theorem qrcode_unverified_person
    (env : Env) (assets : Assets) (dir : Directory) (req : Request) (n : string) :
  query req !! "name" = Some n →
  (2 ≤ length (Js.split_space n))%nat →
  param req "organisation_id" = ""%string → param req "function_tag" = ""%string →
  size_frame_conflict req = false →
  verification_requested req = false →
  qr_drawn assets (APP_URL_WITH_PORT env +:+ "?name=" +:+ n) →
  logo_fits assets = true →
  (frame_enabled req = true → frame_holds assets n = true) →
  ∃ img,
    run (handle_qrcode env assets dir req)
    = (Png img, if frame_enabled req then [Umami "/qr-people"] else [])
    ∧ encoded_text img
      = Some (Js.encodeURI (Js.encodeURI (APP_URL_WITH_PORT env +:+ "?name=" +:+ n)))
    ∧ (frame_enabled req = true → label_layer img = Some (false, n)).
Proof.
  unfold verification_requested, size_frame_conflict, frame_enabled, param, qr_drawn.
  intros Hn Hl Ho Ht Hc Hv Hq Hlogo Hf.
  pose proof (two_pieces_not_empty n Hl) as Hne. apply Nat.ltb_ge in Hl.
  paths (handle_qrcode env assets dir) req.
  all: image_answer Hq Hlogo Hf.
  all: eexists; split; [reflexivity|]; split; [reflexivity|].
  all: intros Hf'; try discriminate Hf'; cbn [label_layer]; rewrite ?Hne; reflexivity.
Qed.

(** X4, witness: [/qrcode?name=Jean Dupont&verify=] against an empty
    directory. *)
Lemma qrcode_unverified_person_witness :
  let req := Sample.get [("name", "Jean Dupont"); ("verify", "")]%string in
  ∃ img,
    run (handle_qrcode Sample.production Sample.files Sample.empty_directory req)
    = (Png img, [Umami "/qr-people"])
    ∧ label_layer img = Some (false, "Jean Dupont"%string).
Proof.
  intros req.
  assert (Hn : query req !! "name" = Some "Jean Dupont"%string) by reflexivity.
  destruct (qrcode_unverified_person Sample.production Sample.files Sample.empty_directory
              req "Jean Dupont" Hn ltac:(vm_compute; lia)
              ltac:(reflexivity) ltac:(reflexivity) ltac:(reflexivity) ltac:(reflexivity)
              ltac:(reflexivity) ltac:(reflexivity) ltac:(intros _; reflexivity))
    as (img & Hrun & _ & Hlabel).
  exists img. split; [exact Hrun | exact (Hlabel ltac:(reflexivity))].
Defined.

(** X5. A function tag on the image endpoint. When the verification is
    requested the directory is searched once with the tag, and an empty
    result is answered with [No result found on JORFSearch.]. Otherwise,
    when [qrcode] draws the URL, the logo fits the bitmap and, in frame
    mode, the frame holds the bitmap and the text layer with the tag is
    read, an image is answered whose label is the tag as submitted (the
    directory's records are not used) and whose QR code encodes
    [APP_URL_WITH_PORT?&function_tag=tag], URI-encoded twice. *)
Theorem qrcode_tag
    (env : Env) (assets : Assets) (dir : Directory) (req : Request) (tag : string) :
  query req !! "function_tag" = Some tag → tag ≠ ""%string →
  param req "name" = ""%string → param req "organisation_id" = ""%string →
  size_frame_conflict req = false →
  (verification_requested req = true → callJORFSearchTag dir tag = [] →
   run (handle_qrcode env assets dir req) = (Json 400 ERR_NO_RESULT, [SearchTag tag]))
  ∧ (verification_requested req = false ∨ callJORFSearchTag dir tag ≠ [] →
     qr_drawn assets (APP_URL_WITH_PORT env +:+ "?&function_tag=" +:+ tag) →
     logo_fits assets = true →
     (frame_enabled req = true → frame_holds assets tag = true) →
     ∃ img,
       run (handle_qrcode env assets dir req)
       = (Png img,
          (if verification_requested req then [SearchTag tag] else [])
          ++ (if frame_enabled req then [Umami "/qr-tag"] else []))
       ∧ encoded_text img
         = Some (Js.encodeURI (Js.encodeURI
                   (APP_URL_WITH_PORT env +:+ "?&function_tag=" +:+ tag)))
       ∧ (frame_enabled req = true → label_layer img = Some (false, tag))).
Proof.
  unfold verification_requested, size_frame_conflict, frame_enabled, param, qr_drawn.
  intros Ht Hne Hn Ho Hc.
  assert (Htr : Js.truthy tag = true) by (destruct tag; [congruence | reflexivity]).
  split.
  - intros Hv Hd. paths (handle_qrcode env assets dir) req.
    all: reflexivity.
  - intros Hcase Hq Hlogo Hf. paths (handle_qrcode env assets dir) req.
    all: try (destruct Hcase as [Hcase|Hcase]; [discriminate Hcase | congruence]).
    all: image_answer Hq Hlogo Hf.
    all: eexists; split; [reflexivity|]; split; [reflexivity|].
    all: intros Hf'; try discriminate Hf'; cbn [label_layer]; rewrite ?Htr; reflexivity.
Qed.

(** X5, witness: [/qrcode?function_tag=ministre] against an empty
    directory and against the sample directory. *)
Lemma qrcode_tag_witness :
  let req := Sample.get [("function_tag", "ministre")]%string in
  run (handle_qrcode Sample.production Sample.files Sample.empty_directory req)
  = (Json 400 ERR_NO_RESULT, [SearchTag "ministre"])
  ∧ ∃ img,
      run (handle_qrcode Sample.production Sample.files Sample.directory req)
      = (Png img, [SearchTag "ministre"; Umami "/qr-tag"])
      ∧ label_layer img = Some (false, "ministre"%string).
Proof.
  intros req.
  assert (Ht : query req !! "function_tag" = Some "ministre"%string) by reflexivity.
  split.
  - exact (proj1 (qrcode_tag Sample.production Sample.files Sample.empty_directory
                    req "ministre" Ht ltac:(discriminate)
                    ltac:(reflexivity) ltac:(reflexivity) ltac:(reflexivity))
             ltac:(reflexivity) ltac:(reflexivity)).
  - destruct (proj2 (qrcode_tag Sample.production Sample.files Sample.directory
                       req "ministre" Ht ltac:(discriminate)
                       ltac:(reflexivity) ltac:(reflexivity) ltac:(reflexivity))
                ltac:(right; discriminate) ltac:(reflexivity) ltac:(reflexivity)
                ltac:(intros _; reflexivity)) as (img & Hrun & _ & Hlabel).
    exists img. split; [exact Hrun | exact (Hlabel ltac:(reflexivity))].
Defined.

(** X6. On the image endpoint an organisation is verified whatever the
    [verify] parameter says: with a non-empty [organisation_id], adding
    or replacing [verify] gives the same run. *)
Theorem qrcode_organisation_always_verified
    (env : Env) (assets : Assets) (dir : Directory) (req : Request) (verify : string) :
  present req "organisation_id" = true →
  run (handle_qrcode env assets dir (with_parameter req "verify" verify))
  = run (handle_qrcode env assets dir req).
Proof.
  unfold present, param. intros Ho.
  unfold handle_qrcode, with_parameter. cbn [query user_agent].
  rewrite lookup_insert_eq, !lookup_insert_ne by discriminate.
  rewrite Ho. reflexivity.
Qed.

(** X6, witness: [organisation_id=Q12345] with and without an empty
    [verify=]; the directory is searched in both. *)
Lemma qrcode_organisation_always_verified_witness :
  let req := Sample.get [("organisation_id", "Q12345")]%string in
  run (handle_qrcode Sample.production Sample.files Sample.directory
         (with_parameter req "verify" ""))
  = run (handle_qrcode Sample.production Sample.files Sample.directory req)
  ∧ (run (handle_qrcode Sample.production Sample.files Sample.directory req)).2
    = [SearchOrganisation "Q12345"; Umami "/qr-organisation"].
Proof.
  intros req. split; [|reflexivity].
  exact (qrcode_organisation_always_verified Sample.production Sample.files Sample.directory
           req "" ltac:(reflexivity)).
Defined.

(** A second pass of [encodeURI] leaves a text unchanged exactly when
    the text before the first pass holds URI characters only. *)
Lemma encodeURI_twice_fixed (s : string) :
  Js.encodeURI (Js.encodeURI s) = Js.encodeURI s
  ↔ Forall (λ c, Js.uri_kept c = true) (characters s).
Proof.
  split.
  - intros H.
    assert (Hkept : Forall (λ c, Js.uri_kept c = true) (characters (Js.encodeURI s))).
    { apply encodeURI_length. rewrite H. reflexivity. }
    apply encodeURI_length.
    apply Nat.le_antisymm; [|apply encodeURI_length].
    clear H. revert Hkept. unfold characters.
    induction s as [|c s IH]; [reflexivity|].
    cbn [Js.encodeURI]. destruct (Js.uri_kept c) eqn:Hc; cbn [list_ascii_of_string].
    + intros Hk. apply Forall_cons in Hk as [_ Hk]. specialize (IH Hk).
      cbn [String.length]. lia.
    + intros Hk. apply Forall_cons in Hk as [Hk _]. discriminate Hk.
  - intros H. rewrite (encodeURI_kept s H). apply encodeURI_kept, H.
Qed.

(** The characters of a concatenation. *)
Lemma characters_app (a b : string) :
  characters (a +:+ b) = characters a ++ characters b.
Proof.
  unfold characters. induction a as [|c a IH]; [reflexivity|].
  simpl. f_equal. exact IH.
Qed.

(** A name of two pieces or more holds a space. *)
Lemma two_pieces_space (n : string) :
  (2 ≤ length (Js.split_space n))%nat → In " "%char (characters n).
Proof.
  rewrite split_space_length. unfold characters.
  induction n as [|c n IH]; cbn [count_spaces list_ascii_of_string]; [lia|].
  destruct (Ascii.eqb_spec c " ") as [->|_]; [left; reflexivity|].
  intros H. right. apply IH. lia.
Qed.

(** A URL that ends with a text holding a space is changed by
    [encodeURI]. *)
Lemma space_not_kept (prefix arg : string) :
  In " "%char (characters arg) →
  ¬ Forall (λ c, Js.uri_kept c = true) (characters (prefix +:+ arg)).
Proof.
  intros Hin HF. rewrite characters_app in HF. apply Forall_app in HF as [_ HF].
  pose proof (proj1 (List.Forall_forall _ _) HF _ Hin) as Hk. discriminate Hk.
Qed.

(** X7. The text drawn in the QR code of every image that the image
    endpoint answers is the landing-page URL of the target, URI-encoded
    twice: the handler passes the URL through [encodeURI], and
    [generateQrWithLogo] does it again. The URL is
    [APP_URL_WITH_PORT] followed by [?name=], [?&organisation=] or
    [?&function_tag=] and the argument, for the kind whose parameter is
    present; for an organisation and for a tag the argument is the
    parameter as submitted. The text drawn is the URL encoded once exactly
    when the URL holds URI characters only. That is never so for a
    person, whose name holds a space: the text drawn holds [%2520] where a
    URL encoded once holds [%20]. *)
Theorem qr_text_encoded_twice
    (env : Env) (assets : Assets) (dir : Directory) (req : Request) (img : Raster) :
  (run (handle_qrcode env assets dir req)).1 = Png img →
  ∃ kind arg,
    present req (target_parameter kind) = true
    ∧ encoded_text img
      = Some (Js.encodeURI (Js.encodeURI
                (APP_URL_WITH_PORT env +:+ landing_query kind +:+ arg)))
    ∧ (encoded_text img
       = Some (Js.encodeURI (APP_URL_WITH_PORT env +:+ landing_query kind +:+ arg))
       ↔ Forall (λ c, Js.uri_kept c = true)
           (characters (APP_URL_WITH_PORT env +:+ landing_query kind +:+ arg)))
    ∧ (kind = people →
       In " "%char (characters arg)
       ∧ encoded_text img
         ≠ Some (Js.encodeURI (APP_URL_WITH_PORT env +:+ landing_query kind +:+ arg)))
    ∧ (kind ≠ people → arg = param req (target_parameter kind)).
Proof.
  assert (Hshape : ∀ kind arg,
            present req (target_parameter kind) = true →
            encoded_text img
            = Some (Js.encodeURI (Js.encodeURI
                      (APP_URL_WITH_PORT env +:+ landing_query kind +:+ arg))) →
            (kind = people → In " "%char (characters arg)) →
            (kind ≠ people → arg = param req (target_parameter kind)) →
            ∃ kind arg,
              present req (target_parameter kind) = true
              ∧ encoded_text img
                = Some (Js.encodeURI (Js.encodeURI
                          (APP_URL_WITH_PORT env +:+ landing_query kind +:+ arg)))
              ∧ (encoded_text img
                 = Some (Js.encodeURI (APP_URL_WITH_PORT env +:+ landing_query kind +:+ arg))
                 ↔ Forall (λ c, Js.uri_kept c = true)
                     (characters (APP_URL_WITH_PORT env +:+ landing_query kind +:+ arg)))
              ∧ (kind = people →
                 In " "%char (characters arg)
                 ∧ encoded_text img
                   ≠ Some (Js.encodeURI
                             (APP_URL_WITH_PORT env +:+ landing_query kind +:+ arg)))
              ∧ (kind ≠ people → arg = param req (target_parameter kind))).
  { intros kind arg Hpresent Htext Hspace Harg. exists kind, arg.
    assert (Hiff : encoded_text img
                   = Some (Js.encodeURI (APP_URL_WITH_PORT env +:+ landing_query kind +:+ arg))
                   ↔ Forall (λ c, Js.uri_kept c = true)
                       (characters (APP_URL_WITH_PORT env +:+ landing_query kind +:+ arg))).
    { rewrite Htext, <- encodeURI_twice_fixed. split; intros H; congruence. }
    split; [exact Hpresent|]. split; [exact Htext|]. split; [exact Hiff|].
    split; [|exact Harg].
    intros Hk. split; [exact (Hspace Hk)|].
    intros H. apply Hiff in H. revert H.
    rewrite <- append_assoc. apply space_not_kept, Hspace, Hk. }
  revert img Hshape. unfold present, param.
  paths (handle_qrcode env assets dir) req.
  all: intros img Hshape Himg; cbn [fst] in Himg; simplify_eq.
  all: repeat match goal with
         | E : sharp_composite _ _ _ = Some _ |- _ =>
             apply sharp_composite_Some in E; subst
         end.
  all: match goal with
       | E : generateQrWithLogo _ _ _ = Some ?r |- _ =>
           destruct (generateQrWithLogo_shape _ _ _ _ E) as [layer ->]; clear E
       end.
  all: lazymatch goal with
       | Hl : Nat.ltb (length (Js.split_space ?n)) 2 = false,
         E : callJORFSearchPeople _ _ = ?m :: _ |- _ =>
           apply (Hshape people (prenom m +:+ " " +:+ nom m))
       | Hl : Nat.ltb (length (Js.split_space ?n)) 2 = false |- _ =>
           apply (Hshape people n)
       | E : callJORFSearchOrganisationByWikidataId _ ?o = _ |- _ =>
           apply (Hshape organisation o)
       | E : Js.truthy (default "" (query ?r !! "function_tag")) = true |- _ =>
           apply (Hshape function_tag (default "" (query r !! "function_tag")))
       end.
  all: cbn [target_parameter landing_query]; use_equations.
  all: try reflexivity.
  all: try (intros; congruence).
  all: try (intros _; rewrite characters_app, in_app_iff; right; left; reflexivity).
  all: intros _; apply two_pieces_space; apply Nat.ltb_ge; assumption.
Qed.

(** X7, witness: [/qrcode?name=Jean Dupont&frame=false]. *)
Lemma qr_text_encoded_twice_witness :
  let req := Sample.get [("name", "Jean Dupont"); ("frame", "false")]%string in
  let img := Composite
               (QrPng "https://links.joel-officiel.fr:3000?name=Jean%2520DUPONT"
                  "H" 600 1 "#000000" "#ffffff")
               [Overlay (ResizedPng "logo_round.png" 270 270) 165 165] in
  ∃ kind arg,
    present req (target_parameter kind) = true
    ∧ encoded_text img
      = Some (Js.encodeURI (Js.encodeURI
                (APP_URL_WITH_PORT Sample.production +:+ landing_query kind +:+ arg))).
Proof.
  intros req img.
  destruct (qr_text_encoded_twice Sample.production Sample.files Sample.directory req img
              ltac:(reflexivity)) as (kind & arg & Hpresent & Htext & _).
  exists kind, arg. split; [exact Hpresent | exact Htext].
Defined.

(** ** The landing page: people, tags and organisations *)

(** X8. A verified person on the landing page (both entry files). The
    directory is searched with the name as submitted and, when there are
    matches, however many, the first one is taken without any ambiguity
    error: the page is rendered for the directory's spelling
    [prenom nom], with the start command [Rechercher prenom nom], after
    the events [SearchPeople name] and [/link-people]. *)
Theorem landing_person_first_match
    (env : Env) (assets : Assets) (dir : Directory) (req : Request)
    (n : string) (m : PersonItem) (rest : list PersonItem) :
  query req !! "name" = Some n →
  (2 ≤ length (Js.split_space n))%nat →
  query req !! "organisation_id" = None → query req !! "function_tag" = None →
  verification_requested req = true →
  callJORFSearchPeople dir n = m :: rest →
  let full := prenom m +:+ " " +:+ nom m in
  (∃ p, run (handle_index env assets dir req)
        = (Html p, [SearchPeople n; Umami "/link-people"])
        ∧ page_followType p = people ∧ page_followArg p = full
        ∧ page_followLabel p = full
        ∧ page_startCommand p = "Rechercher " +:+ full)
  ∧ (∃ p, run (handle_choose env assets dir req)
          = (Html p, [SearchPeople n; Umami "/link-people"])
          ∧ page_followType p = people ∧ page_followArg p = full
          ∧ page_followLabel p = choose_follow_label (Some full)
          ∧ page_startCommand p = "Rechercher " +:+ full).
Proof.
  intros Hn Hl Ho Ht Hv Hd full. unfold verification_requested in Hv.
  apply Nat.ltb_ge in Hl. subst full.
  split.
  - paths (handle_index env assets dir) req.
    all: eexists; repeat split; reflexivity.
  - paths (handle_choose env assets dir) req.
    all: eexists; repeat split; reflexivity.
Qed.

(** X8, witness: a directory with two matches for [jean dupont]. *)
Lemma landing_person_first_match_witness :
  let req := Sample.get [("name", "jean dupont")]%string in
  let dir := {| callJORFSearchPeople :=
                  λ _, [ {| prenom := "Jean"; nom := "DUPONT" |};
                         {| prenom := "Jeanne"; nom := "DUPONT" |} ];
                callJORFSearchOrganisationByWikidataId := λ _, [];
                callJORFSearchTag := λ _, [] |} in
  ∃ p, run (handle_index Sample.production Sample.files dir req)
       = (Html p, [SearchPeople "jean dupont"; Umami "/link-people"])
       ∧ page_followLabel p = "Jean DUPONT"%string
       ∧ page_startCommand p = "Rechercher Jean DUPONT"%string.
Proof.
  intros req dir.
  assert (Hn : query req !! "name" = Some "jean dupont"%string) by reflexivity.
  destruct (landing_person_first_match Sample.production Sample.files dir req "jean dupont"
              {| prenom := "Jean"; nom := "DUPONT" |} [ {| prenom := "Jeanne"; nom := "DUPONT" |} ]
              Hn ltac:(vm_compute; lia) ltac:(reflexivity) ltac:(reflexivity)
              ltac:(reflexivity) ltac:(reflexivity))
    as [(p & Hrun & _ & _ & Hlabel & Hcommand) _].
  exists p. split; [exact Hrun|]. split; [exact Hlabel | exact Hcommand].
Defined.

(** X9. A person on the landing page with the verification skipped
    (an empty [verify=]); no directory call is made and no QR address is
    set. The [choose.html] entry file answers with the 400 error
    [qr_url not initialized]. The [main.html] entry file redirects to
    [https://links.joel-officiel.fr] outside development; in development
    it renders the page of the submitted name with the label
    [Sample label] and an empty QR block. *)
Theorem landing_unverified_person
    (env : Env) (assets : Assets) (dir : Directory) (req : Request) (n : string) :
  query req !! "name" = Some n →
  (2 ≤ length (Js.split_space n))%nat →
  query req !! "organisation_id" = None → query req !! "function_tag" = None →
  verification_requested req = false →
  run (handle_choose env assets dir req) = (Json 400 ERR_QR_URL, [])
  ∧ (isDev env = false →
     run (handle_index env assets dir req) = (Redirect "https://links.joel-officiel.fr", []))
  ∧ (isDev env = true →
     ∃ p, run (handle_index env assets dir req) = (Html p, [Umami "/link-people"])
          ∧ page_followType p = people
          ∧ page_followArg p = n
          ∧ page_followLabel p = "Sample label"%string
          ∧ page_startCommand p = "Rechercher " +:+ n
          ∧ head (page_replacements p) = Some ("{QRCODE_BLOCK}"%string, ""%string)).
Proof.
  unfold verification_requested. intros Hn Hl Ho Ht Hv. apply Nat.ltb_ge in Hl.
  split; [|split].
  - paths (handle_choose env assets dir) req. all: reflexivity.
  - intros Hdev. paths (handle_index env assets dir) req.
    all: unfold APP_URL, APP_DOMAIN; rewrite Hdev; reflexivity.
  - intros Hdev. paths (handle_index env assets dir) req.
    all: eexists; repeat split; reflexivity.
Qed.

(** X9, witness: [/?name=Jean Dupont&verify=] in production and in
    development. *)
Lemma landing_unverified_person_witness :
  let req := Sample.get [("name", "Jean Dupont"); ("verify", "")]%string in
  run (handle_index Sample.production Sample.files Sample.directory req)
  = (Redirect "https://links.joel-officiel.fr", [])
  ∧ ∃ p, run (handle_index Sample.development Sample.files Sample.directory req)
         = (Html p, [Umami "/link-people"])
         ∧ page_followLabel p = "Sample label"%string.
Proof.
  intros req.
  assert (Hn : query req !! "name" = Some "Jean Dupont"%string) by reflexivity.
  split.
  - destruct (landing_unverified_person Sample.production Sample.files Sample.directory
                req "Jean Dupont" Hn ltac:(vm_compute; lia) ltac:(reflexivity)
                ltac:(reflexivity) ltac:(reflexivity)) as (_ & Hprod & _).
    exact (Hprod ltac:(reflexivity)).
  - destruct (landing_unverified_person Sample.development Sample.files Sample.directory
                req "Jean Dupont" Hn ltac:(vm_compute; lia) ltac:(reflexivity)
                ltac:(reflexivity) ltac:(reflexivity)) as (_ & _ & Hdev).
    destruct (Hdev ltac:(reflexivity)) as (p & Hrun & _ & _ & Hlabel & _).
    exists p. split; [exact Hrun | exact Hlabel].
Defined.

(** X10. The landing page of the [main.html] entry file never renders a
    page for a request that carries [function_tag]: the answer is an error
    body, never a page, a redirect or an image. When the tag is the only
    target, the error is [No result found on JORFSearch.] if the verified
    lookup is empty, and [Follow label not found.] otherwise, since no
    label is ever set for a tag. *)
Theorem index_tag_never_renders
    (env : Env) (assets : Assets) (dir : Directory) (req : Request) (tag : string) :
  query req !! "function_tag" = Some tag →
  (∃ status e, (run (handle_index env assets dir req)).1 = Json status e)
  ∧ (∀ p, (run (handle_index env assets dir req)).1 ≠ Html p)
  ∧ (query req !! "name" = None → query req !! "organisation_id" = None →
     run (handle_index env assets dir req)
     = if verification_requested req
       then (match callJORFSearchTag dir tag with
             | [] => Json 400 ERR_NO_RESULT
             | _ :: _ => Json 400 ERR_LABEL
             end, [SearchTag tag])
       else (Json 400 ERR_LABEL, [])).
Proof.
  unfold verification_requested. intros Ht. split; [|split].
  - paths (handle_index env assets dir) req.
    all: do 2 eexists; reflexivity.
  - paths (handle_index env assets dir) req.
    all: intros p; discriminate.
  - intros Hn Ho. paths (handle_index env assets dir) req.
    all: reflexivity.
Qed.

(** X10, witness: [/?function_tag=ministre] against the sample directory. *)
Lemma index_tag_never_renders_witness :
  let req := Sample.get [("function_tag", "ministre")]%string in
  run (handle_index Sample.production Sample.files Sample.directory req)
  = (Json 400 ERR_LABEL, [SearchTag "ministre"]).
Proof.
  intros req.
  assert (Ht : query req !! "function_tag" = Some "ministre"%string) by reflexivity.
  exact (proj2 (proj2 (index_tag_never_renders Sample.production Sample.files
                         Sample.directory req "ministre" Ht))
           ltac:(reflexivity) ltac:(reflexivity)).
Defined.

(** X11. The landing page of the [choose.html] entry file never looks a
    tag up in the directory: a request whose only target is
    [function_tag] is rendered with the start command [SuivreF tag] (the
    links carry [RechercherF tag]), and [/link-tag] is the only event,
    whatever [verify] says. *)
Theorem choose_tag_not_verified
    (env : Env) (assets : Assets) (dir : Directory) (req : Request) (tag : string) :
  query req !! "function_tag" = Some tag →
  query req !! "name" = None → query req !! "organisation_id" = None →
  ∃ p, run (handle_choose env assets dir req) = (Html p, [Umami "/link-tag"])
       ∧ page_followType p = function_tag
       ∧ page_followArg p = tag
       ∧ page_startCommand p = "SuivreF " +:+ tag
       ∧ page_smoothFlowCommand p = "RechercherF " +:+ tag.
Proof.
  intros Ht Hn Ho. paths (handle_choose env assets dir) req.
  all: eexists; repeat split; reflexivity.
Qed.

(** X11, witness: [/?function_tag=ministre] against an empty directory. *)
Lemma choose_tag_not_verified_witness :
  let req := Sample.get [("function_tag", "ministre")]%string in
  ∃ p, run (handle_choose Sample.production Sample.files Sample.empty_directory req)
       = (Html p, [Umami "/link-tag"])
       ∧ page_startCommand p = "SuivreF ministre"%string.
Proof.
  intros req.
  assert (Ht : query req !! "function_tag" = Some "ministre"%string) by reflexivity.
  destruct (choose_tag_not_verified Sample.production Sample.files Sample.empty_directory
              req "ministre" Ht ltac:(reflexivity) ltac:(reflexivity))
    as (p & Hrun & _ & _ & Hcommand & _).
  exists p. split; [exact Hrun | exact Hcommand].
Defined.

(** X12. An organisation on the landing page with the verification
    skipped (an empty [verify=]); no directory call is made. The
    [main.html] entry file always answers with an HTTP 400:
    VerificationRequired when the identifier in upper case starts with
    [Q], and [Follow label not found.] otherwise. The [choose.html] entry
    file answers VerificationRequired in the first case and otherwise
    renders the page for the identifier in upper case, which also goes
    into the label unescaped. *)
Theorem landing_unverified_organisation
    (env : Env) (assets : Assets) (dir : Directory) (req : Request) (o : string) :
  query req !! "organisation_id" = Some o →
  query req !! "name" = None → query req !! "function_tag" = None →
  verification_requested req = false →
  run (handle_index env assets dir req)
  = (if Js.startsWith (Js.toUpperCase o) "Q"
     then VerificationRequired else Json 400 ERR_LABEL, [])
  ∧ (Js.startsWith (Js.toUpperCase o) "Q" = true →
     run (handle_choose env assets dir req) = (VerificationRequired, []))
  ∧ (Js.startsWith (Js.toUpperCase o) "Q" = false →
     ∃ p, run (handle_choose env assets dir req) = (Html p, [Umami "/link-organisation"])
          ∧ page_followType p = organisation
          ∧ page_followArg p = Js.toUpperCase o
          ∧ page_followLabel p = choose_follow_label (Some (Js.toUpperCase o))
          ∧ page_startCommand p = "SuivreO " +:+ Js.toUpperCase o).
Proof.
  unfold verification_requested. intros Ho Hn Ht Hv. split; [|split].
  - paths (handle_index env assets dir) req. all: reflexivity.
  - intros Hq. paths (handle_choose env assets dir) req. all: reflexivity.
  - intros Hq. paths (handle_choose env assets dir) req.
    all: eexists; repeat split; reflexivity.
Qed.

(** X12, witness: [/?organisation_id=abc&verify=]. *)
Lemma landing_unverified_organisation_witness :
  let req := Sample.get [("organisation_id", "abc"); ("verify", "")]%string in
  run (handle_index Sample.production Sample.files Sample.empty_directory req)
  = (Json 400 ERR_LABEL, [])
  ∧ ∃ p, run (handle_choose Sample.production Sample.files Sample.empty_directory req)
         = (Html p, [Umami "/link-organisation"])
         ∧ page_startCommand p = "SuivreO ABC"%string.
Proof.
  intros req.
  assert (Ho : query req !! "organisation_id" = Some "abc"%string) by reflexivity.
  destruct (landing_unverified_organisation Sample.production Sample.files
              Sample.empty_directory req "abc" Ho ltac:(reflexivity)
              ltac:(reflexivity) ltac:(reflexivity)) as (Hindex & _ & Hchoose).
  split; [exact Hindex|].
  destruct (Hchoose ltac:(reflexivity)) as (p & Hrun & _ & _ & _ & Hcommand).
  exists p. split; [exact Hrun | exact Hcommand].
Defined.

(** X13. The landing page (both entry files) reads [organisation_id]
    in upper case only: replacing the identifier by its upper case gives
    the same answer and the same events. *)
Theorem landing_organisation_id_case_insensitive
    (env : Env) (assets : Assets) (dir : Directory) (req : Request) (o : string) :
  query req !! "organisation_id" = Some o →
  run (handle_index env assets dir (with_parameter req "organisation_id" (Js.toUpperCase o)))
  = run (handle_index env assets dir req)
  ∧ run (handle_choose env assets dir (with_parameter req "organisation_id" (Js.toUpperCase o)))
    = run (handle_choose env assets dir req).
Proof.
  intros Ho. unfold handle_index, handle_choose, with_parameter. cbn [query user_agent].
  rewrite lookup_insert_eq, !lookup_insert_ne by discriminate.
  rewrite Ho, !toUpperCase_idempotent. split; reflexivity.
Qed.

(** X13, witness: [q12345] and [Q12345]. *)
Lemma landing_organisation_id_case_insensitive_witness :
  run (handle_index Sample.production Sample.files Sample.directory
         (with_parameter (Sample.get [("organisation_id", "q12345")]%string)
            "organisation_id" "Q12345"))
  = run (handle_index Sample.production Sample.files Sample.directory
           (Sample.get [("organisation_id", "q12345")]%string)).
Proof.
  exact (proj1 (landing_organisation_id_case_insensitive Sample.production Sample.files
                  Sample.directory (Sample.get [("organisation_id", "q12345")]%string)
                  "q12345" ltac:(reflexivity))).
Defined.

(** X14. Outside development, every page that the [main.html] landing
    page renders is backed by the directory: it is either the page of a
    person, whose label and argument are the first match of the lookup of
    the submitted name, or the page of an organisation, whose label and
    identifier are the single match of the lookup of the submitted
    identifier in upper case. No page is rendered for a tag or for an
    unverified target. *)
Theorem production_page_backed_by_directory
    (env : Env) (assets : Assets) (dir : Directory) (req : Request) (p : Page) :
  isDev env = false →
  (run (handle_index env assets dir req)).1 = Html p →
  (page_followType p = people
   ∧ ∃ n m rest, query req !! "name" = Some n
       ∧ callJORFSearchPeople dir n = m :: rest
       ∧ page_followArg p = prenom m +:+ " " +:+ nom m
       ∧ page_followLabel p = prenom m +:+ " " +:+ nom m)
  ∨ (page_followType p = organisation
     ∧ ∃ o m, query req !! "organisation_id" = Some o
         ∧ callJORFSearchOrganisationByWikidataId dir (Js.toUpperCase o) = [m]
         ∧ page_followArg p = org_id m
         ∧ page_followLabel p = org_name m).
Proof.
  intros Hdev. revert p. paths (handle_index env assets dir) req.
  all: intros page Hpage; cbn [fst] in Hpage; simplify_eq.
  all: cbn [page_followType page_followArg page_followLabel].
  all: first [ left; split; [reflexivity|]; do 3 eexists; repeat split; eassumption
             | right; split; [reflexivity|]; do 2 eexists; repeat split; eassumption ].
Qed.

(** X14, witness: [/?organisation_id=q12345]. *)
Lemma production_page_backed_by_directory_witness :
  let req := Sample.get [("organisation_id", "q12345")]%string in
  ∃ p, (run (handle_index Sample.production Sample.files Sample.directory req)).1 = Html p
       ∧ page_followType p = organisation
       ∧ page_followLabel p = "Acme Org"%string.
Proof.
  intros req.
  sample_page (run (handle_index Sample.production Sample.files Sample.directory req))
    ltac:(fun p =>
      exists p;
      assert (Hp : (run (handle_index Sample.production Sample.files Sample.directory req)).1
                   = Html p) by (vm_compute; reflexivity);
      split; [exact Hp|];
      destruct (production_page_backed_by_directory Sample.production Sample.files
                  Sample.directory req p ltac:(reflexivity) Hp)
        as [[Hk _]|[Hk (o & m & _ & _ & _ & _)]];
      [ discriminate Hk | split; [exact Hk | reflexivity] ]).
Defined.

(** X15. On every page rendered for a person (either entry file) the
    name in the start command has at least two pieces between spaces: it
    passes the check of the [name] parameter again. *)
Theorem person_page_name_has_two_pieces
    (env : Env) (assets : Assets) (dir : Directory) (req : Request) (p : Page) :
  (run (handle_index env assets dir req)).1 = Html p
  ∨ (run (handle_choose env assets dir req)).1 = Html p →
  page_followType p = people →
  (2 ≤ length (Js.split_space (page_followArg p)))%nat.
Proof.
  assert (Hfull : ∀ a b, (2 ≤ length (Js.split_space (a +:+ " " +:+ b)))%nat).
  { intros a b. rewrite split_space_length.
    induction a as [|c a IH]; simpl; lia. }
  intros [H|H]; revert p H.
  - paths (handle_index env assets dir) req.
    all: intros page Hpage; cbn [fst] in Hpage; simplify_eq.
    all: cbn [page_followType page_followArg]; intros Hk; try discriminate Hk.
    all: try apply Hfull.
    all: match goal with Hl : Nat.ltb _ 2 = false |- _ => apply Nat.ltb_ge in Hl; exact Hl end.
  - paths (handle_choose env assets dir) req.
    all: intros page Hpage; cbn [fst] in Hpage; simplify_eq.
    all: cbn [page_followType page_followArg]; intros Hk; try discriminate Hk.
    all: try apply Hfull.
    all: match goal with Hl : Nat.ltb _ 2 = false |- _ => apply Nat.ltb_ge in Hl; exact Hl end.
Qed.

(** X15, witness: [/?name=Jean Dupont]. *)
Lemma person_page_name_has_two_pieces_witness :
  let req := Sample.get [("name", "Jean Dupont")]%string in
  ∃ p, (run (handle_index Sample.production Sample.files Sample.directory req)).1 = Html p
       ∧ (2 ≤ length (Js.split_space (page_followArg p)))%nat.
Proof.
  intros req.
  sample_page (run (handle_index Sample.production Sample.files Sample.directory req))
    ltac:(fun p =>
      exists p;
      assert (Hp : (run (handle_index Sample.production Sample.files Sample.directory req)).1
                   = Html p) by (vm_compute; reflexivity);
      split; [exact Hp|];
      exact (person_page_name_has_two_pieces Sample.production Sample.files
               Sample.directory req p (or_introl Hp) ltac:(reflexivity))).
Defined.

(** ** The events of a run *)

(** The events of a run: no call or one call to the directory, then
    what [k] proves of the answer. *)
Ltac calls_then k :=
  ((exists []) + (eexists [_]));
  refine (conj _ (conj _ _)); [ | | solve [k] ];
  [ repeat constructor | cbn; lia ].

(** The runs of the three handlers: at most one call to the
    directory, then the analytics event that goes with the answer. *)
Lemma index_run_shape (env : Env) (assets : Assets) (dir : Directory) (req : Request) :
  ∃ calls,
    Forall (λ e, is_directory_call e = true) calls ∧ (length calls ≤ 1)%nat
    ∧ match (run (handle_index env assets dir req)).1 with
      | Html p =>
          (run (handle_index env assets dir req)).2
          = calls ++ [Umami (link_event (page_followType p))]
      | Json status _ => (run (handle_index env assets dir req)).2 = calls ∧ status = 400
      | Redirect _ =>
          calls = []
          ∧ (run (handle_index env assets dir req)).2
            = (if isDev env then [Umami "/link-default"] else [])
      | Png _ => False
      end.
Proof.
  paths (handle_index env assets dir) req.
  all: cbn [fst snd page_followType link_event].
  all: calls_then ltac:(idtac; first [reflexivity | split; reflexivity]).
Qed.

Lemma choose_run_shape (env : Env) (assets : Assets) (dir : Directory) (req : Request) :
  ∃ calls,
    Forall (λ e, is_directory_call e = true) calls ∧ (length calls ≤ 1)%nat
    ∧ match (run (handle_choose env assets dir req)).1 with
      | Html p =>
          (run (handle_choose env assets dir req)).2
          = calls ++ [Umami (link_event (page_followType p))]
      | Json status _ => (run (handle_choose env assets dir req)).2 = calls ∧ status = 400
      | Redirect _ | Png _ => False
      end.
Proof.
  paths (handle_choose env assets dir) req.
  all: cbn [fst snd page_followType link_event].
  all: calls_then ltac:(idtac; first [reflexivity | split; reflexivity]).
Qed.

Lemma qrcode_run_shape (env : Env) (assets : Assets) (dir : Directory) (req : Request) :
  ∃ calls,
    Forall (λ e, is_directory_call e = true) calls ∧ (length calls ≤ 1)%nat
    ∧ match (run (handle_qrcode env assets dir req)).1 with
      | Png _ =>
          ∃ kind,
            present req (target_parameter kind) = true
            ∧ (run (handle_qrcode env assets dir req)).2
              = calls ++ (if frame_enabled req then [Umami (qr_event kind)] else [])
      | Json status _ =>
          (run (handle_qrcode env assets dir req)).2 = calls
          ∧ (status = 400 ∨ status = 500)
      | Html _ | Redirect _ => False
      end.
Proof.
  unfold present, param, frame_enabled.
  paths (handle_qrcode env assets dir) req.
  all: cbn [fst snd].
  all: try (calls_then ltac:(idtac; split; [reflexivity | left; reflexivity])).
  all: try (calls_then ltac:(idtac; first
         [ exists people; cbn [target_parameter qr_event]; use_equations; split; reflexivity
         | exists organisation; cbn [target_parameter qr_event]; use_equations; split; reflexivity
         | exists function_tag; cbn [target_parameter qr_event]; use_equations; split; reflexivity ])).
  all: calls_then ltac:(idtac; split; [reflexivity | right; reflexivity]).
Qed.

(** Calls to the directory are no analytics events. *)
Lemma analytics_events_calls (calls : list Event) :
  Forall (λ e, is_directory_call e = true) calls → analytics_events calls = [].
Proof.
  unfold analytics_events.
  induction 1 as [|e l He _ IH]; [reflexivity|].
  destruct e; cbn in *; try discriminate; exact IH.
Qed.

Lemma analytics_events_app (a b : list Event) :
  analytics_events (a ++ b) = analytics_events a ++ analytics_events b.
Proof. apply omap_app. Qed.

(** X16. Whatever the request, a run of the image endpoint or of the
    landing page (either entry file) makes at most one call to the
    directory and logs at most one analytics event, the call first. *)
Theorem at_most_one_directory_call
    (env : Env) (assets : Assets) (dir : Directory) (req : Request) (t : list Event) :
  t = (run (handle_qrcode env assets dir req)).2
  ∨ t = (run (handle_index env assets dir req)).2
  ∨ t = (run (handle_choose env assets dir req)).2 →
  ∃ calls events,
    t = calls ++ map Umami events
    ∧ Forall (λ e, is_directory_call e = true) calls
    ∧ (length calls ≤ 1)%nat ∧ (length events ≤ 1)%nat.
Proof.
  intros [->|[->| ->]].
  - destruct (qrcode_run_shape env assets dir req) as (calls & Hc & Hl & H).
    destruct (run (handle_qrcode env assets dir req)).1; try contradiction.
    + destruct H as [-> _]. exists calls, []. rewrite app_nil_r. auto with lia.
    + destruct H as (kind & _ & ->). destruct (frame_enabled req).
      * exists calls, [qr_event kind]. cbn. auto.
      * exists calls, []. cbn. auto.
  - destruct (index_run_shape env assets dir req) as (calls & Hc & Hl & H).
    destruct (run (handle_index env assets dir req)).1; try contradiction.
    + destruct H as [-> _]. exists calls, []. rewrite app_nil_r. auto with lia.
    + destruct H as [-> ->]. destruct (isDev env).
      * exists [], ["/link-default"%string]. cbn. auto.
      * exists [], []. cbn. auto.
    + rewrite H. eexists calls, [_]. cbn. auto.
  - destruct (choose_run_shape env assets dir req) as (calls & Hc & Hl & H).
    destruct (run (handle_choose env assets dir req)).1; try contradiction.
    + destruct H as [-> _]. exists calls, []. rewrite app_nil_r. auto with lia.
    + rewrite H. eexists calls, [_]. cbn. auto.
Qed.

(** X16, witness: the events of [/qrcode?name=Jean Dupont]. *)
Lemma at_most_one_directory_call_witness :
  let req := Sample.get [("name", "Jean Dupont")]%string in
  ∃ calls events,
    [SearchPeople "Jean Dupont"; Umami "/qr-people"] = calls ++ map Umami events
    ∧ Forall (λ e, is_directory_call e = true) calls
    ∧ (length calls ≤ 1)%nat ∧ (length events ≤ 1)%nat.
Proof.
  intros req.
  assert (Ht : [SearchPeople "Jean Dupont"; Umami "/qr-people"]
               = (run (handle_qrcode Sample.production Sample.files Sample.directory req)).2)
    by (vm_compute; reflexivity).
  exact (at_most_one_directory_call Sample.production Sample.files Sample.directory req
           [SearchPeople "Jean Dupont"; Umami "/qr-people"] (or_introl Ht)).
Defined.

(** X17. The analytics events of the landing page (either entry file):
    a rendered page logs exactly the event of its kind ([/link-people],
    [/link-organisation] or [/link-tag]); an error answer logs nothing; a
    redirect makes no directory call and logs [/link-default] in
    development and nothing otherwise. The landing page never answers
    with an image. *)
Theorem landing_page_events
    (env : Env) (assets : Assets) (dir : Directory) (req : Request)
    (r : Response) (t : list Event) :
  run (handle_index env assets dir req) = (r, t)
  ∨ run (handle_choose env assets dir req) = (r, t) →
  match r with
  | Html p => analytics_events t = [link_event (page_followType p)]
  | Json _ _ => analytics_events t = []
  | Redirect _ =>
      directory_calls t = []
      ∧ analytics_events t = if isDev env then ["/link-default"%string] else []
  | Png _ => False
  end.
Proof.
  intros [H|H].
  - destruct (index_run_shape env assets dir req) as (calls & Hc & Hl & Hs).
    rewrite H in Hs. cbn [fst snd] in Hs. destruct r; try contradiction.
    + destruct Hs as [-> _]. apply analytics_events_calls, Hc.
    + destruct Hs as [-> ->]. destruct (isDev env); split; reflexivity.
    + rewrite Hs, analytics_events_app, (analytics_events_calls _ Hc). reflexivity.
  - destruct (choose_run_shape env assets dir req) as (calls & Hc & Hl & Hs).
    rewrite H in Hs. cbn [fst snd] in Hs. destruct r; try contradiction.
    + destruct Hs as [-> _]. apply analytics_events_calls, Hc.
    + rewrite Hs, analytics_events_app, (analytics_events_calls _ Hc). reflexivity.
Qed.

(** X17, witness: the page of an organisation and the not-found error
    of a person. *)
Lemma landing_page_events_witness :
  analytics_events [SearchOrganisation "Q12345"; Umami "/link-organisation"]
  = [link_event organisation]
  ∧ analytics_events [SearchPeople "Jean Dupont"] = [].
Proof.
  split.
  - pose (req := Sample.get [("organisation_id", "q12345")]%string).
    sample_page (run (handle_index Sample.production Sample.files Sample.directory req))
      ltac:(fun p =>
        assert (Hrun : run (handle_index Sample.production Sample.files Sample.directory req)
                       = (Html p, [SearchOrganisation "Q12345"; Umami "/link-organisation"]))
          by (vm_compute; reflexivity);
        exact (landing_page_events Sample.production Sample.files Sample.directory req
                 (Html p) _ (or_introl Hrun))).
  - pose (req := Sample.get [("name", "Jean Dupont")]%string).
    assert (Hrun : run (handle_index Sample.production Sample.files Sample.empty_directory req)
                   = (Json 400 (ERR_NO_PERSON "Jean Dupont"), [SearchPeople "Jean Dupont"]))
      by (vm_compute; reflexivity).
    exact (landing_page_events Sample.production Sample.files Sample.empty_directory
             req _ _ (or_introl Hrun)).
Defined.

(** X18. The analytics events of the image endpoint: a framed image
    logs exactly the event of the kind whose parameter is present
    ([/qr-people], [/qr-organisation] or [/qr-tag]); an image without the
    frame and an error answer log nothing. The image endpoint never
    answers with a page or a redirect. *)
Theorem qrcode_events
    (env : Env) (assets : Assets) (dir : Directory) (req : Request)
    (r : Response) (t : list Event) :
  run (handle_qrcode env assets dir req) = (r, t) →
  match r with
  | Png _ =>
      if frame_enabled req
      then ∃ kind, present req (target_parameter kind) = true
                   ∧ analytics_events t = [qr_event kind]
      else analytics_events t = []
  | Json _ _ => analytics_events t = []
  | Html _ | Redirect _ => False
  end.
Proof.
  intros H.
  destruct (qrcode_run_shape env assets dir req) as (calls & Hc & Hl & Hs).
  rewrite H in Hs. cbn [fst snd] in Hs. destruct r; try contradiction.
  - destruct Hs as [-> _]. apply analytics_events_calls, Hc.
  - destruct Hs as (kind & Hk & ->). rewrite analytics_events_app, (analytics_events_calls _ Hc).
    destruct (frame_enabled req); [exists kind; split; [exact Hk | reflexivity] | reflexivity].
Qed.

(** X18, witness: [/qrcode?function_tag=ministre&frame=false]. *)
Lemma qrcode_events_witness :
  analytics_events [SearchTag "ministre"] = [].
Proof.
  pose (req := Sample.get [("function_tag", "ministre"); ("frame", "false")]%string).
  pose (r := (run (handle_qrcode Sample.production Sample.files Sample.directory req)).1).
  assert (Hrun : run (handle_qrcode Sample.production Sample.files Sample.directory req)
                 = (r, [SearchTag "ministre"])) by (vm_compute; reflexivity).
  pose proof (qrcode_events Sample.production Sample.files Sample.directory req r
                [SearchTag "ministre"] Hrun) as H.
  vm_compute in H. exact H.
Defined.

(** ** The QR image and the title of a page *)

(** X19. On a page of the [main.html] entry file the first replacement
    is that of [{QRCODE_BLOCK}]. Its value is empty or the image block
    whose source is [/qrcode] with the query [?name=], [?organisation=]
    or [?function_tag=] followed by the page's argument; it is empty
    whenever the user agent is not a mobile one, and outside development
    it is the image block whenever the user agent is a mobile one. *)
Theorem index_qrcode_block
    (env : Env) (assets : Assets) (dir : Directory) (req : Request) (p : Page) :
  (run (handle_index env assets dir req)).1 = Html p →
  ∃ v, head (page_replacements p) = Some ("{QRCODE_BLOCK}"%string, v)
       ∧ (mobile_user_agent (default "" (user_agent req)) = false → v = ""%string)
       ∧ (v = ""%string
          ∨ v = QRCODE_BLOCK
                  (APP_URL_WITH_PORT_QR env +:+ qr_image_query (page_followType p)
                   +:+ page_followArg p))
       ∧ (mobile_user_agent (default "" (user_agent req)) = true → isDev env = false →
          v ≠ ""%string).
Proof.
  revert p. paths (handle_index env assets dir) req.
  all: intros page Hpage; cbn [fst] in Hpage; simplify_eq.
  all: cbn [page_replacements page_followType page_followArg head app qr_image_query].
  all: eexists; split; [reflexivity|].
  all: destruct (mobile_user_agent (default "" (user_agent req))); cbn [andb].
  all: repeat split; try (intros; congruence); try (left; reflexivity);
    try (right; reflexivity); try (intros; discriminate).
Qed.

(** X19, witness: a desktop user agent. *)
Lemma index_qrcode_block_witness :
  let req := {| query := list_to_map [("name", "Jean Dupont")]%string;
                user_agent := Some "Mozilla/5.0 (X11; Linux x86_64)"%string |} in
  ∃ p, (run (handle_index Sample.production Sample.files Sample.directory req)).1 = Html p
       ∧ head (page_replacements p) = Some ("{QRCODE_BLOCK}"%string, ""%string).
Proof.
  intros req.
  sample_page (run (handle_index Sample.production Sample.files Sample.directory req))
    ltac:(fun p =>
      exists p;
      assert (Hp : (run (handle_index Sample.production Sample.files Sample.directory req)).1
                   = Html p) by (vm_compute; reflexivity);
      split; [exact Hp|];
      destruct (index_qrcode_block Sample.production Sample.files Sample.directory req p Hp)
        as (v & Hhead & Hdesktop & _);
      rewrite Hhead, (Hdesktop ltac:(reflexivity)); reflexivity).
Defined.

(** X20. On a page of the [choose.html] entry file the first two
    replacements are [{QR_URL}], the URI-encoded address of [/qrcode]
    with the query [?name=], [?organisation=] or [?function_tag=], the
    page's argument and [&frame=false], and [{HIDDEN_QR}], which is
    [hidden] exactly for a mobile user agent. *)
Theorem choose_qr_url
    (env : Env) (assets : Assets) (dir : Directory) (req : Request) (p : Page) :
  (run (handle_choose env assets dir req)).1 = Html p →
  take 2 (page_replacements p)
  = [("{QR_URL}"%string,
      Js.encodeURI (APP_URL_WITH_PORT_QR env +:+ qr_image_query (page_followType p)
                    +:+ page_followArg p +:+ "&frame=false"));
     ("{HIDDEN_QR}"%string,
      if mobile_user_agent (default "" (user_agent req)) then "hidden"%string else ""%string)].
Proof.
  revert p. paths (handle_choose env assets dir) req.
  all: intros page Hpage; cbn [fst] in Hpage; simplify_eq.
  all: cbn [page_replacements page_followType page_followArg qr_image_query take].
  all: do 2 f_equal.
  all: unfold APP_URL_WITH_PORT_QR, APP_URL_WITH_PORT, APP_URL; simpl;
    rewrite !append_assoc; reflexivity.
Qed.

(** X20, witness: an organisation seen from an iPhone. *)
Lemma choose_qr_url_witness :
  let req := {| query := list_to_map [("organisation_id", "q12345")]%string;
                user_agent := Some "Mozilla/5.0 (iPhone; CPU iPhone OS 17_0 like Mac OS X)"%string |} in
  ∃ p, (run (handle_choose Sample.production Sample.files Sample.directory req)).1 = Html p
       ∧ take 2 (page_replacements p)
         = [("{QR_URL}"%string,
             "https://links.joel-officiel.fr:3000/qrcode?organisation=Q12345&frame=false"%string);
            ("{HIDDEN_QR}"%string, "hidden"%string)].
Proof.
  intros req.
  sample_page (run (handle_choose Sample.production Sample.files Sample.directory req))
    ltac:(fun p =>
      exists p;
      assert (Hp : (run (handle_choose Sample.production Sample.files Sample.directory req)).1
                   = Html p) by (vm_compute; reflexivity);
      split; [exact Hp|];
      rewrite (choose_qr_url Sample.production Sample.files Sample.directory req p Hp);
      reflexivity).
Defined.

(** X21. The image block is a fixed text around the source of the
    image, which is written without quotes and followed by [ />]. That
    source is an output of [encodeURI]: whatever the URL, it holds no
    space, no angle bracket and no double quote. *)
Theorem qrcode_block_source_is_uri_text :
  (∃ before after,
     (∀ url, QRCODE_BLOCK url
             = before +:+ Js.encodeURI (url +:+ "&frame=false") +:+ after)
     ∧ Js.startsWith after " />" = true)
  ∧ ∀ url,
      Forall (λ c, c ≠ " "%char ∧ c ≠ "<"%char ∧ c ≠ ">"%char ∧ c ≠ "034"%char)
        (characters (Js.encodeURI (url +:+ "&frame=false"))).
Proof.
  split.
  - exists ("
          <div
              class=" +:+ Js.dq +:+ "max-w-md mx-auto mt-5 sm:flex sm:justify-center md:mt-8" +:+ Js.dq +:+ "
          >
          <img id=" +:+ Js.dq +:+ "qrcode" +:+ Js.dq +:+ " class=" +:+ Js.dq +:+ "qrcode" +:+ Js.dq
      +:+ " alt=" +:+ Js.dq +:+ "QR code" +:+ Js.dq +:+ " src="), (" />
              </div>").
    split; [|reflexivity]. intros url. unfold QRCODE_BLOCK.
    rewrite !append_assoc. reflexivity.
  - intros url. eapply Forall_impl; [apply encodeURI_characters|].
    intros c [Hc| ->]; [|repeat split; discriminate].
    repeat split; intros ->; discriminate Hc.
Qed.

(** X22. Every rendered page (either entry file) replaces
    [{PAGE_TITLE}] by the default title when the argument is empty and by
    [PAGE_TITLE_WITH_NAME.replace({NAME}, argument)] otherwise; for an
    argument without the character [$], which [replace] would expand, that
    is [Suivre argument sur JOEL - Journal Electronique]. *)
Theorem page_title_replacement
    (env : Env) (assets : Assets) (dir : Directory) (req : Request) (p : Page) :
  (run (handle_index env assets dir req)).1 = Html p
  ∨ (run (handle_choose env assets dir req)).1 = Html p →
  In ("{PAGE_TITLE}"%string,
      if Js.truthy (page_followArg p)
      then Js.replace PAGE_TITLE_WITH_NAME "{NAME}" (page_followArg p)
      else PAGE_TITLE_DEFAULT)
    (page_replacements p)
  ∧ (no_dollar (page_followArg p) = true →
     Js.replace PAGE_TITLE_WITH_NAME "{NAME}" (page_followArg p)
     = "Suivre " +:+ page_followArg p +:+ " sur JOEL - Journal Electronique").
Proof.
  intros H. split.
  - destruct H as [H|H]; revert p H.
    + paths (handle_index env assets dir) req.
      all: intros page Hpage; cbn [fst] in Hpage; simplify_eq.
      all: cbn [page_replacements page_followArg].
      all: do 3 right; left; use_equations; reflexivity.
    + paths (handle_choose env assets dir) req.
      all: intros page Hpage; cbn [fst] in Hpage; simplify_eq.
      all: cbn [page_replacements page_followArg].
      all: do 4 right; left; use_equations; reflexivity.
  - intros Hd. unfold Js.replace, PAGE_TITLE_WITH_NAME.
    change (Js.find_first "{NAME}" "Suivre {NAME} sur JOEL - Journal Electronique")
      with (Some ("Suivre "%string, " sur JOEL - Journal Electronique"%string)).
    cbv iota beta. rewrite (expand_replacement_plain _ _ _ _ Hd). reflexivity.
Qed.

(** X22, witness: [/?name=Jean Dupont]. *)
Lemma page_title_replacement_witness :
  let req := Sample.get [("name", "Jean Dupont")]%string in
  ∃ p, (run (handle_index Sample.production Sample.files Sample.directory req)).1 = Html p
       ∧ In ("{PAGE_TITLE}"%string, "Suivre Jean DUPONT sur JOEL - Journal Electronique"%string)
           (page_replacements p).
Proof.
  intros req.
  sample_page (run (handle_index Sample.production Sample.files Sample.directory req))
    ltac:(fun p =>
      exists p;
      assert (Hp : (run (handle_index Sample.production Sample.files Sample.directory req)).1
                   = Html p) by (vm_compute; reflexivity);
      split; [exact Hp|];
      exact (proj1 (page_title_replacement Sample.production Sample.files Sample.directory
                      req p (or_introl Hp)))).
Defined.

(** ** The messengers: routes, blocks and links *)

(** X23. The routes [/whatsapp], [/telegram], [/matrix] and [/tchap]
    redirect to the link of the messenger when its environment variable
    is set and not empty: the fixed address, then the URI-encoded value
    of the variable, then for WhatsApp and Telegram the greeting
    [?text=Bonjour%20JOEL!]. Otherwise, and always for [/signal], they
    redirect to the bare [joel-officiel.fr], without a scheme. *)
Theorem messenger_routes (env : Env) :
  handle_whatsapp env
  = Redirect (match WHATSAPP_BOT__PHONE_NUMBER env with
              | Some (String c n) =>
                  "https://wa.me/" +:+ Js.encodeURI (String c n) +:+ "?text=Bonjour%20JOEL!"
              | _ => "joel-officiel.fr"
              end)
  ∧ handle_telegram env
    = Redirect (match TELEGRAM_BOT_NAME env with
                | Some (String c n) =>
                    "https://t.me/" +:+ Js.encodeURI (String c n) +:+ "?text=Bonjour%20JOEL!"
                | _ => "joel-officiel.fr"
                end)
  ∧ handle_matrix env
    = Redirect (match MATRIX_BOT_USERNAME env with
                | Some (String c n) => "https://matrix.to/#/@" +:+ Js.encodeURI (String c n)
                | _ => "joel-officiel.fr"
                end)
  ∧ handle_tchap env
    = Redirect (match TCHAP_BOT_USERNAME env with
                | Some (String c n) =>
                    "https://www.tchap.gouv.fr/#/@" +:+ Js.encodeURI (String c n)
                | _ => "joel-officiel.fr"
                end)
  ∧ handle_signal = Redirect "joel-officiel.fr".
Proof.
  unfold handle_whatsapp, handle_telegram, handle_matrix, handle_tchap, handle_signal,
    whatsappLinkBase, telegramLinkBase, matrixLinkBase, tchapLinkBase, signalLinkBase.
  repeat split.
  - destruct (WHATSAPP_BOT__PHONE_NUMBER env) as [[|c n]|]; try reflexivity.
    cbn [Js.truthy]. rewrite !encodeURI_app. reflexivity.
  - destruct (TELEGRAM_BOT_NAME env) as [[|c n]|]; try reflexivity.
    cbn [Js.truthy]. rewrite !encodeURI_app. reflexivity.
  - destruct (MATRIX_BOT_USERNAME env) as [[|c n]|]; reflexivity.
  - destruct (TCHAP_BOT_USERNAME env) as [[|c n]|]; reflexivity.
Qed.

(** The replacements of a messenger: its block, and its link when it
    has one. *)
Lemma messenger_replacements_spec
    (env : Env) (assets : Assets) (command : string) (m : Messenger) :
  In (block_placeholder m,
      if defined (messenger_variable env m) then messenger_block assets m else ""%string)
    (messenger_replacements env assets command)
  ∧ ∀ v, In (link_placeholder m, v) (messenger_replacements env assets command)
         ↔ ∃ base, messenger_linkBase env m = Some base
                   ∧ v = messenger_link m base command.
Proof.
  unfold messenger_replacements, hasWhatsapp, hasTelegram, hasMatrix, hasTchap.
  split.
  - destruct m; cbn [block_placeholder messenger_variable messenger_block];
      apply in_or_app; left; cbn; tauto.
  - intros v.
    destruct (whatsappLinkBase env) as [bw|] eqn:Hw;
      destruct (telegramLinkBase env) as [bt|] eqn:Ht;
      destruct (matrixLinkBase env) as [bm|] eqn:Hm;
      destruct (tchapLinkBase env) as [bc|] eqn:Hc;
      destruct m; cbn [link_placeholder messenger_linkBase messenger_link];
      rewrite ?Hw, ?Ht, ?Hm, ?Hc; cbn [In List.app];
      (split;
       [ intros H; repeat (destruct H as [H|H]; [try discriminate H|]);
         try contradiction; try (injection H as <-; eexists; split; reflexivity)
       | intros (base & Hb & ->); try discriminate Hb; injection Hb as ->; tauto ]).
Qed.

(** X24. For each messenger, a page replaces the block placeholder by
    the block when the environment variable is defined and by the empty
    text otherwise, and replaces the link placeholder exactly when the
    messenger has a link, by the link with the command for WhatsApp and
    Telegram and by the bare link for Matrix and Tchap. A messenger with
    a link always has its block. A variable set to the empty text gives
    a block without a link (the placeholder of the link is not replaced)
    and a route that redirects to the home website. The startup check
    guarantees that at least one variable is defined. *)
Theorem messenger_blocks_and_links
    (env : Env) (assets : Assets) (command : string) (m : Messenger) :
  In (block_placeholder m,
      if defined (messenger_variable env m) then messenger_block assets m else ""%string)
    (messenger_replacements env assets command)
  ∧ (∀ v, In (link_placeholder m, v) (messenger_replacements env assets command)
          ↔ ∃ base, messenger_linkBase env m = Some base
                    ∧ v = messenger_link m base command)
  ∧ (messenger_linkBase env m ≠ None → defined (messenger_variable env m) = true)
  ∧ (messenger_variable env m = Some ""%string →
     messenger_linkBase env m = None
     ∧ messenger_route env m = Redirect HOME_WEBSITE_URL
     ∧ In (block_placeholder m, messenger_block assets m)
         (messenger_replacements env assets command)
     ∧ ∀ v, ¬ In (link_placeholder m, v) (messenger_replacements env assets command))
  ∧ (startup_ok env = true → ∃ m', defined (messenger_variable env m') = true).
Proof.
  destruct (messenger_replacements_spec env assets command m) as [Hblock Hlink].
  split; [exact Hblock|]. split; [exact Hlink|]. split; [|split].
  - destruct m; cbn [messenger_linkBase messenger_variable];
      unfold whatsappLinkBase, telegramLinkBase, matrixLinkBase, tchapLinkBase;
      match goal with |- context [match ?x with _ => _ end] => destruct x end;
      cbn; congruence.
  - intros Hv.
    assert (Hb : messenger_linkBase env m = None).
    { destruct m; cbn [messenger_linkBase messenger_variable] in *;
        unfold whatsappLinkBase, telegramLinkBase, matrixLinkBase, tchapLinkBase;
        rewrite Hv; reflexivity. }
    split; [exact Hb|]. split; [|split].
    + destruct m; cbn [messenger_route messenger_linkBase] in *;
        unfold handle_whatsapp, handle_telegram, handle_matrix, handle_tchap;
        rewrite Hb; reflexivity.
    + rewrite Hv in Hblock. exact Hblock.
    + intros v Hin. apply Hlink in Hin as (base & Hbase & _). congruence.
  - unfold startup_ok, hasTelegram, hasWhatsapp, hasMatrix, hasTchap, hasSignal.
    intros H. apply andb_true_iff in H as [H _].
    repeat (apply orb_true_iff in H as [H|H]); try discriminate H.
    + exists Telegram. exact H.
    + exists WhatsApp. exact H.
    + exists Matrix. exact H.
    + exists Tchap. exact H.
Qed.

(** X24, witness: a deployment whose WhatsApp number is set to the empty
    text. *)
Lemma messenger_blocks_and_links_witness :
  let env := {| PORT := None; NODE_ENV := Some "production";
                TELEGRAM_BOT_NAME := Some "joel_bot";
                WHATSAPP_BOT__PHONE_NUMBER := Some "";
                MATRIX_BOT_USERNAME := None; TCHAP_BOT_USERNAME := None;
                UMAMI_HOST := Some "stats.example.org"; UMAMI_ID := Some "joel" |}%string in
  startup_ok env = true
  ∧ handle_whatsapp env = Redirect "joel-officiel.fr"
  ∧ In ("{WHATSAPP_BLOCK}"%string, WHATSAPP_BLOCK Sample.files)
      (messenger_replacements env Sample.files "Rechercher Jean DUPONT")
  ∧ ∀ v, ¬ In ("{WHATSAPP_LINK}"%string, v)
             (messenger_replacements env Sample.files "Rechercher Jean DUPONT").
Proof.
  intros env. split; [reflexivity|].
  destruct (messenger_blocks_and_links env Sample.files "Rechercher Jean DUPONT" WhatsApp)
    as (_ & _ & _ & Hempty & _).
  destruct (Hempty ltac:(reflexivity)) as (_ & Hroute & Hblock & Hlink).
  split; [exact Hroute|]. split; [exact Hblock | exact Hlink].
Defined.

(** X25. On every rendered page (either entry file) the WhatsApp and
    Telegram links are the address to which the routes [/whatsapp] and
    [/telegram] redirect, followed by [%20] and the URI-encoded command
    of the page. *)
Theorem page_links_extend_routes
    (env : Env) (assets : Assets) (dir : Directory) (req : Request) (p : Page) :
  (run (handle_index env assets dir req)).1 = Html p
  ∨ (run (handle_choose env assets dir req)).1 = Html p →
  (∀ base, whatsappLinkBase env = Some base →
     ∃ u, handle_whatsapp env = Redirect u
          ∧ In ("{WHATSAPP_LINK}"%string,
                u +:+ "%20" +:+ Js.encodeURI (page_smoothFlowCommand p))
              (page_replacements p))
  ∧ (∀ base, telegramLinkBase env = Some base →
       ∃ u, handle_telegram env = Redirect u
            ∧ In ("{TELEGRAM_LINK}"%string,
                  u +:+ "%20" +:+ Js.encodeURI (page_smoothFlowCommand p))
                (page_replacements p)).
Proof.
  intros H.
  assert (Hok : page_commands_ok env p).
  { destruct H as [H|H];
      [ exact (index_page_commands env assets dir req p H)
      | exact (choose_page_commands env assets dir req p H) ]. }
  destruct Hok as (_ & _ & _ & _ & Hw & Ht). split.
  - intros base Hb. exists (Js.encodeURI base). split.
    + unfold handle_whatsapp. rewrite Hb. reflexivity.
    + specialize (Hw base Hb). rewrite !encodeURI_app in Hw. exact Hw.
  - intros base Hb. exists (Js.encodeURI base). split.
    + unfold handle_telegram. rewrite Hb. reflexivity.
    + specialize (Ht base Hb). rewrite !encodeURI_app in Ht. exact Ht.
Qed.

(** X25, witness: the WhatsApp link on the page of an organisation. *)
Lemma page_links_extend_routes_witness :
  let req := Sample.get [("organisation_id", "q12345")]%string in
  ∃ p, (run (handle_index Sample.production Sample.files Sample.directory req)).1 = Html p
       ∧ ∃ u, handle_whatsapp Sample.production = Redirect u
              ∧ In ("{WHATSAPP_LINK}"%string,
                    u +:+ "%20" +:+ Js.encodeURI (page_smoothFlowCommand p))
                  (page_replacements p).
Proof.
  intros req.
  sample_page (run (handle_index Sample.production Sample.files Sample.directory req))
    ltac:(fun p =>
      exists p;
      assert (Hp : (run (handle_index Sample.production Sample.files Sample.directory req)).1
                   = Html p) by (vm_compute; reflexivity);
      split; [exact Hp|];
      exact (proj1 (page_links_extend_routes Sample.production Sample.files Sample.directory
                      req p (or_introl Hp))
               "https://wa.me/33600000000?text=Bonjour JOEL!"%string ltac:(reflexivity))).
Defined.

(** ** The analytics client *)

(** X26. [log] of [umami.ts], once the startup checks have passed. In
    development nothing is sent. Otherwise the event is posted to
    [https://UMAMI_HOST/api/send] with the host, the website identifier
    and the name of the event; the data carry [messageApp: qr-gateway],
    also over a [messageApp] of the caller, and the caller's other
    entries unchanged. *)
Theorem umami_log_request
    (env : Env) (event : string) (args_data : option (gmap string string)) :
  startup_ok env = true →
  match Umami.log env event args_data with
  | None => isDev env = true
  | Some post =>
      isDev env = false
      ∧ ∃ host id,
          UMAMI_HOST env = Some host ∧ UMAMI_ID env = Some id
          ∧ Umami.endpoint post = "https://" +:+ host +:+ "/api/send"
          ∧ Umami.hostname post = Some host
          ∧ Umami.website post = Some id
          ∧ Umami.name post = event
          ∧ Umami.data post !! "messageApp" = Some "qr-gateway"%string
          ∧ ∀ k, k ≠ "messageApp"%string → Umami.data post !! k = default ∅ args_data !! k
  end.
Proof.
  unfold startup_ok, Umami.log. intros H. apply andb_true_iff in H as [_ H].
  destruct (isDev env); [reflexivity|].
  cbn [orb] in H. apply andb_true_iff in H as [Hh Hi].
  destruct (UMAMI_HOST env) as [host|]; [|discriminate].
  destruct (UMAMI_ID env) as [site|]; [|discriminate].
  split; [reflexivity|]. exists host, site.
  cbn [Umami.endpoint Umami.hostname Umami.website Umami.name Umami.data
       Umami.String_of_variable default from_option id].
  repeat split.
  - apply lookup_insert_eq.
  - intros k Hk. apply lookup_insert_ne. congruence.
Qed.

(** X26, witness: the sample deployments. *)
Lemma umami_log_request_witness :
  ∃ post, Umami.log Sample.production "/link-people" None = Some post
          ∧ Umami.endpoint post = "https://stats.example.org/api/send"%string
          ∧ Umami.log Sample.development "/link-people" None = None.
Proof.
  pose proof (umami_log_request Sample.production "/link-people" None ltac:(reflexivity)) as H.
  destruct (Umami.log Sample.production "/link-people" None) as [post|] eqn:E;
    [|discriminate H].
  exists post. split; [reflexivity|].
  destruct H as (_ & host & site & Hhost & _ & Hendpoint & _).
  injection Hhost as <-. split; [exact Hendpoint | reflexivity].
Defined.

(** Calls to the directory post nothing. *)
Lemma posts_of_calls (env : Env) (calls : list Event) :
  Forall (λ e, is_directory_call e = true) calls → Umami.posts env calls = [].
Proof.
  unfold Umami.posts.
  induction 1 as [|e l He _ IH]; [reflexivity|].
  destruct e; cbn in *; try discriminate; exact IH.
Qed.

(** X27. Once the startup checks have passed, a page rendered by the
    landing page (either entry file) posts nothing in development and
    otherwise exactly one analytics request, to
    [https://UMAMI_HOST/api/send], named after the kind of the page, with
    [messageApp: qr-gateway] as its only data. *)
Theorem page_analytics_post
    (env : Env) (assets : Assets) (dir : Directory) (req : Request)
    (p : Page) (t : list Event) :
  startup_ok env = true →
  run (handle_index env assets dir req) = (Html p, t)
  ∨ run (handle_choose env assets dir req) = (Html p, t) →
  if isDev env then Umami.posts env t = []
  else ∃ host post,
         UMAMI_HOST env = Some host
         ∧ Umami.posts env t = [post]
         ∧ Umami.endpoint post = "https://" +:+ host +:+ "/api/send"
         ∧ Umami.name post = link_event (page_followType p)
         ∧ Umami.data post = {[ "messageApp"%string := "qr-gateway"%string ]}.
Proof.
  intros Hstart Hrun.
  assert (Ht : ∃ calls, Forall (λ e, is_directory_call e = true) calls
                        ∧ t = calls ++ [Umami (link_event (page_followType p))]).
  { destruct Hrun as [H|H].
    - destruct (index_run_shape env assets dir req) as (calls & Hc & _ & Hs).
      rewrite H in Hs. eauto.
    - destruct (choose_run_shape env assets dir req) as (calls & Hc & _ & Hs).
      rewrite H in Hs. eauto. }
  destruct Ht as (calls & Hc & ->).
  unfold Umami.posts. rewrite omap_app. fold (Umami.posts env calls).
  rewrite (posts_of_calls env calls Hc). cbn [omap list_omap app].
  unfold startup_ok in Hstart. apply andb_true_iff in Hstart as [_ Hstart].
  unfold Umami.log. destruct (isDev env); [reflexivity|].
  cbn [orb] in Hstart. apply andb_true_iff in Hstart as [Hh _].
  destruct (UMAMI_HOST env) as [host|]; [|discriminate].
  eexists host, _. split; [reflexivity|]. split; [reflexivity|].
  repeat split.
Qed.

(** X27, witness: the page of an organisation in production. *)
Lemma page_analytics_post_witness :
  let req := Sample.get [("organisation_id", "q12345")]%string in
  ∃ p post,
    (run (handle_index Sample.production Sample.files Sample.directory req)).1 = Html p
    ∧ Umami.posts Sample.production
        (run (handle_index Sample.production Sample.files Sample.directory req)).2 = [post]
    ∧ Umami.endpoint post = "https://stats.example.org/api/send"%string
    ∧ Umami.name post = "/link-organisation"%string.
Proof.
  intros req.
  sample_page (run (handle_index Sample.production Sample.files Sample.directory req))
    ltac:(fun p =>
      assert (Hrun : run (handle_index Sample.production Sample.files Sample.directory req)
                     = (Html p, [SearchOrganisation "Q12345"; Umami "/link-organisation"]))
        by (vm_compute; reflexivity);
      pose proof (page_analytics_post Sample.production Sample.files Sample.directory req
                    p _ ltac:(reflexivity) (or_introl Hrun)) as H;
      cbn [isDev Sample.production NODE_ENV String.eqb Ascii.eqb Bool.eqb] in H;
      destruct H as (host & post & Hhost & Hposts & Hendpoint & Hname & _);
      injection Hhost as <-;
      exists p, post; rewrite Hrun; repeat split;
        [ exact Hposts | exact Hendpoint | exact Hname ]).
Defined.

(** ** The port of the advertised URLs *)

(** X28. The port in [APP_URL_WITH_PORT]: [3000] when [PORT] is unset
    or empty; the text of [PORT] itself when it is the decimal text of a
    natural number below [2 ^ 53], the range in which a JavaScript number
    is the integer read ([parseInt] then [String] give the text back);
    and [NaN] when [PORT] does not start with a number. *)
Theorem advertised_port (env : Env) :
  (PORT env = None ∨ PORT env = Some ""%string →
   APP_URL_WITH_PORT env = APP_URL env +:+ ":3000")
  ∧ (∀ n, 0 ≤ n < 2 ^ 53 → PORT env = Some (Js.String_of_int n) →
       appPort env = Some n
       ∧ APP_URL_WITH_PORT env = APP_URL env +:+ ":" +:+ Js.String_of_int n)
  ∧ (∀ p, PORT env = Some p → Js.truthy p = true → Js.parseInt p = None →
       APP_URL_WITH_PORT env = APP_URL env +:+ ":NaN").
Proof.
  unfold APP_URL_WITH_PORT, appPort. split; [|split].
  - intros [-> | ->]; reflexivity.
  - intros n [Hn _] ->.
    assert (Ht : Js.truthy (Js.String_of_int n) = true).
    { destruct (Js.String_of_int n) eqn:E; [|reflexivity].
      exfalso. revert E. unfold Js.String_of_int.
      destruct (n <? 0); [discriminate|]. apply digits_fuel_not_empty. left. lia. }
    rewrite Ht, (parseInt_String_of_int n Hn). split; reflexivity.
  - intros p -> -> ->. reflexivity.
Qed.

(** X28, witness: [PORT=8080] in development and no [PORT] in production. *)
Lemma advertised_port_witness :
  APP_URL_WITH_PORT Sample.development = "http://localhost:8080"%string
  ∧ APP_URL_WITH_PORT Sample.production = "https://links.joel-officiel.fr:3000"%string.
Proof.
  destruct (advertised_port Sample.development) as (_ & Hport & _).
  destruct (advertised_port Sample.production) as (Hdefault & _).
  assert (Hunset : PORT Sample.production = None) by reflexivity.
  split.
  - exact (proj2 (Hport 8080 ltac:(lia) ltac:(reflexivity))).
  - exact (Hdefault (or_introl Hunset)).
Defined.

(** ** The image endpoint when an image library throws *)

(** Without the QR bitmap, or with a logo that does not fit it,
    [generateQrWithLogo] fails. *)
Lemma generateQrWithLogo_default_fails (assets : Assets) (url : string) :
  qr_image_width assets (Js.encodeURI url) 600 1 = None
  ∨ (qr_image_width assets (Js.encodeURI url) 600 1 = Some 600 ∧ logo_fits assets = false) →
  generateQrWithLogo assets url default_options = None.
Proof.
  intros H. unfold generateQrWithLogo, default_options.
  cbn [qrSize margin dark light logoPath logoScale].
  change (Num.floor (Num.js_mul (Num.of_Z 600) Num.c0_45)) with 270.
  destruct (sharp_resize_inside _ 270) as [[lw lh]|] eqn:Hr; [|reflexivity].
  unfold sharp_composite. cbn [pixel_size].
  destruct H as [-> | [-> Hl]]; [reflexivity|].
  unfold logo_fits in Hl. rewrite Hr in Hl.
  cbn [forallb layer_fits pixel_size]. rewrite Hl. reflexivity.
Qed.

(** Over a frame that does not hold them, the QR bitmap and the text
    layer are not composed. *)
Lemma frame_composite_fails
    (assets : Assets) (qr : Raster) (left top text_top : Z) (hidden : bool) (label : string) :
  pixel_size assets qr = Some (600, 600) →
  frame_holds assets label = false →
  sharp_composite assets (FramePng FRAME_PATH)
    [Overlay qr left top;
     Overlay (TextSvg (default 0 (frame_metadata assets).1) (FONT_SIZE * 3) FONT_SIZE
                TEXT_COLOR hidden label) 0 text_top]
  = None.
Proof.
  unfold frame_holds, sharp_composite. intros Hq Hf. cbn [pixel_size].
  destruct (frame_metadata assets) as [[W|] [H|]]; try reflexivity.
  cbn [forallb layer_fits pixel_size fst from_option id]. rewrite Hq.
  destruct ((600 <=? W) && (600 <=? H)); [|reflexivity].
  cbn [andb] in Hf. rewrite Hf. reflexivity.
Qed.

(** X29. The image endpoint answers HTTP 500 with
    [QR code generation failed.] when an image library throws, shown on a
    person whose verification is skipped (an empty [verify=]): when
    [qrcode] does not draw the URL; when it does and the resized logo does
    not fit the bitmap; and, in frame mode, when the frame does not hold
    the bitmap or the text layer with the name is not read, as for a name
    with [<] or [&], which the handler writes into the SVG as it is. No
    analytics event is logged on that answer. *)
Theorem qrcode_library_failure
    (env : Env) (assets : Assets) (dir : Directory) (req : Request) (n : string) :
  query req !! "name" = Some n →
  (2 ≤ length (Js.split_space n))%nat →
  param req "organisation_id" = ""%string → param req "function_tag" = ""%string →
  size_frame_conflict req = false →
  verification_requested req = false →
  let text := Js.encodeURI (Js.encodeURI (APP_URL_WITH_PORT env +:+ "?name=" +:+ n)) in
  let failure := (Json 500 "QR code generation failed.", []) in
  (qr_image_width assets text 600 1 = None →
   run (handle_qrcode env assets dir req) = failure)
  ∧ (qr_image_width assets text 600 1 = Some 600 → logo_fits assets = false →
     run (handle_qrcode env assets dir req) = failure)
  ∧ (qr_image_width assets text 600 1 = Some 600 → logo_fits assets = true →
     frame_enabled req = true → frame_holds assets n = false →
     run (handle_qrcode env assets dir req) = failure).
Proof.
  intros Hn Hl Ho Ht Hc Hv text failure. subst text failure.
  unfold verification_requested, size_frame_conflict, frame_enabled, param in *.
  pose proof (two_pieces_not_empty n Hl) as Hne. apply Nat.ltb_ge in Hl.
  split; [|split].
  - intros Hq. paths (handle_qrcode env assets dir) req.
    all: try reflexivity.
    all: match goal with
         | E : generateQrWithLogo _ _ _ = Some _ |- _ =>
             rewrite generateQrWithLogo_default_fails in E by (left; exact Hq);
             discriminate E
         end.
  - intros Hq Hlogo. paths (handle_qrcode env assets dir) req.
    all: try reflexivity.
    all: match goal with
         | E : generateQrWithLogo _ _ _ = Some _ |- _ =>
             rewrite generateQrWithLogo_default_fails in E by (right; split; assumption);
             discriminate E
         end.
  - intros Hq Hlogo Hframe Hf. paths (handle_qrcode env assets dir) req.
    all: try reflexivity.
    all: destruct (generateQrWithLogo_default _ _ Hq Hlogo) as [lh Hg].
    all: match goal with
         | E : generateQrWithLogo _ _ _ = Some ?r |- _ =>
             is_var r; rewrite Hg in E; simplify_eq
         end.
    all: match goal with
         | E : sharp_composite _ _ _ = Some _ |- _ =>
             rewrite frame_composite_fails in E;
             [ discriminate E | cbn [pixel_size]; rewrite Hq; reflexivity | exact Hf ]
         end.
Qed.

(** X29, witness: [/qrcode?name=R&D Dupont&verify=] in frame mode. *)
Lemma qrcode_library_failure_witness :
  let req := Sample.get [("name", "R&D Dupont"); ("verify", "")]%string in
  frame_holds Sample.files "R&D Dupont" = false
  ∧ run (handle_qrcode Sample.production Sample.files Sample.empty_directory req)
    = (Json 500 "QR code generation failed.", []).
Proof.
  intros req.
  assert (Hn : query req !! "name" = Some "R&D Dupont"%string) by reflexivity.
  destruct (qrcode_library_failure Sample.production Sample.files Sample.empty_directory
              req "R&D Dupont" Hn ltac:(vm_compute; lia)
              ltac:(reflexivity) ltac:(reflexivity) ltac:(reflexivity) ltac:(reflexivity))
    as (_ & _ & H).
  split; [reflexivity|].
  exact (H ltac:(reflexivity) ltac:(reflexivity) ltac:(reflexivity) ltac:(reflexivity)).
Defined.
